(** * NewsAggregator: rundown scheduling and feed categorisation

    A shallow embedding of the parts of [news_aggregator.py] that decide
    the behaviour of the rundown (the ordered list of timed segments) and
    of the feed categorisation:

    - [parse_duration_string], [parse_backtime_string] (static methods of
      [NewsAggregatorApp]);
    - the categorisation chain of [PullStoriesWorker.run];
    - [get_rundown_items], [update_rundown_tree], [send_to_rundown],
      [calculate_backtimes], [move_rundown_item], [delete_rundown_item],
      [on_tab_changed], [update_backtime_clock] and the slot
      [handle_rundown_item_changed];
    - of [RundownItemDelegate], the validator of the duration editor, the
      time editor of the backtime cell and what [sizeHint] does to the
      layout of the tree;
    - [get_current_feeds], [add_feed], [edit_feed] and [delete_feed] of
      the feed manager.

    Conventions of the model.

    - A Python [str] is a [string]: a sequence of code points below 256.
      On those, [str.strip], [str.lower], [str.split], [in], [int] and the
      regular expressions of [datetime.strptime] are modelled as CPython
      3.11 implements them.
    - Values held by a story dictionary are [pyval]; a dictionary is a
      [gmap string pyval]. An item of the tree stores a dictionary of its
      own: [setData] stores a copy of what it is given and [data] hands
      out a copy of what is stored, so that a write to the dictionary
      that [data] handed out does not reach the item.
    - The tree widget of the rundown is a list of [Item]; a row of the
      widget is an index in that list.
    - A computation that can raise returns a [result]; a method of the
      application is a function from the application state to a new state
      and a [result]: what was written before an exception stays written.
    - [datetime.now()] is an argument of the method that reads the clock.
    - LC_TIME is an English locale or the C locale (what [safe_set_locale]
      asks for): [%p] is AM or PM.
    - [RundownItemDelegate.sizeHint] names [QTextDocument], which the
      module does not import. The tree asks for the size of its rows when
      [expandAll] lays them out and when the rundown tab is shown: for a
      title that is not empty that is a [NameError], which ends the method
      that asked for the layout.
    - The slot [handle_rundown_item_changed] is a method of the model, for
      the changes that the user makes. The calls that the tree makes after
      the writes of [update_rundown_tree] and of the scheduler are left
      out: there the slot finds no dictionary yet, or the backtime column,
      which it does not handle, or, after [setData], it ends inside the
      slot without a change to the item.
    - Tool tips, item flags, icons, column widths, the selection, the
      status bar and the teleprompter are left out. *)

From Stdlib Require Import ZArith Lia List Ascii String Bool DecimalString.
From stdpp Require Import gmap strings list fin_maps.

Local Open Scope string_scope.
Local Open Scope list_scope.
Local Open Scope Z_scope.

(** ** Exceptions and results *)

Inductive exn : Type :=
  | ValueError
  | KeyError
  | TypeError
  | AttributeError
  | OverflowError
  | NameError.

Inductive result (A : Type) : Type :=
  | Ok (a : A)
  | Raise (e : exn).

Arguments Ok {A} a.
Arguments Raise {A} e.

Definition result_bind {A B : Type} (r : result A) (k : A -> result B) : result B :=
  match r with
  | Ok a => k a
  | Raise e => Raise e
  end.

Notation "'try!' x ':=' r 'in' k" := (result_bind r (fun x => k))
  (at level 10, x name, r at level 100, k at level 200,
   format "'try!'  x  ':='  r  'in' '//' k").

(** [list(map(f, xs))]: [f] is applied from left to right and the first
    exception ends the traversal. *)
Fixpoint map_result {A B : Type} (f : A -> result B) (xs : list A) : result (list B) :=
  match xs with
  | [] => Ok []
  | x :: xs' =>
      try! y := f x in
      try! ys := map_result f xs' in
      Ok (y :: ys)
  end.

(** ** Characters and strings *)

Definition ord (c : ascii) : Z := Z.of_nat (nat_of_ascii c).

Definition between (lo hi n : Z) : bool := (lo <=? n) && (n <=? hi).

(** [str.isspace] on one character, which is also [\s] of [re] on a [str]
    pattern. *)
Definition isspace (c : ascii) : bool :=
  let n := ord c in
  between 9 13 n || between 28 31 n || (n =? 32) || (n =? 133) || (n =? 160).

(** The white space that [int] skips around a number: the file, group,
    record and unit separators (28 to 31) are not part of it. *)
Definition int_space (c : ascii) : bool :=
  let n := ord c in
  between 9 13 n || (n =? 32) || (n =? 133) || (n =? 160).

(** A decimal digit, [\d] of [re]. *)
Definition isdecimal (c : ascii) : bool := between 48 57 (ord c).

Definition digit_value (c : ascii) : Z := ord c - 48.

(** [str.lower] on one character. *)
Definition lower_char (c : ascii) : ascii :=
  let n := ord c in
  if between 65 90 n || between 192 214 n || between 216 222 n
  then ascii_of_nat (Z.to_nat (n + 32))
  else c.

Fixpoint lower (s : string) : string :=
  match s with
  | EmptyString => EmptyString
  | String c s' => String (lower_char c) (lower s')
  end.

Fixpoint lstrip_by (p : ascii -> bool) (s : string) : string :=
  match s with
  | EmptyString => EmptyString
  | String c s' => if p c then lstrip_by p s' else s
  end.

(** Removes the characters of [p] at the end: a character stays when a
    kept character follows it or when it is not in [p]. *)
Fixpoint rstrip_by (p : ascii -> bool) (s : string) : string :=
  match s with
  | EmptyString => EmptyString
  | String c s' =>
      match rstrip_by p s' with
      | EmptyString => if p c then EmptyString else String c EmptyString
      | t => String c t
      end
  end.

(** [s.strip()] *)
Definition strip (s : string) : string := rstrip_by isspace (lstrip_by isspace s).

(** [s.split(sep)] for a separator of one character. *)
Fixpoint split (sep : ascii) (s : string) : list string :=
  match s with
  | EmptyString => [EmptyString]
  | String c s' =>
      if Ascii.eqb c sep then EmptyString :: split sep s'
      else match split sep s' with
           | h :: t => String c h :: t
           | [] => [String c EmptyString]
           end
  end.

(** [sub in s] *)
Fixpoint contains (sub s : string) : bool :=
  String.prefix sub s ||
  match s with
  | EmptyString => false
  | String _ s' => contains sub s'
  end.

(** ** Integers and their text *)

(** [sys.int_info.default_max_str_digits] *)
Definition max_str_digits : nat := 4300.

(** The digits of a decimal literal after its first digit: digits, each
    possibly preceded by one underscore. Returns the value, the number of
    digits and the rest of the text. *)
Fixpoint int_digits (acc : Z) (count : nat) (s : string) : option (Z * nat * string) :=
  match s with
  | String c s' =>
      if isdecimal c then int_digits (acc * 10 + digit_value c) (S count) s'
      else if Ascii.eqb c "_" then
        match s' with
        | String d s'' =>
            if isdecimal d then int_digits (acc * 10 + digit_value d) (S count) s''
            else None
        | EmptyString => None
        end
      else Some (acc, count, s)
  | EmptyString => Some (acc, count, s)
  end.

(** [int(s)] for a [str]: white space, a sign, digits with single
    underscores between them, white space; anything else is a
    [ValueError], and so is a literal of more than [max_str_digits]
    digits. *)
Definition py_int (s : string) : result Z :=
  let s1 := lstrip_by int_space s in
  let '(negative, s2) :=
    match s1 with
    | String "-" t => (true, t)
    | String "+" t => (false, t)
    | _ => (false, s1)
    end in
  match s2 with
  | String c s3 =>
      if isdecimal c then
        match int_digits (digit_value c) 1 s3 with
        | Some (v, count, rest) =>
            match lstrip_by int_space rest with
            | EmptyString =>
                if (max_str_digits <? count)%nat then Raise ValueError
                else Ok (if negative then - v else v)
            | _ => Raise ValueError
            end
        | None => Raise ValueError
        end
      else Raise ValueError
  | EmptyString => Raise ValueError
  end.

(** ** Durations *)

(** [NewsAggregatorApp.parse_duration_string]. The argument is the text of
    a cell, a [str], so the [isinstance] test passes. The conversion of
    the tokens stands before the [try]: its [ValueError] leaves the
    function. Inside the [try] nothing raises. *)
Definition parse_duration_string (duration_str : string) : result (option Z) :=
  try! parts := map_result py_int (split ":" duration_str) in
  match parts with
  | [minutes; seconds] =>
      if (0 <=? seconds) && (seconds <? 60)
      then Ok (Some (minutes * 60 + seconds))
      else Ok None
  | [hours; minutes; seconds] =>
      if ((0 <=? minutes) && (minutes <? 60)) && ((0 <=? seconds) && (seconds <? 60))
      then Ok (Some (hours * 3600 + minutes * 60 + seconds))
      else Ok None
  | _ => Ok None
  end.

(** ** Categories *)

(** The chain of [PullStoriesWorker.run] that derives the category of the
    stories of a feed from the name of the feed. *)
Definition category (feed_name : string) : string :=
  if contains "technology" (lower feed_name) then "Technology"
  else if contains "sports" (lower feed_name) then "Sports"
  else if contains "politics" (lower feed_name) then "Politics"
  else if contains "world" (lower feed_name) || contains "international" (lower feed_name)
       then "World News"
  else if contains "business" (lower feed_name) then "Business"
  else if contains "entertainment" (lower feed_name) then "Entertainment"
  else "Other".

(** ** Times of day, dates and durations of the [datetime] module *)

Record time : Type := mk_time {
  hour : Z;
  minute : Z;
  second : Z;
  microsecond : Z
}.

(** A naive [datetime]: its date is kept as the proleptic Gregorian day
    number ([toordinal()]); the methods modelled here never read the year,
    month or day apart from copying the date. *)
Record datetime : Type := mk_datetime {
  ordinal : Z;
  clock : time
}.

(** A normalised [timedelta]. *)
Record timedelta : Type := mk_timedelta {
  days : Z;
  seconds : Z;
  microseconds : Z
}.

Definition MAXORDINAL : Z := 3652059.

Definition seconds_of_time (t : time) : Z :=
  hour t * 3600 + minute t * 60 + second t.

Definition time_of_seconds (s us : Z) : time :=
  {| hour := s / 3600; minute := (s mod 3600) / 60; second := s mod 60;
     microsecond := us |}.

(** [timedelta(days=d, seconds=s, microseconds=us)] *)
Definition timedelta_new (d s us : Z) : result timedelta :=
  let s1 := s + us / 1000000 in
  let d1 := d + s1 / 86400 in
  if 999999999 <? Z.abs d1 then Raise OverflowError
  else Ok {| days := d1; seconds := s1 mod 86400; microseconds := us mod 1000000 |}.

(** [dt + td] for [factor = 1] and [dt - td] for [factor = -1]: the fields
    are added, carried over, and the date has to stay in range. *)
Definition add_datetime_timedelta (dt : datetime) (td : timedelta) (factor : Z)
  : result datetime :=
  let us := microsecond (clock dt) + factor * microseconds td in
  let s := seconds_of_time (clock dt) + factor * seconds td + us / 1000000 in
  let d := ordinal dt + factor * days td + s / 86400 in
  if (1 <=? d) && (d <=? MAXORDINAL)
  then Ok {| ordinal := d; clock := time_of_seconds (s mod 86400) (us mod 1000000) |}
  else Raise OverflowError.

(** [a - b] for two dates and times. *)
Definition datetime_diff (a b : datetime) : result timedelta :=
  timedelta_new (ordinal a - ordinal b)
                (seconds_of_time (clock a) - seconds_of_time (clock b))
                (microsecond (clock a) - microsecond (clock b)).

(** [td.total_seconds() > n] for an integer [n]: the quotient by a million
    is compared exactly. *)
Definition total_seconds_gt (td : timedelta) (n : Z) : bool :=
  n * 1000000 <? (days td * 86400 + seconds td) * 1000000 + microseconds td.

Fixpoint lex_lt (xs ys : list Z) : bool :=
  match xs, ys with
  | x :: xs', y :: ys' => (x <? y) || ((x =? y) && lex_lt xs' ys')
  | _, _ => false
  end.

(** [a < b] *)
Definition datetime_lt (a b : datetime) : bool :=
  lex_lt [ordinal a; hour (clock a); minute (clock a); second (clock a);
          microsecond (clock a)]
         [ordinal b; hour (clock b); minute (clock b); second (clock b);
          microsecond (clock b)].

(** ** [strftime] *)

Definition digit_char (n : Z) : ascii := ascii_of_nat (Z.to_nat (48 + n)).

(** A field of two digits, as [%I], [%M] and [%S] print it. *)
Definition two_digits (n : Z) : string :=
  String (digit_char (n / 10)) (String (digit_char (n mod 10)) EmptyString).

Definition hour12 (t : time) : Z :=
  if hour t mod 12 =? 0 then 12 else hour t mod 12.

Definition am_pm (t : time) : string :=
  if hour t <? 12 then "AM" else "PM".

(** [dt.strftime("%I:%M %p")] *)
Definition strftime_IMp (dt : datetime) : string :=
  two_digits (hour12 (clock dt)) +:+ ":" +:+ two_digits (minute (clock dt))
  +:+ " " +:+ am_pm (clock dt).

(** [dt.strftime("%I:%M:%S %p")] *)
Definition strftime_IMSp (dt : datetime) : string :=
  two_digits (hour12 (clock dt)) +:+ ":" +:+ two_digits (minute (clock dt))
  +:+ ":" +:+ two_digits (second (clock dt)) +:+ " " +:+ am_pm (clock dt).

(** ** [strptime]

    [datetime.strptime] turns the format into a regular expression, takes
    the first match that the backtracking search of [re.match] finds at the
    start of the text, and refuses the text when the match does not reach
    its end. The pieces below are the expressions of the directives, with
    their alternatives in the order of [_strptime.py]; a piece hands the
    value it read and the rest of the text to the pieces after it, and the
    next alternative is tried when those fail. *)

Section Regex.
Context {R : Type}.

Definition orelse (a b : option R) : option R :=
  match a with
  | Some r => Some r
  | None => b
  end.

(** One character of the class [p]. *)
Definition re_char (p : ascii -> bool) (s : string)
  (k : ascii -> string -> option R) : option R :=
  match s with
  | String c s' => if p c then k c s' else None
  | EmptyString => None
  end.

Definition in_range (lo hi : Z) (c : ascii) : bool := between lo hi (ord c).

(** Two characters of the classes [p] and [q], read as a number. *)
Definition re_two (p q : ascii -> bool) (s : string)
  (k : Z -> string -> option R) : option R :=
  re_char p s (fun c s' =>
  re_char q s' (fun d s'' => k (digit_value c * 10 + digit_value d) s'')).

Definition re_one (p : ascii -> bool) (s : string)
  (k : Z -> string -> option R) : option R :=
  re_char p s (fun c s' => k (digit_value c) s').

(** [%I]: [1[0-2]|0[1-9]|[1-9]] *)
Definition re_I (s : string) (k : Z -> string -> option R) : option R :=
  orelse (re_two (in_range 49 49) (in_range 48 50) s k)
 (orelse (re_two (in_range 48 48) (in_range 49 57) s k)
         (re_one (in_range 49 57) s k)).

(** [%H]: [2[0-3]|[0-1]\d|\d] *)
Definition re_H (s : string) (k : Z -> string -> option R) : option R :=
  orelse (re_two (in_range 50 50) (in_range 48 51) s k)
 (orelse (re_two (in_range 48 49) isdecimal s k)
         (re_one isdecimal s k)).

(** [%M]: [[0-5]\d|\d] *)
Definition re_M (s : string) (k : Z -> string -> option R) : option R :=
  orelse (re_two (in_range 48 53) isdecimal s k)
         (re_one isdecimal s k).

(** [%S]: [6[0-1]|[0-5]\d|\d] *)
Definition re_S (s : string) (k : Z -> string -> option R) : option R :=
  orelse (re_two (in_range 54 54) (in_range 48 49) s k)
 (orelse (re_two (in_range 48 53) isdecimal s k)
         (re_one isdecimal s k)).

Definition re_colon (s : string) (k : string -> option R) : option R :=
  re_char (Ascii.eqb ":") s (fun _ s' => k s').

(** [\s*], greedy: the longest run of white space first. *)
Fixpoint re_spaces0 (s : string) (k : string -> option R) : option R :=
  match s with
  | String c s' => if isspace c then orelse (re_spaces0 s' k) (k s) else k s
  | EmptyString => k s
  end.

(** [\s+], which a blank of the format becomes. *)
Definition re_spaces (s : string) (k : string -> option R) : option R :=
  re_char isspace s (fun _ s' => re_spaces0 s' k).

(** [%p]: [am|pm], letters of either case; hands over whether it read
    [pm]. *)
Definition re_p (s : string) (k : bool -> string -> option R) : option R :=
  let letter (l : ascii) (c : ascii) := Ascii.eqb (lower_char c) l in
  orelse (re_char (letter "a"%char) s (fun _ s' =>
          re_char (letter "m"%char) s' (fun _ s'' => k false s'')))
         (re_char (letter "p"%char) s (fun _ s' =>
          re_char (letter "m"%char) s' (fun _ s'' => k true s''))).
End Regex.

(** The hour of a 12-hour clock with its AM or PM mark. *)
Definition hour_of_12 (h : Z) (pm : bool) : Z :=
  if pm then (if h =? 12 then 12 else h + 12)
  else (if h =? 12 then 0 else h).

(** The end of a [strptime]: the match has to reach the end of the text,
    and [datetime] refuses a second field of 60 or 61, which [%S] reads. *)
Definition strptime_finish (m : option (Z * Z * Z * string)) : result time :=
  match m with
  | Some (h, mi, s, EmptyString) =>
      if s <? 60 then Ok {| hour := h; minute := mi; second := s; microsecond := 0 |}
      else Raise ValueError
  | _ => Raise ValueError
  end.

(** [datetime.strptime(s, "%I:%M:%S %p").time()] *)
Definition strptime_IMSp (s : string) : result time :=
  strptime_finish
    (re_I s (fun h s1 => re_colon s1 (fun s2 => re_M s2 (fun mi s3 =>
     re_colon s3 (fun s4 => re_S s4 (fun sec s5 => re_spaces s5 (fun s6 =>
     re_p s6 (fun pm rest => Some (hour_of_12 h pm, mi, sec, rest))))))))).

(** [datetime.strptime(s, "%I:%M %p").time()] *)
Definition strptime_IMp (s : string) : result time :=
  strptime_finish
    (re_I s (fun h s1 => re_colon s1 (fun s2 => re_M s2 (fun mi s3 =>
     re_spaces s3 (fun s4 =>
     re_p s4 (fun pm rest => Some (hour_of_12 h pm, mi, 0, rest))))))).

(** [datetime.strptime(s, "%H:%M:%S").time()] *)
Definition strptime_HMS (s : string) : result time :=
  strptime_finish
    (re_H s (fun h s1 => re_colon s1 (fun s2 => re_M s2 (fun mi s3 =>
     re_colon s3 (fun s4 => re_S s4 (fun sec rest => Some (h, mi, sec, rest))))))).

(** [datetime.strptime(s, "%H:%M").time()] *)
Definition strptime_HM (s : string) : result time :=
  strptime_finish
    (re_H s (fun h s1 => re_colon s1 (fun s2 => re_M s2 (fun mi rest =>
     Some (h, mi, 0, rest))))).

(** The loop of [parse_backtime_string] over its formats: a [ValueError],
    the one exception of [strptime] on a [str], moves on to the next
    format. *)
Fixpoint first_format (formats : list (string -> result time)) (s : string) : option time :=
  match formats with
  | [] => None
  | fmt :: formats' =>
      match fmt s with
      | Ok t => Some t
      | Raise _ => first_format formats' s
      end
  end.

(** [NewsAggregatorApp.parse_backtime_string]: [None] for a text that is
    empty or blank, and [None] again for a text that no format reads. *)
Definition parse_backtime_string (bt_str : string) : option time :=
  if String.eqb bt_str "" || String.eqb (strip bt_str) "" then None
  else first_format [strptime_IMSp; strptime_IMp; strptime_HMS; strptime_HM] (strip bt_str).

(** ** Values and story dictionaries *)

(** The values that a story dictionary holds: what the feed worker stores
    and what a rundown file of texts, numbers, booleans and nulls loads. *)
Inductive pyval : Type :=
  | VNone
  | VBool (b : bool)
  | VInt (n : Z)
  | VStr (s : string).

#[global] Instance pyval_eq_dec : EqDecision pyval.
Proof. solve_decision. Defined.

(** [bool(v)] *)
Definition truthy (v : pyval) : bool :=
  match v with
  | VNone => false
  | VBool b => b
  | VInt n => negb (n =? 0)
  | VStr s => negb (String.eqb s "")
  end.

Definition as_number (v : pyval) : option Z :=
  match v with
  | VBool b => Some (if b then 1 else 0)
  | VInt n => Some n
  | _ => None
  end.

(** [a == b]: a boolean is the number 1 or 0. *)
Definition py_eq (a b : pyval) : bool :=
  match a, b with
  | VNone, VNone => true
  | VStr s, VStr t => String.eqb s t
  | _, _ =>
      match as_number a, as_number b with
      | Some x, Some y => x =? y
      | _, _ => false
      end
  end.

(** [a + b] *)
Definition py_add (a b : pyval) : result pyval :=
  match a, b with
  | VStr s, VStr t => Ok (VStr (s +:+ t))
  | _, _ =>
      match as_number a, as_number b with
      | Some x, Some y => Ok (VInt (x + y))
      | _, _ => Raise TypeError
      end
  end.

(** [str(n)] for an integer. *)
Definition str_of_Z (n : Z) : string := NilZero.string_of_int (Z.to_int n).

Abbreviation dict := (gmap string pyval).

(** [d.get(key, dflt)] *)
Definition dict_get (d : dict) (key : string) (dflt : pyval) : pyval :=
  default dflt (d !! key).

(** [d[key]] where [d] is a dictionary or [None]. *)
Definition subscript (d : option dict) (key : string) : result pyval :=
  match d with
  | None => Raise TypeError
  | Some m =>
      match m !! key with
      | Some v => Ok v
      | None => Raise KeyError
      end
  end.

(** [bool(d)] where [d] is a dictionary or [None]. *)
Definition has_data (d : option dict) : bool :=
  match d with
  | None => false
  | Some m => negb (size m =? 0)%nat
  end.

(** ** The widgets *)

(** A top-level item of the rundown tree: the texts of the columns Title,
    Source, Duration, Backtime and Character, the check box of the column
    Active, and the story dictionary kept under [Qt.UserRole] of column 0
    ([None] as long as none was set). Tool tips, flags, icons, widths and
    the selection are left out. *)
Record Item : Type := mk_item {
  text0 : string;
  text1 : string;
  text2 : string;
  text3 : string;
  text4 : string;
  check5 : bool;
  user_data : option dict
}.

(** [QTreeWidgetItem()] *)
Definition new_item : Item :=
  {| text0 := ""; text1 := ""; text2 := ""; text3 := ""; text4 := "";
     check5 := false; user_data := None |}.

Definition setText0 (v : string) (it : Item) : Item :=
  {| text0 := v; text1 := text1 it; text2 := text2 it; text3 := text3 it;
     text4 := text4 it; check5 := check5 it; user_data := user_data it |}.
Definition setText1 (v : string) (it : Item) : Item :=
  {| text0 := text0 it; text1 := v; text2 := text2 it; text3 := text3 it;
     text4 := text4 it; check5 := check5 it; user_data := user_data it |}.
Definition setText2 (v : string) (it : Item) : Item :=
  {| text0 := text0 it; text1 := text1 it; text2 := v; text3 := text3 it;
     text4 := text4 it; check5 := check5 it; user_data := user_data it |}.
Definition setText3 (v : string) (it : Item) : Item :=
  {| text0 := text0 it; text1 := text1 it; text2 := text2 it; text3 := v;
     text4 := text4 it; check5 := check5 it; user_data := user_data it |}.
Definition setText4 (v : string) (it : Item) : Item :=
  {| text0 := text0 it; text1 := text1 it; text2 := text2 it; text3 := text3 it;
     text4 := v; check5 := check5 it; user_data := user_data it |}.
Definition setCheckState5 (b : bool) (it : Item) : Item :=
  {| text0 := text0 it; text1 := text1 it; text2 := text2 it; text3 := text3 it;
     text4 := text4 it; check5 := b; user_data := user_data it |}.
Definition setData0 (d : dict) (it : Item) : Item :=
  {| text0 := text0 it; text1 := text1 it; text2 := text2 it; text3 := text3 it;
     text4 := text4 it; check5 := check5 it; user_data := Some d |}.

(** A story of the articles tree, below its category: its check box and
    its dictionary. *)
Record Article : Type := mk_article {
  art_check : bool;
  art_data : option dict
}.

Inductive tab : Type := SettingsTab | FeedManagerTab | ArticlesTab | RundownTab.

#[global] Instance tab_eq_dec : EqDecision tab.
Proof. solve_decision. Defined.

(** The state of [NewsAggregatorApp] that the rundown reads and writes. A
    message box is kept as its title and its text. *)
Record App : Type := mk_app {
  articles_tree : list (list Article);
  rundown_tree : list Item;
  rundown_clock_label : string;
  log_output : list string;
  recalculating_backtimes : bool;
  current_tab : tab;
  message_boxes : list (string * string)
}.

Definition set_articles_tree (v : list (list Article)) (st : App) : App :=
  {| articles_tree := v; rundown_tree := rundown_tree st;
     rundown_clock_label := rundown_clock_label st; log_output := log_output st;
     recalculating_backtimes := recalculating_backtimes st;
     current_tab := current_tab st; message_boxes := message_boxes st |}.
Definition set_rundown_tree (v : list Item) (st : App) : App :=
  {| articles_tree := articles_tree st; rundown_tree := v;
     rundown_clock_label := rundown_clock_label st; log_output := log_output st;
     recalculating_backtimes := recalculating_backtimes st;
     current_tab := current_tab st; message_boxes := message_boxes st |}.
Definition set_rundown_clock_label (v : string) (st : App) : App :=
  {| articles_tree := articles_tree st; rundown_tree := rundown_tree st;
     rundown_clock_label := v; log_output := log_output st;
     recalculating_backtimes := recalculating_backtimes st;
     current_tab := current_tab st; message_boxes := message_boxes st |}.
Definition set_log_output (v : list string) (st : App) : App :=
  {| articles_tree := articles_tree st; rundown_tree := rundown_tree st;
     rundown_clock_label := rundown_clock_label st; log_output := v;
     recalculating_backtimes := recalculating_backtimes st;
     current_tab := current_tab st; message_boxes := message_boxes st |}.
Definition set_recalculating_backtimes (v : bool) (st : App) : App :=
  {| articles_tree := articles_tree st; rundown_tree := rundown_tree st;
     rundown_clock_label := rundown_clock_label st; log_output := log_output st;
     recalculating_backtimes := v;
     current_tab := current_tab st; message_boxes := message_boxes st |}.
Definition set_current_tab (v : tab) (st : App) : App :=
  {| articles_tree := articles_tree st; rundown_tree := rundown_tree st;
     rundown_clock_label := rundown_clock_label st; log_output := log_output st;
     recalculating_backtimes := recalculating_backtimes st;
     current_tab := v; message_boxes := message_boxes st |}.
Definition set_message_boxes (v : list (string * string)) (st : App) : App :=
  {| articles_tree := articles_tree st; rundown_tree := rundown_tree st;
     rundown_clock_label := rundown_clock_label st; log_output := log_output st;
     recalculating_backtimes := recalculating_backtimes st;
     current_tab := current_tab st; message_boxes := v |}.

(** ** Methods: state and exceptions *)

Definition M (A : Type) : Type := App -> App * result A.

Definition ret {A : Type} (a : A) : M A := fun st => (st, Ok a).

Definition bind {A B : Type} (m : M A) (k : A -> M B) : M B :=
  fun st =>
    match m st with
    | (st', Ok a) => k a st'
    | (st', Raise e) => (st', Raise e)
    end.

Definition lift {A : Type} (r : result A) : M A := fun st => (st, r).

Definition gets {A : Type} (f : App -> A) : M A := fun st => (st, Ok (f st)).

Definition modify (f : App -> App) : M unit := fun st => (f st, Ok tt).

(** [try: m finally: cleanup] *)
Definition finally {A : Type} (m : M A) (cleanup : App -> App) : M A :=
  fun st => let '(st', r) := m st in (cleanup st', r).

Notation "x <- m ;; k" := (bind m (fun x => k))
  (at level 100, m at next level, right associativity,
   format "x  <-  m  ;;  '//' k").
Notation "m ;;; k" := (bind m (fun _ => k))
  (at level 100, right associativity, format "m  ;;;  '//' k").

(** [for x in xs: acc = body(x, acc)] *)
Fixpoint for_each {A S : Type} (xs : list A) (body : A -> S -> M S) (acc : S) : M S :=
  match xs with
  | [] => ret acc
  | x :: xs' => acc' <- body x acc ;; for_each xs' body acc'
  end.

(** [self.rundown_tree.topLevelItem(i)]; outside the rows Qt hands out
    [None], on which the next method call is an [AttributeError]. *)
Definition topLevelItem (i : nat) : M Item :=
  fun st =>
    match rundown_tree st !! i with
    | Some item => (st, Ok item)
    | None => (st, Raise AttributeError)
    end.

(** A method that changes the item of row [i] in place. *)
Definition update_item (i : nat) (f : Item -> Item) : M unit :=
  modify (fun st => set_rundown_tree (alter f i (rundown_tree st)) st).

Definition log_append (line : string) : M unit :=
  modify (fun st => set_log_output (log_output st ++ [line]) st).

(** The text that [item.setText(col, v)] receives: [v] has to be a [str],
    or [None], which Qt reads as the empty text. *)
Definition as_str (v : pyval) : result string :=
  match v with
  | VStr s => Ok s
  | VNone => Ok ""
  | _ => Raise TypeError
  end.

(** ** The backtime scheduler *)

(** One turn of the first loop of [calculate_backtimes]: the duration of
    an active item is added to the total, or reported in the log when it
    is not a duration. *)
Definition add_duration (i : nat) (total_duration_seconds : Z) : M Z :=
  item <- topLevelItem i ;;
  let story_data := user_data item in
  if has_data story_data &&
     truthy (dict_get (default ∅ story_data) "active" (VBool true))
  then
    let duration_str := text2 item in
    seconds <- lift (parse_duration_string duration_str) ;;
    match seconds with
    | Some n => ret (total_duration_seconds + n)
    | None =>
        log_append ("Invalid duration format for '" +:+ text0 item +:+ "': "
                    +:+ duration_str) ;;;
        ret total_duration_seconds
    end
  else ret total_duration_seconds.

(** The end of the show: the backtime of the last item when it reads as a
    time of day, today, or tomorrow when that is more than an hour ago;
    otherwise half an hour from now, on the minute. *)
Definition show_end (now : datetime) : M datetime :=
  count <- gets (fun st => length (rundown_tree st)) ;;
  last_item_backtime_str <-
    (if (0 <? count)%nat
     then last_item <- topLevelItem (count - 1) ;; ret (text3 last_item)
     else ret "") ;;
  show_end_time <-
    (if negb (String.eqb last_item_backtime_str "") then
       match parse_backtime_string last_item_backtime_str with
       | Some parsed_time =>
           let show_end_time :=
             {| ordinal := ordinal now;
                clock := {| hour := hour parsed_time; minute := minute parsed_time;
                            second := second parsed_time; microsecond := 0 |} |} in
           if datetime_lt show_end_time now then
             ago <- lift (datetime_diff now show_end_time) ;;
             if total_seconds_gt ago 3600 then
               one_day <- lift (timedelta_new 1 0 0) ;;
               tomorrow <- lift (add_datetime_timedelta show_end_time one_day 1) ;;
               ret (Some tomorrow)
             else ret (Some show_end_time)
           else ret (Some show_end_time)
       | None =>
           log_append ("Invalid backtime format for last item: "
                       +:+ last_item_backtime_str) ;;;
           ret None
       end
     else ret None) ;;
  match show_end_time with
  | Some t => ret t
  | None =>
      half_hour <- lift (timedelta_new 0 (30 * 60) 0) ;;
      t <- lift (add_datetime_timedelta now half_hour 1) ;;
      ret {| ordinal := ordinal t;
             clock := {| hour := hour (clock t); minute := minute (clock t);
                         second := 0; microsecond := 0 |} |}
  end.

(** One turn of the second loop: the duration of an active item is taken
    off the running time, which becomes the backtime of the item, to the
    minute. *)
Definition set_backtime (i : nat) (current_time : datetime) : M datetime :=
  item <- topLevelItem i ;;
  let story_data := user_data item in
  duration_seconds <-
    (if has_data story_data &&
        truthy (dict_get (default ∅ story_data) "active" (VBool true))
     then
       seconds <- lift (parse_duration_string (text2 item)) ;;
       match seconds with
       | Some n => ret n
       | None => ret 0
       end
     else ret 0) ;;
  delta <- lift (timedelta_new 0 duration_seconds 0) ;;
  current_time' <- lift (add_datetime_timedelta current_time delta (-1)) ;;
  update_item i (setText3 (strftime_IMp current_time')) ;;;
  ret current_time'.

(** [calculate_backtimes], with [now] the reading of the clock. *)
Definition calculate_backtimes (now : datetime) : M unit :=
  recalculating <- gets recalculating_backtimes ;;
  if recalculating then ret tt
  else
    modify (set_recalculating_backtimes true) ;;;
    finally
      (count <- gets (fun st => length (rundown_tree st)) ;;
       for_each (seq 0 count) add_duration 0 ;;;
       show_end_time <- show_end now ;;
       current_time <- for_each (rev (seq 0 count)) set_backtime show_end_time ;;
       modify (set_rundown_clock_label ("Backtime: " +:+ strftime_IMSp current_time)))
      (set_recalculating_backtimes false).

(** [on_tab_changed], for the tab that is shown. *)
Definition on_tab_changed (now : datetime) (shown : tab) : M unit :=
  if decide (shown = RundownTab) then calculate_backtimes now else ret tt.

(** ** The layout of the rundown tree *)

(** A title that is not empty. For the size of such a title
    [RundownItemDelegate.sizeHint], the delegate of column 0, builds a
    [QTextDocument], a name that the module does not import; for an empty
    title it asks the base class. *)
Definition titled (item : Item) : bool := negb (String.eqb (text0 item) "").

(** The tree lays out its rows, for which it asks the delegate for the
    size of the titles: a [NameError] when a row has a title that is not
    empty. *)
Definition layout_rows : M unit :=
  fun st =>
    if existsb titled (rundown_tree st) then (st, Raise NameError) else (st, Ok tt).

(** [self.tabs.setCurrentWidget(w)], when another tab was shown: the tab
    is shown, the rundown tree on it is laid out, and [currentChanged] is
    sent, to [on_tab_changed], where the [NameError] of the layout ends
    the slot before the scheduler runs. *)
Definition setCurrentWidget (now : datetime) (w : tab) : M unit :=
  current <- gets current_tab ;;
  if decide (current = w) then ret tt
  else
    modify (set_current_tab w) ;;;
    (if decide (w = RundownTab) then layout_rows else ret tt) ;;;
    on_tab_changed now w.

(** ** The rundown store *)

(** What [get_rundown_items] appends for an item that has a dictionary:
    the copy that [item.data] hands out, brought up to date with the cells
    of the item. The dictionary that the item stores stays as it is. *)
Definition story_of_item (item : Item) : option dict :=
  match user_data item with
  | Some story_data =>
      if has_data (Some story_data) then
        Some (<["active" := VBool (check5 item)]>
             (<["profile" := VStr (text4 item)]>
             (<["backtime" := VStr (text3 item)]>
             (<["duration" := VStr (text2 item)]> story_data))))
      else None
  | None => None
  end.

Definition get_rundown_items : M (list dict) :=
  tree <- gets rundown_tree ;;
  ret (omap story_of_item tree).

(** The body of the loop of [update_rundown_tree]: the item is created in
    the tree, then filled, cell after cell. *)
Definition add_item (story_data : dict) (_ : unit) : M unit :=
  i <- gets (fun st => length (rundown_tree st)) ;;
  modify (fun st => set_rundown_tree (rundown_tree st ++ [new_item]) st) ;;;
  title <- lift (try! v := subscript (Some story_data) "title" in as_str v) ;;
  update_item i (setText0 title) ;;;
  source <- lift (try! v := subscript (Some story_data) "source" in as_str v) ;;
  update_item i (setText1 source) ;;;
  duration <- lift (as_str (dict_get story_data "duration" (VStr "00:00"))) ;;
  update_item i (setText2 duration) ;;;
  backtime <- lift (as_str (dict_get story_data "backtime" (VStr "00:00 AM"))) ;;
  update_item i (setText3 backtime) ;;;
  profile <- lift (as_str (dict_get story_data "profile" (VStr "Default Narrator"))) ;;
  update_item i (setText4 profile) ;;;
  update_item i (setCheckState5 (truthy (dict_get story_data "active" (VBool true)))) ;;;
  update_item i (setData0 story_data).

(** [update_rundown_tree]: the tree is emptied and filled, and
    [expandAll] lays its rows out. The widths of the columns, which are
    set last, are left out. *)
Definition update_rundown_tree (rundown_data : list dict) : M unit :=
  modify (set_rundown_tree []) ;;;
  for_each rundown_data add_item tt ;;;
  layout_rows.

(** [QMessageBox.information] or [QMessageBox.warning] *)
Definition message_box (title text : string) : M unit :=
  modify (fun st => set_message_boxes (message_boxes st ++ [(title, text)]) st).

(** The test of [send_to_rundown] for a story that the rundown has
    already: the same link, or the same id. *)
Definition already_in (current_rundown_items : list dict) (story : dict) : bool :=
  existsb (fun rundown_item =>
             py_eq (dict_get rundown_item "link" VNone) (dict_get story "link" VNone)
             || py_eq (dict_get rundown_item "id" VNone) (dict_get story "id" VNone))
          current_rundown_items.

(** One turn of the loop of [send_to_rundown] over the selected stories:
    a story that is not in the rundown is copied, given the fields of a
    segment, and appended. *)
Definition add_story (story : dict) (acc : list dict * Z) : result (list dict * Z) :=
  let '(current_rundown_items, new_items_added) := acc in
  if already_in current_rundown_items story then Ok acc
  else
    let story_for_rundown :=
      <["active" := VBool true]>
      (<["backtime" := VStr ""]>
      (<["order" := VInt (Z.of_nat (length current_rundown_items) + new_items_added)]>
      (<["duration" := VStr "00:30"]> story))) in
    try! summary := subscript (Some story_for_rundown) "summary" in
    let story_for_rundown :=
      <["length" := VStr "Standard"]>
      (<["tone" := VStr "Objective"]>
      (<["style" := VStr "Standard"]>
      (<["profile" := VStr "Default Narrator"]>
      (<["teleprompter_text" := summary]> story_for_rundown)))) in
    Ok ((current_rundown_items ++ [story_for_rundown]), new_items_added + 1).

(** The loop of [send_to_rundown] over the selected stories. *)
Fixpoint add_stories (selected_stories : list dict) (acc : list dict * Z)
  : result (list dict * Z) :=
  match selected_stories with
  | [] => Ok acc
  | story :: selected_stories' =>
      try! acc' := add_story story acc in
      add_stories selected_stories' acc'
  end.

Section Hash.
(** [hash], which Python seeds anew for each run of the program. *)
Variable hash : pyval -> Z.

(** The first loop of [send_to_rundown], for one story of the articles
    tree: a checked story is selected, with an id when it has none. The
    id goes into the copy that [article_item.data] handed out; the
    dictionary that the article stores stays as it is. *)
Definition select_article (a : Article) : result (list dict) :=
  if art_check a then
    match art_data a with
    | None => Raise TypeError
    | Some story_data =>
        match story_data !! "id" with
        | Some _ => Ok [story_data]
        | None =>
            try! link := subscript (Some story_data) "link" in
            try! title := subscript (Some story_data) "title" in
            try! key := py_add link title in
            Ok [<["id" := VStr (str_of_Z (hash key))]> story_data]
        end
    end
  else Ok [].

Fixpoint select_articles (children : list Article) : result (list dict) :=
  match children with
  | [] => Ok []
  | a :: children' =>
      try! sel := select_article a in
      try! sels := select_articles children' in
      Ok (sel ++ sels)
  end.

Fixpoint select_categories (tree : list (list Article)) : result (list dict) :=
  match tree with
  | [] => Ok []
  | children :: tree' =>
      try! sel := select_articles children in
      try! sels := select_categories tree' in
      Ok (sel ++ sels)
  end.

(** [send_to_rundown]; [now1] is the clock when the backtimes are
    recalculated, [now2] the clock when the rundown tab is shown. *)
Definition send_to_rundown (now1 now2 : datetime) : M unit :=
  selected_stories <- (fun st => (st, select_categories (articles_tree st))) ;;
  match selected_stories with
  | [] =>
      message_box "No Selection"
                  "Please select at least one article to send to rundown."
  | _ =>
      current_rundown_items <- get_rundown_items ;;
      added <- lift (add_stories selected_stories (current_rundown_items, 0)) ;;
      let '(current_rundown_items, new_items_added) := added in
      if 0 <? new_items_added then
        update_rundown_tree current_rundown_items ;;;
        calculate_backtimes now1 ;;;
        message_box "Sent to Rundown"
                    (str_of_Z new_items_added +:+ " new articles sent to Rundown tab.") ;;;
        setCurrentWidget now2 RundownTab
      else
        message_box "No New Articles"
                    "All selected articles are already in the rundown."
  end.
End Hash.

(** [self.rundown_tree.takeTopLevelItem(row)]: nothing is taken outside
    the rows. *)
Definition takeTopLevelItem (row : Z) (tree : list Item) : list Item :=
  if (0 <=? row) && (row <? Z.of_nat (length tree))
  then delete (Z.to_nat row) tree
  else tree.

(** [self.rundown_tree.insertTopLevelItem(row, item)]: nothing is inserted
    when [row] is negative or beyond the end. *)
Definition insertTopLevelItem (row : Z) (item : Item) (tree : list Item) : list Item :=
  if (0 <=? row) && (row <=? Z.of_nat (length tree))
  then (take (Z.to_nat row) tree ++ item :: drop (Z.to_nat row) tree)
  else tree.

(** The item that [move_rundown_item] makes from the dictionary of the
    item it moves. *)
Definition item_of_data (item_data : option dict) : result Item :=
  try! title := (try! v := subscript item_data "title" in as_str v) in
  try! source := (try! v := subscript item_data "source" in as_str v) in
  try! duration := (try! v := subscript item_data "duration" in as_str v) in
  try! backtime := (try! v := subscript item_data "backtime" in as_str v) in
  try! profile := (try! v := subscript item_data "profile" in as_str v) in
  try! active := subscript item_data "active" in
  Ok {| text0 := title; text1 := source; text2 := duration; text3 := backtime;
        text4 := profile; check5 := truthy active; user_data := item_data |}.

(** [move_rundown_item]. [current_row] is what [indexOfTopLevelItem(item)]
    answers: the row of [item], or -1 for an item that is not in the tree.
    The method has no [return]: its value is [None]. *)
Definition move_rundown_item (now : datetime) (item : Item) (current_row direction : Z)
  : M pyval :=
  let new_row := current_row + direction in
  count <- gets (fun st => Z.of_nat (length (rundown_tree st))) ;;
  if (0 <=? new_row) && (new_row <? count) then
    let item_data := user_data item in
    modify (fun st => set_rundown_tree (takeTopLevelItem current_row (rundown_tree st)) st) ;;;
    new_item <- lift (item_of_data item_data) ;;
    modify (fun st => set_rundown_tree (insertTopLevelItem new_row new_item (rundown_tree st)) st) ;;;
    calculate_backtimes now ;;;
    ret VNone
  else ret VNone.

(** ** The editors of the rundown cells *)

(** The validator of the duration editor of [RundownItemDelegate], the
    expression [^\d{1,2}:\d{2}$] matched against the whole text: one or
    two digits, a colon, two digits. [setModelData] stores the text of
    the editor in the cell only when this accepts it. *)
Definition duration_validator_acceptable (text : string) : bool :=
  match list_ascii_of_string text with
  | [a; b; c; d] =>
      isdecimal a && Ascii.eqb b ":" && isdecimal c && isdecimal d
  | [a; b; c; d; e] =>
      isdecimal a && isdecimal b && Ascii.eqb c ":" && isdecimal d && isdecimal e
  | _ => false
  end.

(** [QTime.toString("h:mm AP")], the text that [setModelData] stores for
    the backtime editor: the hour of the 12-hour clock without a leading
    zero, the minute in two digits, AM or PM. *)
Definition qtime_toString_hmmAP (t : time) : string :=
  str_of_Z (hour12 t) +:+ ":" +:+ two_digits (minute t) +:+ " " +:+ am_pm t.

(** ** The countdown of the rundown clock *)

(** [int(td.total_seconds())]: the seconds of a difference, cut towards
    zero. [total_seconds] divides the microseconds by a million in
    floating point; the quotient is exact to the second for the
    differences of less than two days that [update_backtime_clock]
    takes. *)
Definition int_total_seconds (td : timedelta) : Z :=
  Z.quot ((days td * 86400 + seconds td) * 1000000 + microseconds td) 1000000.

(** [f"{n:02}"] for an integer. *)
Definition format_02 (n : Z) : string :=
  if (0 <=? n) && (n <? 10) then "0" +:+ str_of_Z n else str_of_Z n.

(** The text that [update_backtime_clock] shows for the seconds that
    remain. *)
Definition display_text (total_seconds : Z) : string :=
  if total_seconds <? 0 then "Show Over"
  else
    let hours := total_seconds / 3600 in
    let remainder := total_seconds mod 3600 in
    let minutes := remainder / 60 in
    let seconds := remainder mod 60 in
    "Show Starts In: " +:+ format_02 hours +:+ ":" +:+ format_02 minutes
    +:+ ":" +:+ format_02 seconds.

(** [update_backtime_clock], with [now] the reading of the clock. *)
Definition update_backtime_clock (now : datetime) : M unit :=
  count <- gets (fun st => length (rundown_tree st)) ;;
  if (0 <? count)%nat then
    first_item <- topLevelItem 0 ;;
    let first_item_backtime_str := text3 first_item in
    match parse_backtime_string first_item_backtime_str with
    | Some parsed_time =>
        let target_datetime :=
          {| ordinal := ordinal now;
             clock := {| hour := hour parsed_time; minute := minute parsed_time;
                         second := second parsed_time; microsecond := 0 |} |} in
        target_datetime <-
          (if datetime_lt target_datetime now then
             ago <- lift (datetime_diff now target_datetime) ;;
             if total_seconds_gt ago 3600 then
               one_day <- lift (timedelta_new 1 0 0) ;;
               lift (add_datetime_timedelta target_datetime one_day 1)
             else ret target_datetime
           else ret target_datetime) ;;
        time_remaining <- lift (datetime_diff target_datetime now) ;;
        let total_seconds := int_total_seconds time_remaining in
        modify (set_rundown_clock_label (display_text total_seconds))
    | None => modify (set_rundown_clock_label "Backtime: --:--:--")
    end
  else modify (set_rundown_clock_label "Backtime: --:--:--").


(** ** Changes of a rundown item *)

(** [handle_rundown_item_changed], the slot of [itemChanged], for the item
    of row [row] and a column. The slot writes the text of the changed
    cell into the copy of the dictionary that [item.data] handed out and
    does not store the copy: the dictionary of the item stays as it is,
    and what a changed duration or check box starts is the scheduler. For
    column 0 the last statement asks the tree widget for [setRowHeight],
    which a [QTreeWidget] does not have. The scheduler writes the backtime
    cells, for which the tree calls the slot again, with column 3: that
    call does nothing. *)
Definition handle_rundown_item_changed (now : datetime) (row : nat) (column : Z)
  : M unit :=
  item <- topLevelItem row ;;
  if has_data (user_data item) then
    (if column =? 2 then calculate_backtimes now
     else if column =? 4 then ret tt
     else if column =? 5 then calculate_backtimes now
     else ret tt) ;;;
    (if column =? 0 then lift (Raise AttributeError) else ret tt)
  else ret tt.

(** [delete_rundown_item] for the item of row [row]; [yes] is the answer
    to the question box. *)
Definition delete_rundown_item (now : datetime) (row : nat) (yes : bool) : M unit :=
  item <- topLevelItem row ;;
  message_box "Delete Rundown Item"
              ("Are you sure you want to delete '" +:+ text0 item
               +:+ "' from the rundown?") ;;;
  if yes then
    modify (fun st => set_rundown_tree (delete row (rundown_tree st)) st) ;;;
    calculate_backtimes now
  else ret tt.

(** The time that [RundownItemDelegate.setEditorData] hands to the time
    editor of a backtime cell with the text [value]. *)
Definition setEditorData_backtime (value : string) : result time :=
  if negb (String.eqb value "") then
    if contains "AM" value || contains "PM" value
    then strptime_IMp value
    else strptime_HM value
  else Ok {| hour := 0; minute := 0; second := 0; microsecond := 0 |}.

(** ** The feed manager *)

(** An entry of the feed list: the text of the item and the URL under
    [Qt.UserRole]. The feeds file is taken to be writable and readable:
    [load_feeds_from_file] fills the list with the feeds that
    [save_feeds_to_file] has just written. The selection in the list after
    a change is left out. *)
Record Feed : Type := mk_feed { feed_name : string; feed_url : string }.

Definition get_current_feeds (feed_list : list Feed) : list Feed := feed_list.

(** [add_feed] with the texts of the two line edits: the new feed list,
    and the warning that was shown, if any. *)
Definition add_feed (feed_name_edit feed_url_edit : string) (feed_list : list Feed)
  : list Feed * option (string * string) :=
  let name := strip feed_name_edit in
  let url := strip feed_url_edit in
  if String.eqb name "" || String.eqb url "" then
    (feed_list, Some ("Input Error", "Feed name and URL cannot be empty."))
  else
    let feeds := get_current_feeds feed_list in
    if existsb (fun feed => String.eqb (feed_name feed) name) feeds then
      (feed_list, Some ("Duplicate Feed", "Feed '" +:+ name +:+ "' already exists."))
    else
      (feeds ++ [{| feed_name := name; feed_url := url |}], None).

(** The loop of [edit_feed]: the first feed with the name of the current
    item takes the new name and URL. *)
Fixpoint rename_feed (original_name new_name new_url : string) (feeds : list Feed)
  : list Feed :=
  match feeds with
  | [] => []
  | feed :: feeds' =>
      if String.eqb (feed_name feed) original_name
      then {| feed_name := new_name; feed_url := new_url |} :: feeds'
      else feed :: rename_feed original_name new_name new_url feeds'
  end.

(** [edit_feed], with the current item of the list, if there is one. *)
Definition edit_feed (current_item : option Feed) (feed_name_edit feed_url_edit : string)
  (feed_list : list Feed) : list Feed * option (string * string) :=
  match current_item with
  | None => (feed_list, Some ("Selection Error", "Please select a feed to edit."))
  | Some item =>
      let original_name := feed_name item in
      let new_name := strip feed_name_edit in
      let new_url := strip feed_url_edit in
      if String.eqb new_name "" || String.eqb new_url "" then
        (feed_list, Some ("Input Error", "Feed name and URL cannot be empty."))
      else
        (rename_feed original_name new_name new_url (get_current_feeds feed_list), None)
  end.

(** [delete_feed]; [yes] is the answer to the question box. *)
Definition delete_feed (current_item : option Feed) (yes : bool) (feed_list : list Feed)
  : list Feed * option (string * string) :=
  match current_item with
  | None => (feed_list, Some ("Selection Error", "Please select a feed to delete."))
  | Some item =>
      if yes
      then (List.filter (fun f => negb (String.eqb (feed_name f) (feed_name item)))
                        (get_current_feeds feed_list), None)
      else (feed_list, None)
  end.


(** * Notions of the statements *)

(** The order of the keywords as the specification words it: the first
    entry with a keyword in the lowered name of the feed gives the
    category. *)
Definition category_priority : list (list string * string) :=
  [ (["technology"], "Technology");
    (["sports"], "Sports");
    (["politics"], "Politics");
    (["world"; "international"], "World News");
    (["business"], "Business");
    (["entertainment"], "Entertainment") ].

Definition category_first_match (feed_name : string) : string :=
  match find (fun entry => existsb (fun kw => contains kw (lower feed_name)) (fst entry))
             category_priority with
  | Some entry => snd entry
  | None => "Other"
  end.

(** A text of white space only (or empty). *)
Fixpoint blank (s : string) : bool :=
  match s with
  | EmptyString => true
  | String c s' => isspace c && blank s'
  end.

(** An item without its backtime: what is left to compare when the
    backtime is set aside. *)
Definition no_backtime (item : Item) : Item := setText3 "" item.

(** The item counts for the schedule: it has a dictionary, and that is
    not marked inactive. *)
Definition is_active (item : Item) : bool :=
  has_data (user_data item) &&
  truthy (dict_get (default ∅ (user_data item)) "active" (VBool true)).

(** What an item shows: the texts of its cells and its check box. *)
Definition cells (item : Item) : string * string * string * string * string * bool :=
  (text0 item, text1 item, text2 item, text3 item, text4 item, check5 item).

(** The dictionaries that [get_rundown_items] finds in a tree. *)
Definition stories_of (tree : list Item) : list dict :=
  omap (fun item => if has_data (user_data item) then user_data item else None) tree.

(** Two segments count as the same story: the test of [send_to_rundown]. *)
Definition same_story (a b : dict) : bool :=
  py_eq (dict_get a "link" VNone) (dict_get b "link" VNone)
  || py_eq (dict_get a "id" VNone) (dict_get b "id" VNone).

(** What the test looks at. *)
Definition story_key (d : dict) : pyval * pyval :=
  (dict_get d "link" VNone, dict_get d "id" VNone).

(** No two segments of a rundown have the same link or the same id. *)
Definition distinct (rundown : list dict) : Prop :=
  ForallOrdPairs (fun a b => same_story a b = false) rundown.

(** A method keeps a relation between the state before and the state
    after, however it ends. *)
Definition preserves {A : Type} (R : App -> App -> Prop) (m : M A) : Prop :=
  forall st, R st (fst (m st)).

(** What a pass of the scheduler leaves alone: the items up to their
    backtime, the articles, the tab, the message boxes; the log only
    grows. *)
Definition frame (st st' : App) : Prop :=
  no_backtime <$> rundown_tree st' = no_backtime <$> rundown_tree st /\
  articles_tree st' = articles_tree st /\
  current_tab st' = current_tab st /\
  message_boxes st' = message_boxes st /\
  log_output st `prefix_of` log_output st'.

(** The fields of a time of day, and of a date and time, are in range. *)
Definition valid_time (t : time) : Prop :=
  0 <= hour t < 24 /\ 0 <= minute t < 60 /\ 0 <= second t < 60 /\
  0 <= microsecond t < 1000000.

Definition valid_datetime (dt : datetime) : Prop :=
  1 <= ordinal dt <= MAXORDINAL /\ valid_time (clock dt).

(** The items keep their dictionaries, row by row. *)
Definition same_data (st st' : App) : Prop :=
  user_data <$> rundown_tree st' = user_data <$> rundown_tree st.

(** ** Rundowns of the examples *)

(** The dictionary of a segment as [send_to_rundown] makes it from a story
    of a feed, its backtime empty. *)
Definition segment_data (title link duration : string) : dict :=
  <["length" := VStr "Standard"]>
  (<["tone" := VStr "Objective"]>
  (<["style" := VStr "Standard"]>
  (<["profile" := VStr "Default Narrator"]>
  (<["teleprompter_text" := VStr "Summary"]>
  (<["active" := VBool true]>
  (<["backtime" := VStr ""]>
  (<["order" := VInt 0]>
  (<["duration" := VStr duration]>
  (<["id" := VStr link]>
  (<["summary" := VStr "Summary"]>
  (<["source" := VStr "BBC News - World"]>
  (<["link" := VStr link]>
  (<["title" := VStr title]> ∅))))))))))))).

(** Its item, with the backtime that the cell shows. *)
Definition segment (title link duration backtime : string) : Item :=
  {| text0 := title; text1 := "BBC News - World"; text2 := duration;
     text3 := backtime; text4 := "Default Narrator"; check5 := true;
     user_data := Some (segment_data title link duration) |}.

Definition app_with (tree : list Item) : App :=
  {| articles_tree := []; rundown_tree := tree;
     rundown_clock_label := "Backtime: --:--:--"; log_output := [];
     recalculating_backtimes := false; current_tab := RundownTab;
     message_boxes := [] |}.

(** Noon of 1 January 2024. *)
Definition noon : datetime :=
  {| ordinal := 738886; clock := {| hour := 12; minute := 0; second := 0; microsecond := 0 |} |}.

(** One segment, as [send_to_rundown] leaves it before the first pass. *)
Definition one_segment : App :=
  app_with [segment "Headline" "http://a" "00:30" ""].

(** Three segments of 30 seconds, one minute and 45 seconds, the last
    with a backtime that reads as 6:00:00 PM. *)
Definition three_segments : App :=
  app_with [segment "One" "http://a" "00:30" "";
            segment "Two" "http://b" "01:00" "";
            segment "Three" "http://c" "00:45" "6:00:00 PM"].

(** Two segments of 30 seconds and one minute, after a pass of the
    scheduler at noon. *)
Definition two_segments : App :=
  fst (calculate_backtimes noon
         (app_with [segment "One" "http://a" "00:30" "";
                    segment "Two" "http://b" "01:00" ""])).

(** Two segments; the user has typed AP into the source cell of the
    first. *)
Definition edited_source : App :=
  app_with [setText1 "AP" (segment "One" "http://a" "00:30" "");
            segment "Two" "http://b" "01:00" ""].

(** A story as the feed worker makes it. *)
Definition feed_story (title link : string) : dict :=
  <["original_summary" := VStr "Summary"]>
  (<["rewritten" := VBool false]>
  (<["category" := VStr "World News"]>
  (<["image_url" := VNone]>
  (<["pub_date" := VStr "2024-01-01 06:00"]>
  (<["source" := VStr "BBC News - World"]>
  (<["summary" := VStr "Summary"]>
  (<["link" := VStr link]>
  (<["title" := VStr title]> ∅)))))))).

(** The two segments, and an articles tree where the story of the first
    segment and a new story are checked. *)
Definition newsroom : App :=
  set_current_tab ArticlesTab
    (set_articles_tree
       [[ {| art_check := true; art_data := Some (feed_story "One" "http://a") |};
          {| art_check := true; art_data := Some (feed_story "Three" "http://c") |} ]]
       two_segments).

(** ** The schedule in seconds *)

(** The seconds that an item takes off the running time in the loops of
    [calculate_backtimes]: its duration when the item is active and the
    text of the duration cell reads as one, nothing otherwise. *)
Definition item_seconds (item : Item) : result Z :=
  if is_active item then
    match parse_duration_string (text2 item) with
    | Ok (Some n) => Ok n
    | Ok None => Ok 0
    | Raise e => Raise e
    end
  else Ok 0.

(** A date and time without microseconds as the seconds since the start
    of day 0 of the calendar, and back. *)
Definition seconds_of_datetime (dt : datetime) : Z :=
  ordinal dt * 86400 + seconds_of_time (clock dt).

Definition datetime_of_seconds (n : Z) : datetime :=
  {| ordinal := n / 86400; clock := time_of_seconds (n mod 86400) 0 |}.

(** The second lies in the years 1 to 9999. *)
Definition in_calendar (n : Z) : Prop := 86400 <= n < (MAXORDINAL + 1) * 86400.

Definition sum_Z (ds : list Z) : Z := foldr Z.add 0 ds.

(** The start of every segment of a show that ends at [show_end] and
    whose segments take [durations]: the end less the durations from the
    segment on. *)
Fixpoint backtimes (show_end : Z) (durations : list Z) : list Z :=
  match durations with
  | [] => []
  | d :: ds => (show_end - sum_Z (d :: ds)) :: backtimes show_end ds
  end.

(** The backtime cell of an item set to the minute of a second. *)
Definition with_backtime (item : Item) (b : Z) : Item :=
  setText3 (strftime_IMp (datetime_of_seconds b)) item.


(** A segment that the user switched off in the column Active. *)
Definition switched_off (item : Item) : Item :=
  match user_data item with
  | Some story_data =>
      setData0 (<["active" := VBool false]> story_data) (setCheckState5 false item)
  | None => item
  end.

(** Four segments: half a minute, a minute that is switched off, a
    duration without a colon, and two minutes with the backtime 6:00 PM. *)
Definition rundown_with_break : App :=
  app_with [segment "One" "http://a" "00:30" "";
            switched_off (segment "Two" "http://b" "01:00" "");
            segment "Three" "http://c" "90" "";
            segment "Four" "http://d" "02:00" "6:00 PM"].

(** 6 PM of 1 January 2024. *)
Definition six_pm : datetime :=
  {| ordinal := 738886; clock := {| hour := 18; minute := 0; second := 0; microsecond := 0 |} |}.


(** ** The countdown in microseconds *)

(** How late the clock is for a start at the time of day [t], in
    microseconds of the same day; negative when the start is ahead. *)
Definition late (now : datetime) (t : time) : Z :=
  (seconds_of_time (clock now) - seconds_of_time t) * 1000000
  + microsecond (clock now).

(** The seconds that the countdown shows: to a start later today; after
    the start, the seconds since, negative, for an hour; then to the
    start of tomorrow. *)
Definition remaining_seconds (now : datetime) (t : time) : Z :=
  if late now t <=? 0 then (- late now t) / 1000000
  else if late now t <=? 3600 * 1000000 then - (late now t / 1000000)
  else (86400 * 1000000 - late now t) / 1000000.


(** ** Items and their dictionaries *)

(** The item shows the title and the source of its dictionary. *)
Definition shows_story (item : Item) : Prop :=
  exists story_data,
    user_data item = Some story_data /\
    story_data !! "title" = Some (VStr (text0 item)) /\
    story_data !! "source" = Some (VStr (text1 item)).

(** The copy of the dictionary of an item that [get_rundown_items] hands
    out, brought up to date with the cells. *)
Definition synced_data (item : Item) : dict :=
  <["active" := VBool (check5 item)]>
  (<["profile" := VStr (text4 item)]>
  (<["backtime" := VStr (text3 item)]>
  (<["duration" := VStr (text2 item)]> (default ∅ (user_data item))))).


(** The item that [update_rundown_tree] builds from that copy: the cells
    of the item, and the copy as its dictionary. *)
Definition reloaded (item : Item) : Item := setData0 (synced_data item) item.

(** The rows of the rundown are the same. *)
Definition same_tree (st st' : App) : Prop := rundown_tree st' = rundown_tree st.

(** ** The check boxes and the scheduler *)

(** The state with the check box of a row set. *)
Definition set_box (row : nat) (b : bool) (st : App) : App :=
  set_rundown_tree (alter (setCheckState5 b) row (rundown_tree st)) st.

(** A method does the same whatever the check boxes say, and leaves them
    alone. *)
Definition box_blind {A : Type} (m : M A) : Prop :=
  forall (row : nat) (b : bool) (st : App),
    m (set_box row b st) = (set_box row b (fst (m st)), snd (m st)).

(** Three segments, the last with the backtime 6:00 PM. *)
Definition three_checked : App :=
  app_with [segment "One" "http://a" "00:30" "";
            segment "Two" "http://b" "01:00" "";
            segment "Three" "http://c" "02:00" "6:00 PM"].

(** A feed list of two feeds. *)
Definition two_feeds : list Feed :=
  [{| feed_name := "BBC News - World"; feed_url := "http://feeds.bbci.co.uk/news/world/rss.xml" |};
   {| feed_name := "ESPN"; feed_url := "https://www.espn.com/espn/rss/news" |}].


(** ** Segments that can be moved *)

(** The dictionary of the item holds the texts of its cells, up to the
    backtime: [move_rundown_item] builds the item anew from it. *)
Definition movable (item : Item) : Prop :=
  exists backtime, item_of_data (user_data item) = Ok (setText3 backtime item).

(** The dictionary has the fields of a segment that [get_rundown_items]
    and [send_to_rundown] set. *)
Definition has_segment_keys (story_data : dict) : Prop :=
  is_Some (story_data !! "duration") /\ is_Some (story_data !! "backtime") /\
  is_Some (story_data !! "profile") /\ is_Some (story_data !! "active").

(** The rows of the rundown are the same, up to their backtime cells. *)
Definition same_rows (st st' : App) : Prop :=
  no_backtime <$> rundown_tree st' = no_backtime <$> rundown_tree st.

(** * Properties *)

(** ** Durations *)

(** C3. [parse_duration_string] reads "2:30" as 150 seconds and "1:02:03"
    as 3723 seconds, and answers [None] for "99:99" and for four tokens;
    but a token that is not a number, as in "abc", "1:xx" or the empty
    text, makes it raise [ValueError] instead of answering [None]: the
    conversion of the tokens stands before the [try]. *)
Theorem parse_duration_string_raises :
  parse_duration_string "2:30" = Ok (Some 150) /\
  parse_duration_string "1:02:03" = Ok (Some 3723) /\
  parse_duration_string "99:99" = Ok None /\
  parse_duration_string "1:2:3:4" = Ok None /\
  parse_duration_string "abc" = Raise ValueError /\
  parse_duration_string "1:xx" = Raise ValueError /\
  parse_duration_string "" = Raise ValueError.
Proof. repeat split; vm_compute; reflexivity. Qed.

(** C9. [parse_duration_string] accepts "-1:30" and answers -30, a
    negative number of seconds: only the last component of a duration of
    two parts is held to a range. *)
Theorem parse_duration_string_negative :
  parse_duration_string "-1:30" = Ok (Some (-30)) /\ -30 < 0.
Proof. split; [vm_compute; reflexivity | lia]. Qed.

(** ** Categories *)

(** C5, as stated, fails: the name "ESPN - Top" holds none of the
    keywords, and its category is not "Sports". *)
Lemma category_espn_not_sports : category "ESPN - Top" <> "Sports".
Proof. vm_compute. discriminate. Qed.

(** C5, amended. The category of a feed is the first match of the
    keywords technology, sports, politics, world or international,
    business, entertainment in the lowered name of the feed, and "Other"
    without a match; "BBC News - World" gives "World News", and
    "ESPN - Top" and "Reuters - Top News", which hold no keyword, give
    "Other". *)
Theorem category_is_first_match :
  (forall feed_name, category feed_name = category_first_match feed_name) /\
  category "BBC News - World" = "World News" /\
  category "ESPN - Top" = "Other" /\
  category "Reuters - Top News" = "Other".
Proof.
  split; [| repeat split; vm_compute; reflexivity].
  intros feed_name. unfold category, category_first_match, category_priority.
  cbn [find existsb fst snd].
  repeat match goal with
         | |- context [contains ?kw (lower feed_name)] =>
             destruct (contains kw (lower feed_name))
         end; reflexivity.
Qed.

(** ** Backtime texts *)

Lemma lstrip_blank (s : string) : blank s = true -> lstrip_by isspace s = "".
Proof.
  induction s as [| c s IH]; simpl; [reflexivity |].
  intros H. apply andb_true_iff in H as [Hc Hs]. rewrite Hc. auto.
Qed.

Lemma strip_blank (s : string) : blank s = true -> strip s = "".
Proof. intros H. unfold strip. rewrite (lstrip_blank s H). reflexivity. Qed.

(** C4, as stated, fails: the empty text and the text "not-a-time" get
    the same answer, [None]. *)
Lemma parse_backtime_string_same_none :
  parse_backtime_string "" = parse_backtime_string "not-a-time".
Proof. vm_compute. reflexivity. Qed.

(** C4, amended. [parse_backtime_string] answers [None] for a text that
    is empty or white space only, and the same [None] for a text that no
    format reads, such as "not-a-time": the answer alone does not tell
    the two apart. *)
Theorem parse_backtime_string_blank (s : string) :
  blank s = true ->
  parse_backtime_string s = None /\
  parse_backtime_string "not-a-time" = None.
Proof.
  intros H. split; [| vm_compute; reflexivity].
  unfold parse_backtime_string. rewrite (strip_blank s H).
  rewrite orb_true_r. reflexivity.
Qed.

Lemma parse_backtime_string_blank_witness :
  blank "   " = true /\
  parse_backtime_string "   " = None /\
  parse_backtime_string "not-a-time" = None.
Proof.
  split; [reflexivity |].
  apply (parse_backtime_string_blank "   "). reflexivity.
Defined.

(** ** The scheduler is not idempotent *)

(** C1. With one segment of 30 seconds and the clock at noon, the first
    pass writes the backtime "12:29 PM" and the readout
    "Backtime: 12:29:30 PM"; a second pass at the same clock, with nothing
    changed in between, writes "12:28 PM" and "Backtime: 12:28:30 PM": the
    backtime of the last segment, its start, is taken for the end of the
    show, and its duration is taken off again. The three segments that
    end at 6:00:00 PM move in the same way, from "05:57 PM", "05:58 PM",
    "05:59 PM" to "05:56 PM", "05:57 PM", "05:58 PM". *)
Theorem calculate_backtimes_twice_differs :
  let once := fst (calculate_backtimes noon one_segment) in
  let twice := fst (calculate_backtimes noon once) in
  let once3 := fst (calculate_backtimes noon three_segments) in
  let twice3 := fst (calculate_backtimes noon once3) in
  snd (calculate_backtimes noon one_segment) = Ok tt /\
  snd (calculate_backtimes noon once) = Ok tt /\
  text3 <$> rundown_tree once = ["12:29 PM"] /\
  rundown_clock_label once = "Backtime: 12:29:30 PM" /\
  text3 <$> rundown_tree twice = ["12:28 PM"] /\
  rundown_clock_label twice = "Backtime: 12:28:30 PM" /\
  text3 <$> rundown_tree once3 = ["05:57 PM"; "05:58 PM"; "05:59 PM"] /\
  text3 <$> rundown_tree twice3 = ["05:56 PM"; "05:57 PM"; "05:58 PM"].
Proof. repeat split; vm_compute; reflexivity. Qed.

(** ** What a method keeps *)

Section Preserves.
Context (R : App -> App -> Prop) (R_refl : forall st, R st st)
        (R_trans : forall a b c, R a b -> R b c -> R a c).

Lemma preserves_ret {A : Type} (a : A) : preserves R (ret a).
Proof. intros st. apply R_refl. Qed.

Lemma preserves_lift {A : Type} (r : result A) : preserves R (lift r).
Proof. intros st. apply R_refl. Qed.

Lemma preserves_gets {A : Type} (f : App -> A) : preserves R (gets f).
Proof. intros st. apply R_refl. Qed.

Lemma preserves_topLevelItem (i : nat) : preserves R (topLevelItem i).
Proof.
  intros st. unfold topLevelItem.
  destruct (rundown_tree st !! i); apply R_refl.
Qed.

Lemma preserves_modify (f : App -> App) :
  (forall st, R st (f st)) -> preserves R (modify f).
Proof. intros H st. apply H. Qed.

Lemma preserves_bind {A B : Type} (m : M A) (k : A -> M B) :
  preserves R m -> (forall a, preserves R (k a)) -> preserves R (bind m k).
Proof.
  intros Hm Hk st. unfold bind.
  specialize (Hm st). destruct (m st) as [st' [a | e]]; simpl in *.
  - eapply R_trans; [exact Hm | apply Hk].
  - exact Hm.
Qed.

Lemma preserves_finally {A : Type} (m : M A) (cleanup : App -> App) :
  preserves R m -> (forall st, R st (cleanup st)) -> preserves R (finally m cleanup).
Proof.
  intros Hm Hc st. unfold finally.
  specialize (Hm st). destruct (m st) as [st' r]; simpl in *.
  eapply R_trans; [exact Hm | apply Hc].
Qed.

Lemma preserves_for_each {A S : Type} (xs : list A) (body : A -> S -> M S) (acc : S) :
  (forall x a, preserves R (body x a)) -> preserves R (for_each xs body acc).
Proof.
  intros Hbody. revert acc.
  induction xs as [| x xs IH]; intros acc; simpl.
  - apply preserves_ret.
  - apply preserves_bind; [apply Hbody | intros a; apply IH].
Qed.
End Preserves.

Lemma frame_refl (st : App) : frame st st.
Proof. unfold frame. repeat split; reflexivity. Qed.

Lemma frame_trans (a b c : App) : frame a b -> frame b c -> frame a c.
Proof.
  unfold frame. intros (H1 & H2 & H3 & H4 & H5) (K1 & K2 & K3 & K4 & K5).
  repeat split; try congruence. etrans; eassumption.
Qed.

Lemma no_backtime_alter (v : string) (i : nat) (tree : list Item) :
  no_backtime <$> alter (setText3 v) i tree = no_backtime <$> tree.
Proof.
  revert i. induction tree as [| item tree IH]; intros [| i]; simpl; try reflexivity.
  f_equal. apply IH.
Qed.

Lemma frame_update_backtime (i : nat) (v : string) :
  preserves frame (update_item i (setText3 v)).
Proof.
  intros st. unfold frame; simpl.
  rewrite no_backtime_alter. repeat split; reflexivity.
Qed.

Lemma frame_log_append (line : string) : preserves frame (log_append line).
Proof.
  intros st. unfold frame; simpl. repeat split; try reflexivity.
  apply prefix_app_r. reflexivity.
Qed.

Lemma frame_set_recalculating (b : bool) (st : App) :
  frame st (set_recalculating_backtimes b st).
Proof. unfold frame; simpl. repeat split; reflexivity. Qed.

Lemma frame_set_label (v : string) (st : App) :
  frame st (set_rundown_clock_label v st).
Proof. unfold frame; simpl. repeat split; reflexivity. Qed.

(** One step of a proof that a method keeps [frame]. *)
Ltac frame_step :=
  first
    [ apply (preserves_ret frame frame_refl)
    | apply (preserves_lift frame frame_refl)
    | apply (preserves_gets frame frame_refl)
    | apply (preserves_topLevelItem frame frame_refl)
    | apply frame_update_backtime
    | apply frame_log_append
    | apply (preserves_modify frame); intros; first [apply frame_set_recalculating | apply frame_set_label]
    | apply (preserves_for_each frame frame_refl frame_trans); intros
    | apply (preserves_finally frame frame_trans); [| intros; apply frame_set_recalculating]
    | apply (preserves_bind frame frame_trans); [| intros]
    | match goal with
      | |- preserves _ (if ?b then _ else _) => destruct b
      | |- preserves _ (match ?x with _ => _ end) => destruct x
      end ].

Lemma frame_add_duration (i : nat) (total : Z) : preserves frame (add_duration i total).
Proof. unfold add_duration. repeat frame_step. Qed.

Lemma frame_show_end (now : datetime) : preserves frame (show_end now).
Proof. unfold show_end. repeat frame_step. Qed.

Lemma frame_set_backtime (i : nat) (t : datetime) : preserves frame (set_backtime i t).
Proof. unfold set_backtime. repeat frame_step. Qed.

Lemma frame_calculate_backtimes (now : datetime) : preserves frame (calculate_backtimes now).
Proof.
  unfold calculate_backtimes.
  repeat first [ apply frame_add_duration | apply frame_show_end
               | apply frame_set_backtime | frame_step ].
Qed.

Lemma calculate_backtimes_flag (now : datetime) (st : App) :
  recalculating_backtimes (fst (calculate_backtimes now st)) = recalculating_backtimes st.
Proof.
  unfold calculate_backtimes, bind, gets; simpl.
  destruct (recalculating_backtimes st) eqn:Hflag; simpl; [exact Hflag |].
  unfold finally.
  match goal with |- context [let '(_, _) := ?m in _] => destruct m as [st' r] end.
  reflexivity.
Qed.

Lemma fmap_no_backtime {B : Type} (f : Item -> B) (tree tree' : list Item) :
  (forall item, f (no_backtime item) = f item) ->
  no_backtime <$> tree' = no_backtime <$> tree ->
  f <$> tree' = f <$> tree.
Proof.
  intros Hf H.
  assert (Hcomp : forall l : list Item, f <$> l = f <$> (no_backtime <$> l)).
  { intros l. induction l as [| x l IH]; simpl; [reflexivity |].
    rewrite Hf. f_equal. exact IH. }
  rewrite (Hcomp tree'), (Hcomp tree). congruence.
Qed.

(** ** The frame of a scheduler pass *)

(** C10. A pass of [calculate_backtimes], however it ends, leaves the
    number of items and, row by row, the title, the source, the duration
    text, the profile, the active check box and the story dictionary of
    every item as they were; of the rest of the state it leaves the
    articles, the tab, the message boxes and the guard flag as they were,
    and only adds lines to the log. What it writes is the backtime cell
    of the items and the clock label. *)
Theorem calculate_backtimes_frame (now : datetime) (st : App) :
  let st' := fst (calculate_backtimes now st) in
  length (rundown_tree st') = length (rundown_tree st) /\
  text0 <$> rundown_tree st' = text0 <$> rundown_tree st /\
  text1 <$> rundown_tree st' = text1 <$> rundown_tree st /\
  text2 <$> rundown_tree st' = text2 <$> rundown_tree st /\
  text4 <$> rundown_tree st' = text4 <$> rundown_tree st /\
  check5 <$> rundown_tree st' = check5 <$> rundown_tree st /\
  user_data <$> rundown_tree st' = user_data <$> rundown_tree st /\
  articles_tree st' = articles_tree st /\
  current_tab st' = current_tab st /\
  message_boxes st' = message_boxes st /\
  recalculating_backtimes st' = recalculating_backtimes st /\
  log_output st `prefix_of` log_output st'.
Proof.
  intros st'. subst st'.
  destruct (frame_calculate_backtimes now st) as (Htree & Ha & Ht & Hm & Hl).
  split.
  { rewrite <- (length_fmap no_backtime (rundown_tree (fst _))), Htree.
    apply length_fmap. }
  repeat split; try assumption;
    try (apply fmap_no_backtime; [intros item; reflexivity | exact Htree]).
  apply calculate_backtimes_flag.
Qed.

(** ** Moving a segment *)

(** C8, as stated, fails: [move_rundown_item] has no [return]. It answers
    [None], not [False], when the target row is outside the rows, and the
    same [None] after a move that it carried out. *)
Lemma move_rundown_item_answers_none :
  snd (move_rundown_item noon (segment "One" "http://a" "00:30" "12:28 PM")
                         0 (-1) two_segments) = Ok VNone /\
  snd (move_rundown_item noon (segment "One" "http://a" "00:30" "12:28 PM")
                         0 1 two_segments) = Ok VNone /\
  VNone <> VBool false.
Proof. split; [| split]; [vm_compute; reflexivity .. | discriminate]. Qed.

(** C8, amended. A move whose target row is outside the rows of the
    rundown, such as the first segment moved up or the last moved down,
    changes nothing in the state: the order, the number and every field
    of the segments stay. The method answers [None]. *)
Theorem move_rundown_item_out_of_bounds
  (now : datetime) (item : Item) (current_row direction : Z) (st : App) :
  ~ (0 <= current_row + direction < Z.of_nat (length (rundown_tree st))) ->
  move_rundown_item now item current_row direction st = (st, Ok VNone).
Proof.
  intros Hout.
  unfold move_rundown_item, bind, gets; simpl.
  destruct (0 <=? current_row + direction) eqn:Hlo; simpl; [| reflexivity].
  destruct (current_row + direction <? Z.of_nat (length (rundown_tree st))) eqn:Hhi;
    [| reflexivity].
  apply Z.leb_le in Hlo. apply Z.ltb_lt in Hhi. lia.
Qed.

Lemma move_rundown_item_out_of_bounds_witness :
  ~ (0 <= 0 + -1 < Z.of_nat (length (rundown_tree two_segments))) /\
  move_rundown_item noon (segment "One" "http://a" "00:30" "12:28 PM") 0 (-1) two_segments
  = (two_segments, Ok VNone).
Proof.
  split; [lia |].
  apply (move_rundown_item_out_of_bounds noon _ 0 (-1) two_segments). lia.
Defined.

(** C7. The first of two segments shows the source AP, which the user
    typed into the cell; its dictionary says BBC News - World. Moved down,
    the segment shows BBC News - World: [move_rundown_item] builds the
    moved row from the dictionary, not from the cells of the row it
    takes out. *)
Theorem move_rundown_item_resets_source :
  let item := setText1 "AP" (segment "One" "http://a" "00:30" "") in
  let moved := fst (move_rundown_item noon item 0 1 edited_source) in
  rundown_tree edited_source !! 0%nat = Some item /\
  (text0 <$> rundown_tree edited_source, text1 <$> rundown_tree edited_source)
  = (["One"; "Two"], ["AP"; "BBC News - World"]) /\
  snd (move_rundown_item noon item 0 1 edited_source) = Ok VNone /\
  (text0 <$> rundown_tree moved, text1 <$> rundown_tree moved)
  = (["Two"; "One"], ["BBC News - World"; "BBC News - World"]).
Proof. repeat split; vm_compute; reflexivity. Qed.

(** A move also leaves no backtime as it was: after the scheduler ran,
    moving the first of two segments down turns "12:28 PM" of the moved
    segment into "12:29 PM", and "12:29 PM" of the other into
    "12:28 PM". *)
Lemma move_rundown_item_changes_backtimes :
  let moved := fst (move_rundown_item noon (segment "One" "http://a" "00:30" "12:28 PM")
                                      0 1 two_segments) in
  rundown_tree two_segments !! 0%nat = Some (segment "One" "http://a" "00:30" "12:28 PM") /\
  (text0 <$> rundown_tree two_segments, text3 <$> rundown_tree two_segments)
  = (["One"; "Two"], ["12:28 PM"; "12:29 PM"]) /\
  (text0 <$> rundown_tree moved, text3 <$> rundown_tree moved)
  = (["Two"; "One"], ["12:28 PM"; "12:29 PM"]).
Proof. repeat split; vm_compute; reflexivity. Qed.

Lemma fst_then_ret {A B : Type} (m : M A) (b : B) (st : App) :
  fst (bind m (fun _ => ret b) st) = fst (m st).
Proof. unfold bind, ret. destruct (m st) as [st' [a | e]]; reflexivity. Qed.

(** X22. A move inside the rows, of a segment whose dictionary holds the
    texts of its cells, puts the segment at its new row, keeps the others
    in their order, keeps the number of segments, and keeps every field
    of every segment except the backtime: the backtimes are computed anew
    by the scheduler pass that ends the move. *)
Theorem move_rundown_item_keeps_content
  (now : datetime) (item : Item) (current_row direction : Z) (st : App) (b : string) :
  0 <= current_row ->
  rundown_tree st !! Z.to_nat current_row = Some item ->
  0 <= current_row + direction < Z.of_nat (length (rundown_tree st)) ->
  item_of_data (user_data item) = Ok (setText3 b item) ->
  let rest := delete (Z.to_nat current_row) (rundown_tree st) in
  let new_row := Z.to_nat (current_row + direction) in
  let st' := fst (move_rundown_item now item current_row direction st) in
  no_backtime <$> rundown_tree st'
  = no_backtime <$> (take new_row rest ++ item :: drop new_row rest) /\
  length (rundown_tree st') = length (rundown_tree st).
Proof.
  intros Hrow Hitem Hnew Hdata rest new_row st'.
  assert (Hlt : (Z.to_nat current_row < length (rundown_tree st))%nat)
    by (eapply lookup_lt_Some; exact Hitem).
  assert (Hrest : length rest = (length (rundown_tree st) - 1)%nat)
    by (apply length_delete; eauto).
  assert (Htree : no_backtime <$> rundown_tree st'
                  = no_backtime <$> (take new_row rest ++ item :: drop new_row rest)).
  { subst st'. unfold move_rundown_item, gets.
    unfold bind at 1.
    replace ((0 <=? current_row + direction)
             && (current_row + direction <? Z.of_nat (length (rundown_tree st))))
      with true by (symmetry; apply andb_true_iff; split;
                    [apply Z.leb_le | apply Z.ltb_lt]; lia).
    unfold bind at 1, modify at 1. unfold bind at 1, lift at 1. rewrite Hdata.
    unfold bind at 1, modify at 1.
    rewrite fst_then_ret.
    match goal with
    | |- context [calculate_backtimes now ?s] =>
        destruct (frame_calculate_backtimes now s) as (Hf & _); rewrite Hf
    end.
    cbn [rundown_tree set_rundown_tree].
    unfold takeTopLevelItem, insertTopLevelItem.
    replace ((0 <=? current_row) && (current_row <? Z.of_nat (length (rundown_tree st))))
      with true by (symmetry; apply andb_true_iff; split;
                    [apply Z.leb_le | apply Z.ltb_lt]; lia).
    fold rest.
    replace ((0 <=? current_row + direction)
             && (current_row + direction <=? Z.of_nat (length rest)))
      with true by (symmetry; apply andb_true_iff; split; apply Z.leb_le; lia).
    fold new_row. rewrite !fmap_app, !fmap_cons. reflexivity. }
  split; [exact Htree |].
  rewrite <- (length_fmap no_backtime (rundown_tree st')), Htree, length_fmap.
  rewrite length_app, length_cons, length_take, length_drop. subst new_row. lia.
Qed.

Lemma move_rundown_item_keeps_content_witness :
  let item := segment "One" "http://a" "00:30" "12:28 PM" in
  let rest := delete (Z.to_nat 0) (rundown_tree two_segments) in
  let new_row := Z.to_nat (0 + 1) in
  let st' := fst (move_rundown_item noon item 0 1 two_segments) in
  (0 <= 0 /\
   rundown_tree two_segments !! Z.to_nat 0 = Some item /\
   0 <= 0 + 1 < Z.of_nat (length (rundown_tree two_segments)) /\
   item_of_data (user_data item) = Ok (setText3 "" item)) /\
  no_backtime <$> rundown_tree st'
  = no_backtime <$> (take new_row rest ++ item :: drop new_row rest) /\
  length (rundown_tree st') = length (rundown_tree two_segments).
Proof.
  intros item rest new_row st'.
  assert (H1 : rundown_tree two_segments !! Z.to_nat 0 = Some item)
    by (vm_compute; reflexivity).
  assert (H2 : 0 <= 0 + 1 < Z.of_nat (length (rundown_tree two_segments)))
    by (vm_compute; split; [discriminate | reflexivity]).
  assert (H3 : item_of_data (user_data item) = Ok (setText3 "" item))
    by (vm_compute; reflexivity).
  split; [repeat split; try assumption; try lia; apply H2 |].
  exact (move_rundown_item_keeps_content noon item 0 1 two_segments ""
           (Z.le_refl 0) H1 H2 H3).
Defined.

(** ** One pass of the scheduler, step by step *)

Lemma add_duration_active (i : nat) (total : Z) (st : App) (item : Item) (n : Z) :
  rundown_tree st !! i = Some item ->
  is_active item = true ->
  parse_duration_string (text2 item) = Ok (Some n) ->
  add_duration i total st = (st, Ok (total + n)).
Proof.
  intros Hitem Hact Hparse. unfold is_active in Hact.
  unfold add_duration, bind, topLevelItem. rewrite Hitem, Hact.
  unfold lift. rewrite Hparse. reflexivity.
Qed.

Lemma set_backtime_active (i : nat) (t t' : datetime) (st : App) (item : Item)
  (n : Z) (delta : timedelta) :
  rundown_tree st !! i = Some item ->
  is_active item = true ->
  parse_duration_string (text2 item) = Ok (Some n) ->
  timedelta_new 0 n 0 = Ok delta ->
  add_datetime_timedelta t delta (-1) = Ok t' ->
  set_backtime i t st
  = (set_rundown_tree (alter (setText3 (strftime_IMp t')) i (rundown_tree st)) st, Ok t').
Proof.
  intros Hitem Hact Hparse Hdelta Hsub. unfold is_active in Hact.
  unfold set_backtime, bind, topLevelItem. rewrite Hitem, Hact.
  unfold lift. rewrite Hparse. unfold ret. rewrite Hdelta, Hsub. reflexivity.
Qed.

Lemma time_of_seconds_of_time (t : time) :
  valid_time t -> microsecond t = 0 ->
  time_of_seconds (seconds_of_time t mod 86400) 0 = t.
Proof.
  intros (Hh & Hm & Hs & _) Hus. destruct t as [h m s us]; simpl in *. subst us.
  unfold time_of_seconds, seconds_of_time; simpl.
  rewrite (Z.mod_small (h * 3600 + m * 60 + s) 86400) by lia.
  assert (H1 : (h * 3600 + m * 60 + s) / 3600 = h)
    by (symmetry; apply (Z.div_unique _ 3600 h (m * 60 + s)); lia).
  assert (H2 : (h * 3600 + m * 60 + s) mod 3600 = m * 60 + s)
    by (symmetry; apply (Z.mod_unique _ 3600 h (m * 60 + s)); lia).
  assert (H3 : (m * 60 + s) / 60 = m)
    by (symmetry; apply (Z.div_unique _ 60 m s); lia).
  assert (H4 : (h * 3600 + m * 60 + s) mod 60 = s)
    by (symmetry; apply (Z.mod_unique _ 60 (h * 60 + m) s); lia).
  rewrite H1, H2, H3, H4. reflexivity.
Qed.

Lemma timedelta_one_day :
  timedelta_new 1 0 0 = Ok {| days := 1; seconds := 0; microseconds := 0 |}.
Proof. reflexivity. Qed.

Lemma add_one_day (o : Z) (t : time) :
  valid_time t -> microsecond t = 0 -> 1 <= o + 1 <= MAXORDINAL ->
  add_datetime_timedelta {| ordinal := o; clock := t |}
                         {| days := 1; seconds := 0; microseconds := 0 |} 1
  = Ok {| ordinal := o + 1; clock := t |}.
Proof.
  intros Ht Hus Ho. unfold add_datetime_timedelta.
  cbn [ordinal clock days seconds microseconds].
  assert (Hsec : 0 <= seconds_of_time t < 86400)
    by (destruct Ht as (? & ? & ? & ?); unfold seconds_of_time; lia).
  replace (microsecond t + 1 * 0) with 0 by lia.
  change (0 / 1000000) with 0. change (0 mod 1000000) with 0.
  replace (seconds_of_time t + 1 * 0 + 0) with (seconds_of_time t) by lia.
  rewrite (Z.div_small (seconds_of_time t) 86400) by lia.
  replace (o + 1 * 1 + 0) with (o + 1) by lia.
  replace ((1 <=? o + 1) && (o + 1 <=? MAXORDINAL))
    with true by (symmetry; apply andb_true_iff; split; apply Z.leb_le; lia).
  rewrite time_of_seconds_of_time by assumption.
  reflexivity.
Qed.

Lemma datetime_diff_same_day (now : datetime) (t : time) :
  valid_datetime now -> valid_time t ->
  exists td, datetime_diff now {| ordinal := ordinal now; clock := t |} = Ok td.
Proof.
  intros (_ & Hh & Hm & Hs & Hus) (Hth & Htm & Hts & Htus).
  unfold datetime_diff, timedelta_new. cbn [ordinal clock].
  match goal with
  | |- context [999999999 <? Z.abs ?d] =>
      replace (999999999 <? Z.abs d) with false
        by (symmetry; apply Z.ltb_ge; unfold seconds_of_time;
            Z.div_mod_to_equations; lia)
  end.
  eexists. reflexivity.
Qed.

(** The end of the show when the backtime of the last item reads as the
    time [t]: [t] today, or [t] tomorrow. *)
Lemma show_end_of_last (now : datetime) (st : App) (item : Item) (t : time) :
  valid_datetime now -> ordinal now < MAXORDINAL ->
  rundown_tree st !! (length (rundown_tree st) - 1)%nat = Some item ->
  parse_backtime_string (text3 item) = Some t ->
  valid_time t -> microsecond t = 0 ->
  exists d, (d = ordinal now \/ d = ordinal now + 1) /\
            show_end now st = (st, Ok {| ordinal := d; clock := t |}).
Proof.
  intros Hnow Hmax Hitem Hparse Ht Hus0.
  assert (Hcount : (0 <? length (rundown_tree st))%nat = true).
  { apply Nat.ltb_lt. apply lookup_lt_Some in Hitem. lia. }
  assert (Hne : String.eqb (text3 item) "" = false).
  { destruct (String.eqb_spec (text3 item) "") as [He | He]; [| reflexivity].
    rewrite He in Hparse. discriminate Hparse. }
  assert (Heta : {| hour := hour t; minute := minute t; second := second t;
                    microsecond := 0 |} = t)
    by (destruct t; simpl in *; subst; reflexivity).
  destruct (datetime_diff_same_day now t Hnow Ht) as [ago Hago].
  unfold show_end, bind, gets. rewrite Hcount.
  unfold topLevelItem. rewrite Hitem. unfold ret at 1.
  rewrite Hne. cbn [negb]. rewrite Hparse, Heta.
  destruct (datetime_lt _ now) eqn:Hlt; [| exists (ordinal now); split; [left |]; reflexivity].
  unfold lift at 1. rewrite Hago.
  destruct (total_seconds_gt ago 3600);
    [| exists (ordinal now); split; [left |]; reflexivity].
  exists (ordinal now + 1). split; [right; reflexivity |].
  unfold lift, ret. rewrite timedelta_one_day.
  rewrite add_one_day by (try assumption; destruct Hnow as [? _]; lia).
  reflexivity.
Qed.

Lemma bind_ok {A B : Type} (m : M A) (k : A -> M B) (st st' : App) (a : A) :
  m st = (st', Ok a) -> bind m k st = k a st'.
Proof. intros H. unfold bind. rewrite H. reflexivity. Qed.

Lemma timedelta_seconds (n : Z) :
  0 <= n < 86400 ->
  timedelta_new 0 n 0 = Ok {| days := 0; seconds := n; microseconds := 0 |}.
Proof.
  intros Hn. unfold timedelta_new.
  change (0 / 1000000) with 0. change (0 mod 1000000) with 0.
  replace (n + 0) with n by lia.
  rewrite (Z.div_small n 86400), (Z.mod_small n 86400) by lia.
  reflexivity.
Qed.

(** A duration taken off a time without leaving its day. *)
Lemma sub_seconds_same_day (o : Z) (t : time) (n : Z) :
  1 <= o <= MAXORDINAL -> valid_time t -> microsecond t = 0 ->
  0 <= n <= seconds_of_time t ->
  add_datetime_timedelta {| ordinal := o; clock := t |}
                         {| days := 0; seconds := n; microseconds := 0 |} (-1)
  = Ok {| ordinal := o; clock := time_of_seconds (seconds_of_time t - n) 0 |}.
Proof.
  intros Ho (Hh & Hm & Hs & _) Hus Hn. unfold add_datetime_timedelta.
  cbn [ordinal clock days seconds microseconds]. rewrite Hus.
  change (0 + -1 * 0) with 0.
  change (0 / 1000000) with 0. change (0 mod 1000000) with 0.
  assert (Hsec : 0 <= seconds_of_time t < 86400) by (unfold seconds_of_time; lia).
  replace (seconds_of_time t + -1 * n + 0) with (seconds_of_time t - n) by lia.
  rewrite (Z.div_small (seconds_of_time t - n) 86400) by lia.
  rewrite (Z.mod_small (seconds_of_time t - n) 86400) by lia.
  replace (o + -1 * 0 + 0) with o by lia.
  replace ((1 <=? o) && (o <=? MAXORDINAL))
    with true by (symmetry; apply andb_true_iff; split; apply Z.leb_le; lia).
  reflexivity.
Qed.

(** ** Walking backward from the anchor *)

(** C2, as stated, fails: the backtime that the pass gives the third
    segment is the text "05:59 PM", which reads back as 5:59:00 PM and
    not as 5:59:15 PM; the seconds are only in the readout. *)
Lemma calculate_backtimes_drops_seconds :
  let st' := fst (calculate_backtimes noon three_segments) in
  text3 <$> rundown_tree st' !! 2%nat = Some "05:59 PM" /\
  parse_backtime_string "05:59 PM"
  = Some {| hour := 17; minute := 59; second := 0; microsecond := 0 |} /\
  parse_backtime_string "05:59 PM"
  <> Some {| hour := 17; minute := 59; second := 15; microsecond := 0 |}.
Proof.
  split; [vm_compute; reflexivity |].
  split; [vm_compute; reflexivity | vm_compute; discriminate].
Qed.

(** C2, amended. For three active segments of 00:30, 01:00 and 00:45 whose
    last backtime reads as 6:00:00 PM, one pass walks back from the anchor
    to 5:59:15 PM, 5:58:15 PM and 5:57:45 PM, writes these to the minute
    as the backtimes "05:59 PM", "05:58 PM" and "05:57 PM" of the third,
    second and first segment, and writes the readout
    "Backtime: 05:57:45 PM". *)
Theorem calculate_backtimes_three_segments
  (now : datetime) (st : App) (it1 it2 it3 : Item) :
  valid_datetime now -> ordinal now < MAXORDINAL ->
  recalculating_backtimes st = false ->
  rundown_tree st = [it1; it2; it3] ->
  is_active it1 = true -> is_active it2 = true -> is_active it3 = true ->
  text2 it1 = "00:30" -> text2 it2 = "01:00" -> text2 it3 = "00:45" ->
  parse_backtime_string (text3 it3)
  = Some {| hour := 18; minute := 0; second := 0; microsecond := 0 |} ->
  let st' := fst (calculate_backtimes now st) in
  snd (calculate_backtimes now st) = Ok tt /\
  rundown_tree st'
  = [setText3 "05:57 PM" it1; setText3 "05:58 PM" it2; setText3 "05:59 PM" it3] /\
  rundown_clock_label st' = "Backtime: 05:57:45 PM".
Proof.
  intros Hnow Hmax Hflag Htree Ha1 Ha2 Ha3 Hd1 Hd2 Hd3 Hparse.
  assert (Hp1 : parse_duration_string (text2 it1) = Ok (Some 30))
    by (rewrite Hd1; reflexivity).
  assert (Hp2 : parse_duration_string (text2 it2) = Ok (Some 60))
    by (rewrite Hd2; reflexivity).
  assert (Hp3 : parse_duration_string (text2 it3) = Ok (Some 45))
    by (rewrite Hd3; reflexivity).
  set (st0 := set_recalculating_backtimes true st).
  assert (Htree0 : rundown_tree st0 = [it1; it2; it3]) by exact Htree.
  destruct (show_end_of_last now st0 it3 (mk_time 18 0 0 0) Hnow Hmax) as (d & Hd & Hshow);
    [rewrite Htree0; reflexivity | exact Hparse | repeat split; simpl; lia | reflexivity |].
  assert (Hdr : 1 <= d <= MAXORDINAL) by (destruct Hnow as [? _]; lia).
  assert (Hrun : calculate_backtimes now st
    = (set_recalculating_backtimes false
         (set_rundown_clock_label "Backtime: 05:57:45 PM"
            (set_rundown_tree
               [setText3 "05:57 PM" it1; setText3 "05:58 PM" it2; setText3 "05:59 PM" it3]
               st0)), Ok tt)).
  { unfold calculate_backtimes.
    erewrite bind_ok by (unfold gets; rewrite Hflag; reflexivity). cbv beta iota.
    erewrite bind_ok by reflexivity. fold st0.
    unfold finally.
    erewrite bind_ok by (unfold gets; rewrite Htree0; reflexivity).
    cbn [length seq rev app for_each].
    erewrite (bind_ok _ _ st0 st0 135).
    2:{ erewrite bind_ok
          by (eapply add_duration_active; [rewrite Htree0; reflexivity | eassumption ..]).
        erewrite bind_ok
          by (eapply add_duration_active; [rewrite Htree0; reflexivity | eassumption ..]).
        erewrite bind_ok
          by (eapply add_duration_active; [rewrite Htree0; reflexivity | eassumption ..]).
        reflexivity. }
    erewrite bind_ok by exact Hshow.
    set (t3 := {| ordinal := d; clock := mk_time 17 59 15 0 |}).
    set (t2 := {| ordinal := d; clock := mk_time 17 58 15 0 |}).
    set (t1 := {| ordinal := d; clock := mk_time 17 57 45 0 |}).
    set (st3 := set_rundown_tree [it1; it2; setText3 "05:59 PM" it3] st0).
    set (st2 := set_rundown_tree [it1; setText3 "05:58 PM" it2; setText3 "05:59 PM" it3] st3).
    set (st1 := set_rundown_tree
                  [setText3 "05:57 PM" it1; setText3 "05:58 PM" it2; setText3 "05:59 PM" it3]
                  st2).
    erewrite (bind_ok _ _ st0 st1 t1).
    2:{ erewrite (bind_ok _ _ st0 st3 t3).
        2:{ erewrite (set_backtime_active 2 _ t3 st0 it3 45);
              [rewrite Htree0; reflexivity | rewrite Htree0; reflexivity
              | assumption | assumption | apply timedelta_seconds; lia |].
            apply (sub_seconds_same_day d (mk_time 18 0 0 0) 45);
              [assumption | repeat split; simpl; lia | reflexivity
              | unfold seconds_of_time; simpl; lia]. }
        erewrite (bind_ok _ _ st3 st2 t2).
        2:{ erewrite (set_backtime_active 1 _ t2 st3 it2 60);
              [reflexivity | reflexivity
              | assumption | assumption | apply timedelta_seconds; lia |].
            apply (sub_seconds_same_day d (mk_time 17 59 15 0) 60);
              [assumption | repeat split; simpl; lia | reflexivity
              | unfold seconds_of_time; simpl; lia]. }
        erewrite (bind_ok _ _ st2 st1 t1).
        2:{ erewrite (set_backtime_active 0 _ t1 st2 it1 30);
              [reflexivity | reflexivity
              | assumption | assumption | apply timedelta_seconds; lia |].
            apply (sub_seconds_same_day d (mk_time 17 58 15 0) 30);
              [assumption | repeat split; simpl; lia | reflexivity
              | unfold seconds_of_time; simpl; lia]. }
        reflexivity. }
    reflexivity. }
  intros st'. subst st'. rewrite Hrun. repeat split; reflexivity.
Qed.

(** ** Stories that the rundown has already *)

Lemma same_story_key (a a' b b' : dict) :
  story_key a = story_key a' -> story_key b = story_key b' ->
  same_story a b = same_story a' b'.
Proof.
  unfold story_key, same_story. intros Ha Hb.
  injection Ha as Ha1 Ha2. injection Hb as Hb1 Hb2. congruence.
Qed.

Lemma already_in_existsb (current : list dict) (story : dict) :
  already_in current story = existsb (fun r => same_story r story) current.
Proof. reflexivity. Qed.

Lemma already_in_false (current : list dict) (story : dict) :
  already_in current story = false ->
  Forall (fun r => same_story r story = false) current.
Proof.
  rewrite already_in_existsb.
  induction current as [| r current IH]; simpl; intros H; constructor.
  - apply orb_false_iff in H. tauto.
  - apply IH. apply orb_false_iff in H. tauto.
Qed.

Lemma already_in_app (current more : list dict) (story : dict) :
  already_in current story = true -> already_in (current ++ more) story = true.
Proof.
  rewrite !already_in_existsb, existsb_app. intros ->. reflexivity.
Qed.

Lemma distinct_snoc (l : list dict) (y : dict) :
  distinct l -> Forall (fun x => same_story x y = false) l -> distinct (l ++ [y]).
Proof.
  unfold distinct. induction 1 as [| a l Ha Hl IH]; intros Hy; simpl.
  - repeat constructor.
  - inversion Hy as [| ? ? Hay Hly]; subst. constructor.
    + apply Forall_app. split; [exact Ha | repeat constructor; exact Hay].
    + apply IH. exact Hly.
Qed.

Lemma Forall_sublist_of {A : Type} (P : A -> Prop) (l' l : list A) :
  l' `sublist_of` l -> Forall P l -> Forall P l'.
Proof.
  induction 1 as [| x l1 l2 Hsub IH | x l1 l2 Hsub IH]; intros H.
  - constructor.
  - inversion H; subst. constructor; auto.
  - inversion H; subst. auto.
Qed.

Lemma distinct_sublist (l' l : list dict) :
  l' `sublist_of` l -> distinct l -> distinct l'.
Proof.
  unfold distinct.
  induction 1 as [| x l1 l2 Hsub IH | x l1 l2 Hsub IH]; intros H.
  - constructor.
  - inversion H as [| ? ? Hx Hl]; subst. constructor; [| auto].
    eapply Forall_sublist_of; eassumption.
  - inversion H; subst. auto.
Qed.

Lemma distinct_keys (l l' : list dict) :
  story_key <$> l = story_key <$> l' -> distinct l -> distinct l'.
Proof.
  unfold distinct. intros Hkeys Hl. revert l' Hkeys.
  induction Hl as [| a l Ha Hl IH]; intros [| a' l'] Hkeys; try discriminate Hkeys.
  - constructor.
  - rewrite !fmap_cons in Hkeys.
    assert (Hk : story_key a = story_key a') by congruence.
    assert (Hks : story_key <$> l = story_key <$> l') by congruence.
    constructor; [| apply IH; exact Hks].
    clear IH Hl Hkeys. revert l' Hks.
    induction Ha as [| b l Hb Ha IH]; intros [| b' l'] Hks; try discriminate Hks.
    + constructor.
    + rewrite !fmap_cons in Hks.
      assert (Hkb : story_key b = story_key b') by congruence.
      assert (Hks' : story_key <$> l = story_key <$> l') by congruence.
      constructor; [| apply IH; exact Hks'].
      rewrite <- (same_story_key a a' b b') by assumption. exact Hb.
Qed.

Lemma has_data_insert (key : string) (v : pyval) (d : dict) :
  has_data (Some (<[key := v]> d)) = true.
Proof.
  unfold has_data. apply negb_true_iff. apply Nat.eqb_neq.
  apply map_size_non_empty_iff. apply insert_non_empty.
Qed.

(** The three ways a turn of the loop ends: the story is in the rundown
    and nothing changes; it is appended, with its link and id, and
    counted; or it has no summary. *)
Lemma add_story_cases (story : dict) (current : list dict) (n : Z) :
  (already_in current story = true /\ add_story story (current, n) = Ok (current, n)) \/
  (already_in current story = false /\
   ((exists story_for_rundown,
        story_key story_for_rundown = story_key story /\
        has_data (Some story_for_rundown) = true /\
        add_story story (current, n) = Ok (current ++ [story_for_rundown], n + 1)) \/
    (exists e, add_story story (current, n) = Raise e))).
Proof.
  unfold add_story. destruct (already_in current story); [left; split; reflexivity |].
  right. split; [reflexivity |].
  unfold subscript, result_bind.
  match goal with |- context [match ?m !! "summary" with _ => _ end] =>
    destruct (m !! "summary") as [summary |] end.
  - left. eexists. split; [| split; [| reflexivity]].
    + unfold story_key, dict_get.
      rewrite !lookup_insert_ne by discriminate. reflexivity.
    + apply has_data_insert.
  - right. eexists. reflexivity.
Qed.

Lemma add_story_duplicate (story : dict) (current : list dict) (n : Z) :
  already_in current story = true -> add_story story (current, n) = Ok (current, n).
Proof. intros H. unfold add_story. rewrite H. reflexivity. Qed.

(** What the loop keeps: the rundown only grows, by as many stories as
    are counted, and stays without duplicates. *)
Lemma add_stories_grows (selected current : list dict) (n : Z) (current' : list dict) (n' : Z) :
  add_stories selected (current, n) = Ok (current', n') ->
  current `prefix_of` current' /\
  n' - n = Z.of_nat (length current') - Z.of_nat (length current) /\
  (distinct current -> distinct current').
Proof.
  revert current n. induction selected as [| story selected IH]; intros current n H.
  - simpl in H. injection H as <- <-. repeat split; [reflexivity | lia | auto].
  - cbn [add_stories] in H.
    destruct (add_story_cases story current n)
      as [[Hin Hadd] | [Hin [(s' & Hkey & _ & Hadd) | [e Hadd]]]];
      rewrite Hadd in H; cbn [result_bind] in H.
    + apply IH. exact H.
    + destruct (IH _ _ H) as (Hpre & Hn & Hd). repeat split.
      * etrans; [apply prefix_app_r; reflexivity | exact Hpre].
      * rewrite length_app in Hn. simpl in Hn. lia.
      * intros Hcur. apply Hd. apply distinct_snoc; [exact Hcur |].
        eapply Forall_impl; [apply already_in_false; exact Hin |].
        intros r Hr. simpl in Hr. rewrite <- Hr.
        apply same_story_key; [reflexivity | exact Hkey].
    + discriminate H.
Qed.

(** A story that the rundown has already counts for nothing in a batch. *)
Lemma add_stories_skip (pre post : list dict) (story : dict) (current : list dict) (n : Z) :
  already_in current story = true ->
  add_stories (pre ++ story :: post) (current, n) = add_stories (pre ++ post) (current, n).
Proof.
  revert current n. induction pre as [| s pre IH]; intros current n Hin.
  - cbn [app add_stories].
    rewrite (add_story_duplicate story current n Hin). reflexivity.
  - rewrite <- !app_comm_cons. cbn [add_stories].
    destruct (add_story_cases s current n)
      as [[_ Hadd] | [_ [(s' & _ & _ & Hadd) | [e Hadd]]]];
      rewrite Hadd; cbn [result_bind].
    + apply IH. exact Hin.
    + apply IH. apply already_in_app. exact Hin.
    + reflexivity.
Qed.

(** ** The rundown after [send_to_rundown] *)

Lemma same_data_refl (st : App) : same_data st st.
Proof. reflexivity. Qed.

Lemma same_data_trans (a b c : App) : same_data a b -> same_data b c -> same_data a c.
Proof. unfold same_data. congruence. Qed.

Lemma frame_same_data (st st' : App) : frame st st' -> same_data st st'.
Proof.
  intros (Htree & _). unfold same_data.
  apply fmap_no_backtime; [intros item; reflexivity | exact Htree].
Qed.

Lemma same_data_calculate_backtimes (now : datetime) :
  preserves same_data (calculate_backtimes now).
Proof. intros st. apply frame_same_data. apply frame_calculate_backtimes. Qed.

Lemma same_data_message_box (title text : string) :
  preserves same_data (message_box title text).
Proof. intros st. reflexivity. Qed.

Lemma same_data_layout_rows : preserves same_data layout_rows.
Proof. intros st. unfold layout_rows. destruct (existsb _ _); reflexivity. Qed.

Lemma same_data_setCurrentWidget (now : datetime) (w : tab) :
  preserves same_data (setCurrentWidget now w).
Proof.
  unfold setCurrentWidget, on_tab_changed.
  apply (preserves_bind same_data same_data_trans);
    [apply (preserves_gets same_data same_data_refl) | intros current].
  destruct (decide (current = w)); [apply (preserves_ret same_data same_data_refl) |].
  apply (preserves_bind same_data same_data_trans);
    [intros st; reflexivity | intros _].
  apply (preserves_bind same_data same_data_trans); [| intros _].
  - destruct (decide (w = RundownTab));
      [apply same_data_layout_rows | apply (preserves_ret same_data same_data_refl)].
  - destruct (decide (w = RundownTab));
      [apply same_data_calculate_backtimes | apply (preserves_ret same_data same_data_refl)].
Qed.

Lemma stories_of_user_data (tree tree' : list Item) :
  user_data <$> tree' = user_data <$> tree -> stories_of tree' = stories_of tree.
Proof.
  revert tree'. induction tree as [| item tree IH]; intros [| item' tree'] H;
    try discriminate H; [reflexivity |].
  rewrite !fmap_cons in H.
  assert (H1 : user_data item' = user_data item) by congruence.
  assert (H2 : user_data <$> tree' = user_data <$> tree) by congruence.
  unfold stories_of. cbn [omap list_omap]. rewrite H1.
  fold (stories_of tree') (stories_of tree). rewrite (IH tree' H2). reflexivity.
Qed.

(** [get_rundown_items] hands out the stories of the items, with the
    links and ids that the items store. *)
Lemma story_of_item_keys (tree : list Item) :
  story_key <$> omap story_of_item tree = story_key <$> stories_of tree.
Proof.
  induction tree as [| item tree IH]; [reflexivity |].
  unfold stories_of. cbn [omap list_omap]. fold (stories_of tree).
  unfold story_of_item at 1.
  destruct (user_data item) as [story_data |] eqn:Hdata; [| exact IH].
  destruct (has_data (Some story_data)) eqn:Hhas; [| exact IH].
  rewrite !fmap_cons, IH. f_equal.
  unfold story_key, dict_get. rewrite !lookup_insert_ne by discriminate.
  reflexivity.
Qed.

Lemma alter_last {A : Type} (f : A -> A) (l : list A) (x : A) :
  alter f (length l) (l ++ [x]) = l ++ [f x].
Proof. induction l as [| y l IH]; simpl; [reflexivity | f_equal; exact IH]. Qed.

(** [add_item] adds one item to the tree, which ends with the dictionary
    of the story, or, after an exception, with none. *)
Lemma add_item_grows (story_data : dict) (st : App) :
  exists item,
    rundown_tree (fst (add_item story_data tt st)) = rundown_tree st ++ [item] /\
    (user_data item = None \/ user_data item = Some story_data).
Proof.
  set (T := rundown_tree st).
  set (Inv := fun st' : App =>
                exists item, rundown_tree st' = T ++ [item] /\
                             (user_data item = None \/ user_data item = Some story_data)).
  set (R := fun a b : App => Inv a -> Inv b).
  assert (R_refl : forall a, R a a) by (intros a H; exact H).
  assert (R_trans : forall a b c, R a b -> R b c -> R a c)
    by (intros a b c Hab Hbc H; auto).
  assert (Hupd : forall f : Item -> Item,
             (forall item, user_data item = None \/ user_data item = Some story_data ->
                           user_data (f item) = None \/ user_data (f item) = Some story_data) ->
             preserves R (update_item (length T) f)).
  { intros f Hf st' (item & Htree & Hitem). exists (f item). split; [| auto].
    simpl. rewrite Htree. apply alter_last. }
  unfold add_item. unfold bind at 1, gets at 1. unfold bind at 1, modify at 1.
  fold T.
  match goal with
  | |- exists item, rundown_tree (fst (?m ?s)) = _ /\ _ =>
      assert (Hm : preserves R m); [| apply (Hm s); exists new_item; split;
                                       [reflexivity | left; reflexivity]]
  end.
  repeat first
    [ apply (preserves_lift R R_refl)
    | apply Hupd; intros item Hitem; simpl; first [exact Hitem | right; reflexivity]
    | apply (preserves_bind R R_trans); [| intros] ].
Qed.

Lemma stories_of_one (item : Item) (story_data : dict) :
  user_data item = None \/ user_data item = Some story_data ->
  stories_of [item] `sublist_of` [story_data].
Proof.
  intros [H | H]; unfold stories_of; cbn [omap list_omap]; rewrite H; cbn [has_data].
  - apply sublist_nil_l.
  - destruct (negb _); [reflexivity | apply sublist_nil_l].
Qed.

Lemma add_items_grow (rundown_data : list dict) (st : App) :
  exists items,
    rundown_tree (fst (for_each rundown_data add_item tt st)) = rundown_tree st ++ items /\
    stories_of items `sublist_of` rundown_data.
Proof.
  revert st. induction rundown_data as [| story_data rundown_data IH]; intros st.
  - exists []. split; [simpl; rewrite app_nil_r; reflexivity | reflexivity].
  - cbn [for_each]. unfold bind.
    destruct (add_item_grows story_data st) as (item & Htree & Hitem).
    destruct (add_item story_data tt st) as [st1 [[] | e]]; cbn [fst] in Htree.
    + destruct (IH st1) as (items & Htree' & Hsub).
      exists (item :: items). split.
      * rewrite Htree', Htree, <- app_assoc. reflexivity.
      * change (item :: items) with ([item] ++ items).
        unfold stories_of. rewrite omap_app.
        change (story_data :: rundown_data) with ([story_data] ++ rundown_data).
        apply sublist_app; [apply stories_of_one; exact Hitem | exact Hsub].
    + exists [item]. split; [exact Htree |].
      etrans; [apply stories_of_one; exact Hitem |].
      apply sublist_skip, sublist_nil_l.
Qed.

Lemma tree_then_layout_rows {A : Type} (m : M A) (st : App) :
  rundown_tree (fst (bind m (fun _ => layout_rows) st)) = rundown_tree (fst (m st)).
Proof.
  unfold bind, layout_rows. destruct (m st) as [st1 [a | e]]; [| reflexivity].
  destruct (existsb _ _); reflexivity.
Qed.

Lemma update_rundown_tree_stories (rundown_data : list dict) (st : App) :
  stories_of (rundown_tree (fst (update_rundown_tree rundown_data st)))
  `sublist_of` rundown_data.
Proof.
  unfold update_rundown_tree. unfold bind at 1, modify at 1.
  rewrite tree_then_layout_rows.
  destruct (add_items_grow rundown_data (set_rundown_tree [] st)) as (items & Htree & Hsub).
  rewrite Htree. exact Hsub.
Qed.

Lemma same_data_after {A B : Type} (m : M A) (k : M B) (st : App) :
  preserves same_data k -> same_data (fst (m st)) (fst (bind m (fun _ => k) st)).
Proof.
  intros Hk. unfold bind. destruct (m st) as [st1 [a | e]]; simpl.
  - apply Hk.
  - reflexivity.
Qed.

(** [send_to_rundown] keeps a rundown without duplicates, however it
    ends. *)
Lemma send_to_rundown_distinct (hash : pyval -> Z) (now1 now2 : datetime) (st : App) :
  distinct (stories_of (rundown_tree st)) ->
  distinct (stories_of (rundown_tree (fst (send_to_rundown hash now1 now2 st)))).
Proof.
  intros Hd. unfold send_to_rundown. unfold bind at 1.
  destruct (select_categories hash (articles_tree st)) as [selected | e]; [| exact Hd].
  destruct selected as [| story selected]; [exact Hd |].
  unfold bind at 1. unfold get_rundown_items at 1.
  unfold bind at 1, gets at 1. unfold ret at 1.
  assert (Hsync : distinct (omap story_of_item (rundown_tree st))).
  { eapply distinct_keys; [| exact Hd]. symmetry. apply story_of_item_keys. }
  unfold bind at 1, lift at 1.
  destruct (add_stories (story :: selected) _) as [[current' n'] | e] eqn:Hadd;
    [| exact Hd].
  destruct (add_stories_grows _ _ _ _ _ Hadd) as (_ & _ & Hcur'). specialize (Hcur' Hsync).
  destruct (0 <? n'); [| exact Hd].
  match goal with
  | |- context [fst (bind (update_rundown_tree current') ?k ?s)] =>
      set (rest := k tt);
      assert (Hrest : preserves same_data rest);
      [| pose proof (same_data_after (update_rundown_tree current') rest s Hrest) as Hsame;
         pose proof (update_rundown_tree_stories current' s) as Hsub ]
  end.
  { subst rest.
    apply (preserves_bind same_data same_data_trans);
      [apply same_data_calculate_backtimes | intros _].
    apply (preserves_bind same_data same_data_trans);
      [apply same_data_message_box | intros _].
    apply same_data_setCurrentWidget. }
  subst rest. apply stories_of_user_data in Hsame. cbv beta in Hsame |- *.
  rewrite Hsame. eapply distinct_sublist; eassumption.
Qed.

Lemma bind_inv_ok {A B : Type} (m : M A) (k : A -> M B) (st st' : App) (b : B) :
  bind m k st = (st', Ok b) ->
  exists st1 a, m st = (st1, Ok a) /\ k a st1 = (st', Ok b).
Proof.
  unfold bind. destruct (m st) as [st1 [a | e]]; intros H.
  - exists st1, a. split; [reflexivity | exact H].
  - discriminate H.
Qed.

Lemma calculate_backtimes_three_segments_witness :
  let st' := fst (calculate_backtimes noon three_segments) in
  (valid_datetime noon /\ ordinal noon < MAXORDINAL /\
   recalculating_backtimes three_segments = false) /\
  snd (calculate_backtimes noon three_segments) = Ok tt /\
  rundown_tree st'
  = [setText3 "05:57 PM" (segment "One" "http://a" "00:30" "");
     setText3 "05:58 PM" (segment "Two" "http://b" "01:00" "");
     setText3 "05:59 PM" (segment "Three" "http://c" "00:45" "6:00:00 PM")] /\
  rundown_clock_label st' = "Backtime: 05:57:45 PM".
Proof.
  assert (Hnow : valid_datetime noon)
    by (unfold valid_datetime, valid_time, MAXORDINAL; simpl; lia).
  assert (Hmax : ordinal noon < MAXORDINAL) by (unfold MAXORDINAL; simpl; lia).
  split; [split; [exact Hnow | split; [exact Hmax | reflexivity]] |].
  apply (calculate_backtimes_three_segments noon three_segments
           (segment "One" "http://a" "00:30" "")
           (segment "Two" "http://b" "01:00" "")
           (segment "Three" "http://c" "00:45" "6:00:00 PM"));
    first [exact Hnow | exact Hmax | vm_compute; reflexivity].
Defined.

Lemma py_eq_refl (v : pyval) : py_eq v v = true.
Proof.
  destruct v as [| b | n | s]; simpl.
  - reflexivity.
  - destruct b; reflexivity.
  - apply Z.eqb_refl.
  - apply String.eqb_refl.
Qed.

Lemma same_link_or_id_already_in
  (current : list dict) (segment story : dict) (key : string) (v : pyval) :
  key = "link" \/ key = "id" ->
  segment ∈ current -> segment !! key = Some v -> story !! key = Some v ->
  already_in current story = true.
Proof.
  intros Hkey Hin Hseg Hstory. rewrite already_in_existsb.
  apply existsb_exists. exists segment. split; [apply list_elem_of_In; exact Hin |].
  unfold same_story, dict_get. apply orb_true_iff.
  destruct Hkey as [-> | ->]; [left | right]; rewrite Hseg, Hstory; apply py_eq_refl.
Qed.

(** ** [send_to_rundown] does not reach its report *)

(** The text of an integer starts with a digit or a minus sign. *)
Lemma str_of_Z_head (n : Z) :
  exists c rest,
    str_of_Z n = String c rest /\
    In c ["0"; "1"; "2"; "3"; "4"; "5"; "6"; "7"; "8"; "9"; "-"]%char.
Proof.
  unfold str_of_Z. destruct n as [| p | p]; cbn.
  - eexists _, _. split; [reflexivity |]. cbn. tauto.
  - destruct (Pos.to_uint p); cbn; eexists _, _; (split; [reflexivity |]); cbn; tauto.
  - eexists _, _. split; [reflexivity |]. cbn. tauto.
Qed.

(** C6. Two segments are in the rundown; the story of the first and a
    new story are checked in the articles tree. [send_to_rundown] builds
    the rundown anew, without the story that it has and with the new one,
    and ends in a [NameError] when [update_rundown_tree] lays the rows out:
    the scheduler does not run, no message box reports the count of new
    stories, and the rundown tab is not shown. *)
Theorem send_to_rundown_no_report (hash : pyval -> Z) :
  let st' := fst (send_to_rundown hash noon noon newsroom) in
  text0 <$> rundown_tree newsroom = ["One"; "Two"] /\
  snd (send_to_rundown hash noon noon newsroom) = Raise NameError /\
  text0 <$> rundown_tree st' = ["One"; "Two"; "Three"] /\
  text3 <$> rundown_tree st' = ["12:28 PM"; "12:29 PM"; ""] /\
  message_boxes st' = [] /\
  current_tab st' = ArticlesTab.
Proof.
  assert (Hsel : select_categories hash (articles_tree newsroom)
                 = Ok [<["id" := VStr (str_of_Z (hash (VStr "http://aOne")))]>
                         (feed_story "One" "http://a");
                       <["id" := VStr (str_of_Z (hash (VStr "http://cThree")))]>
                         (feed_story "Three" "http://c")])
    by reflexivity.
  remember (send_to_rundown hash noon noon newsroom) as run eqn:Hrun.
  unfold send_to_rundown in Hrun. unfold bind at 1 in Hrun. rewrite Hsel in Hrun.
  revert Hrun. generalize (str_of_Z (hash (VStr "http://aOne"))). intros id1.
  destruct (str_of_Z_head (hash (VStr "http://cThree"))) as (c & rest & -> & Hc).
  intros ->. cbv zeta.
  repeat (destruct Hc as [<- | Hc]; [repeat split; vm_compute; reflexivity |]).
  destruct Hc.
Qed.

(** * Further properties *)

(** ** Texts of times and durations *)

Lemma in_range_nat (n : nat) (z : Z) :
  0 <= z < Z.of_nat n -> In z (Z.of_nat <$> seq 0 n).
Proof.
  intros H. apply list_elem_of_In. apply list_elem_of_fmap.
  exists (Z.to_nat z). split; [lia |].
  apply list_elem_of_In. apply in_seq. lia.
Qed.

Lemma roundtrip_IMp_check :
  forallb (fun h => forallb (fun m =>
    match parse_backtime_string
            (strftime_IMp {| ordinal := 1; clock := mk_time h m 0 0 |}) with
    | Some t => (hour t =? h) && (minute t =? m) && (second t =? 0)
                && (microsecond t =? 0)
    | None => false
    end) (Z.of_nat <$> seq 0 60)) (Z.of_nat <$> seq 0 24) = true.
Proof. vm_compute. reflexivity. Qed.

Lemma roundtrip_hmmAP_check :
  forallb (fun h => forallb (fun m =>
    match parse_backtime_string (qtime_toString_hmmAP (mk_time h m 0 0)) with
    | Some t => (hour t =? h) && (minute t =? m) && (second t =? 0)
                && (microsecond t =? 0)
    | None => false
    end) (Z.of_nat <$> seq 0 60)) (Z.of_nat <$> seq 0 24) = true.
Proof. vm_compute. reflexivity. Qed.

Lemma time_eqb_eq (t : time) (h m s us : Z) :
  (hour t =? h) && (minute t =? m) && (second t =? s) && (microsecond t =? us) = true ->
  t = {| hour := h; minute := m; second := s; microsecond := us |}.
Proof.
  intros H. repeat (apply andb_true_iff in H as [H ?]).
  destruct t; simpl in *. f_equal; apply Z.eqb_eq; assumption.
Qed.

Lemma parse_strftime_IMp (dt : datetime) :
  valid_time (clock dt) ->
  parse_backtime_string (strftime_IMp dt)
  = Some {| hour := hour (clock dt); minute := minute (clock dt);
            second := 0; microsecond := 0 |}.
Proof.
  intros (Hh & Hm & _).
  destruct dt as [o [h m s us]]; cbn [clock hour minute second] in *.
  apply (in_range_nat 24) in Hh. apply (in_range_nat 60) in Hm.
  pose proof roundtrip_IMp_check as H.
  rewrite forallb_forall in H. specialize (H h Hh).
  rewrite forallb_forall in H. specialize (H m Hm).
  change (strftime_IMp {| ordinal := o; clock := mk_time h m s us |})
    with (strftime_IMp {| ordinal := 1; clock := mk_time h m 0 0 |}).
  destruct (parse_backtime_string _) as [t |]; [| discriminate H].
  f_equal. apply time_eqb_eq. exact H.
Qed.

(** X1. What the scheduler writes, it reads: the backtime text of a time
    of day, as [calculate_backtimes] writes it into a cell, is read by
    [parse_backtime_string] as that hour and minute, the seconds
    dropped. *)
Theorem strftime_parse_roundtrip (dt : datetime) :
  valid_time (clock dt) ->
  parse_backtime_string (strftime_IMp dt)
  = Some {| hour := hour (clock dt); minute := minute (clock dt);
            second := 0; microsecond := 0 |}.
Proof. apply parse_strftime_IMp. Qed.

Lemma strftime_parse_roundtrip_witness :
  valid_time (clock noon) /\
  parse_backtime_string (strftime_IMp noon)
  = Some {| hour := 12; minute := 0; second := 0; microsecond := 0 |}.
Proof.
  assert (H : valid_time (clock noon)) by (unfold valid_time; simpl; lia).
  split; [exact H |]. exact (strftime_parse_roundtrip noon H).
Defined.

(** X2. A backtime that the user sets in the time editor of the cell is
    read by [parse_backtime_string] as the hour and minute that the
    editor showed. *)
Theorem backtime_editor_roundtrip (t : time) :
  valid_time t ->
  parse_backtime_string (qtime_toString_hmmAP t)
  = Some {| hour := hour t; minute := minute t; second := 0; microsecond := 0 |}.
Proof.
  intros (Hh & Hm & _).
  destruct t as [h m s us]; cbn [hour minute] in *.
  apply (in_range_nat 24) in Hh. apply (in_range_nat 60) in Hm.
  pose proof roundtrip_hmmAP_check as H.
  rewrite forallb_forall in H. specialize (H h Hh).
  rewrite forallb_forall in H. specialize (H m Hm).
  change (qtime_toString_hmmAP (mk_time h m s us))
    with (qtime_toString_hmmAP (mk_time h m 0 0)).
  destruct (parse_backtime_string _) as [t |]; [| discriminate H].
  f_equal. apply time_eqb_eq. exact H.
Qed.

Lemma backtime_editor_roundtrip_witness :
  valid_time (mk_time 18 5 0 0) /\
  parse_backtime_string (qtime_toString_hmmAP (mk_time 18 5 0 0))
  = Some {| hour := 18; minute := 5; second := 0; microsecond := 0 |}.
Proof.
  assert (H : valid_time (mk_time 18 5 0 0)) by (unfold valid_time; simpl; lia).
  split; [exact H |]. exact (backtime_editor_roundtrip (mk_time 18 5 0 0) H).
Defined.

Lemma isdecimal_cases (c : ascii) :
  isdecimal c = true ->
  In c ["0"; "1"; "2"; "3"; "4"; "5"; "6"; "7"; "8"; "9"]%char.
Proof.
  destruct c as [[] [] [] [] [] [] [] []]; vm_compute; intros H;
    first [discriminate H | tauto].
Qed.

Lemma validator_check_4 :
  forallb (fun a => forallb (fun c => forallb (fun d =>
    match parse_duration_string (string_of_list_ascii [a; ":"%char; c; d]) with
    | Ok (Some n) => (0 <=? n) && (n <=? 5999)
    | Ok None => true
    | Raise _ => false
    end)
    ["0"; "1"; "2"; "3"; "4"; "5"; "6"; "7"; "8"; "9"]%char)
    ["0"; "1"; "2"; "3"; "4"; "5"; "6"; "7"; "8"; "9"]%char)
    ["0"; "1"; "2"; "3"; "4"; "5"; "6"; "7"; "8"; "9"]%char = true.
Proof. vm_compute. reflexivity. Qed.

Lemma validator_check_5 :
  forallb (fun a => forallb (fun b => forallb (fun c => forallb (fun d =>
    match parse_duration_string (string_of_list_ascii [a; b; ":"%char; c; d]) with
    | Ok (Some n) => (0 <=? n) && (n <=? 5999)
    | Ok None => true
    | Raise _ => false
    end)
    ["0"; "1"; "2"; "3"; "4"; "5"; "6"; "7"; "8"; "9"]%char)
    ["0"; "1"; "2"; "3"; "4"; "5"; "6"; "7"; "8"; "9"]%char)
    ["0"; "1"; "2"; "3"; "4"; "5"; "6"; "7"; "8"; "9"]%char)
    ["0"; "1"; "2"; "3"; "4"; "5"; "6"; "7"; "8"; "9"]%char = true.
Proof. vm_compute. reflexivity. Qed.

(** X3. A duration that the duration editor lets into a cell never makes
    [parse_duration_string] raise: the answer is [None], or a number of
    seconds from 0 to 5999 (99:59). *)
Theorem validated_duration_parses (text : string) :
  duration_validator_acceptable text = true ->
  exists r, parse_duration_string text = Ok r /\
            forall n, r = Some n -> 0 <= n <= 5999.
Proof.
  unfold duration_validator_acceptable. intros H.
  rewrite <- (string_of_list_ascii_of_string text).
  destruct (list_ascii_of_string text) as [| a [| b [| c [| d [| e [| f l]]]]]];
    try discriminate H.
  - apply andb_true_iff in H as [H Hd]. apply andb_true_iff in H as [H Hc].
    apply andb_true_iff in H as [Ha Hb]. apply Ascii.eqb_eq in Hb. subst b.
    pose proof validator_check_4 as K.
    rewrite forallb_forall in K. specialize (K a (isdecimal_cases a Ha)).
    rewrite forallb_forall in K. specialize (K c (isdecimal_cases c Hc)).
    rewrite forallb_forall in K. specialize (K d (isdecimal_cases d Hd)).
    destruct (parse_duration_string _) as [[n |] | e]; [| | discriminate K].
    + exists (Some n). split; [reflexivity |]. intros n' Hn. injection Hn as <-.
      apply andb_true_iff in K as [K1 K2].
      apply Z.leb_le in K1. apply Z.leb_le in K2. lia.
    + exists None. split; [reflexivity |]. intros n' Hn. discriminate Hn.
  - apply andb_true_iff in H as [H He]. apply andb_true_iff in H as [H Hd].
    apply andb_true_iff in H as [H Hc]. apply andb_true_iff in H as [Ha Hb].
    apply Ascii.eqb_eq in Hc. subst c.
    pose proof validator_check_5 as K.
    rewrite forallb_forall in K. specialize (K a (isdecimal_cases a Ha)).
    rewrite forallb_forall in K. specialize (K b (isdecimal_cases b Hb)).
    rewrite forallb_forall in K. specialize (K d (isdecimal_cases d Hd)).
    rewrite forallb_forall in K. specialize (K e (isdecimal_cases e He)).
    destruct (parse_duration_string _) as [[n |] | e']; [| | discriminate K].
    + exists (Some n). split; [reflexivity |]. intros n' Hn. injection Hn as <-.
      apply andb_true_iff in K as [K1 K2].
      apply Z.leb_le in K1. apply Z.leb_le in K2. lia.
    + exists None. split; [reflexivity |]. intros n' Hn. discriminate Hn.
Qed.

Lemma validated_duration_parses_witness :
  duration_validator_acceptable "99:59" = true /\
  exists r, parse_duration_string "99:59" = Ok r /\
            forall n, r = Some n -> 0 <= n <= 5999.
Proof.
  split; [reflexivity |].
  exact (validated_duration_parses "99:59" eq_refl).
Defined.

Lemma digit_value_range (c : ascii) : isdecimal c = true -> 0 <= digit_value c <= 9.
Proof.
  unfold isdecimal, between, digit_value. intros H.
  apply andb_true_iff in H as [H1 H2].
  apply Z.leb_le in H1. apply Z.leb_le in H2. lia.
Qed.

Lemma int_digits_nonneg (bound : nat) :
  forall (s : string) (acc : Z) (count : nat) (v : Z) (count' : nat) (rest : string),
    (String.length s <= bound)%nat -> 0 <= acc ->
    int_digits acc count s = Some (v, count', rest) -> 0 <= v.
Proof.
  induction bound as [| bound IH]; intros s acc count v count' rest Hlen Hacc H.
  - destruct s; [| simpl in Hlen; lia]. simpl in H. injection H as <- _ _. exact Hacc.
  - destruct s as [| c s]; [simpl in H; injection H as <- _ _; exact Hacc |].
    cbn [int_digits] in H. simpl in Hlen.
    destruct (isdecimal c) eqn:Hc.
    + apply (IH s _ _ _ _ _ ltac:(lia)) in H; [exact H |].
      pose proof (digit_value_range c Hc). lia.
    + destruct (Ascii.eqb c "_").
      * destruct s as [| d s]; [discriminate H |].
        destruct (isdecimal d) eqn:Hd; [| discriminate H].
        simpl in Hlen.
        apply (IH s _ _ _ _ _ ltac:(lia)) in H; [exact H |].
        pose proof (digit_value_range d Hd). lia.
      * injection H as <- _ _. exact Hacc.
Qed.

Lemma lstrip_by_chars (p : ascii -> bool) (c : ascii) (s : string) :
  In c (list_ascii_of_string (lstrip_by p s)) -> In c (list_ascii_of_string s).
Proof.
  induction s as [| d s IH]; simpl; [tauto |].
  destruct (p d); simpl; [intros H; right; auto | tauto].
Qed.

(** [int] answers a negative number only for a text with a minus sign. *)
Lemma py_int_nonneg (s : string) (v : Z) :
  py_int s = Ok v -> ~ In "-"%char (list_ascii_of_string s) -> 0 <= v.
Proof.
  unfold py_int. intros H Hminus.
  assert (Hs1 : ~ In "-"%char (list_ascii_of_string (lstrip_by int_space s)))
    by (intros K; apply Hminus; eapply lstrip_by_chars; exact K).
  destruct (lstrip_by int_space s) as [| c s1]; [discriminate H |].
  assert (Hc : c <> "-"%char) by (intros ->; apply Hs1; left; reflexivity).
  assert (Hsplit :
            exists s2,
              match String c s1 with
              | String "-" t => (true, t)
              | String "+" t => (false, t)
              | _ => (false, String c s1)
              end = (false, s2)).
  { destruct c as [[] [] [] [] [] [] [] []];
      first [exfalso; apply Hc; reflexivity | eexists; reflexivity]. }
  destruct Hsplit as [s2 Hsplit]. rewrite Hsplit in H.
  destruct s2 as [| d s3]; [discriminate H |].
  destruct (isdecimal d) eqn:Hd; [| discriminate H].
  destruct (int_digits (digit_value d) 1 s3) as [[[v' count] rest] |] eqn:Hdig;
    [| discriminate H].
  destruct (lstrip_by int_space rest); [| discriminate H].
  destruct (max_str_digits <? count)%nat; [discriminate H |].
  injection H as <-.
  eapply (int_digits_nonneg (String.length s3)); [reflexivity | | exact Hdig].
  pose proof (digit_value_range d Hd). lia.
Qed.

Lemma split_chars (sep c : ascii) (s token : string) :
  In token (split sep s) -> In c (list_ascii_of_string token) ->
  In c (list_ascii_of_string s).
Proof.
  revert token. induction s as [| d s IH]; intros token Htok Hc.
  - simpl in Htok. destruct Htok as [<- | []]. exact Hc.
  - cbn [split] in Htok. destruct (Ascii.eqb d sep).
    + destruct Htok as [<- | Htok]; [destruct Hc |].
      simpl. right. eapply IH; eassumption.
    + destruct (split sep s) as [| h t] eqn:Hsplit.
      * destruct Htok as [<- | []]. simpl in Hc. simpl. tauto.
      * destruct Htok as [<- | Htok].
        -- simpl in Hc. destruct Hc as [Hc | Hc]; [left; exact Hc |].
           simpl. right. apply (IH h); [left; reflexivity | exact Hc].
        -- simpl. right. apply (IH token); [right; exact Htok | exact Hc].
Qed.

Lemma map_result_Forall2 {A B : Type} (f : A -> result B) (xs : list A) (ys : list B) :
  map_result f xs = Ok ys -> Forall2 (fun x y => f x = Ok y) xs ys.
Proof.
  revert ys. induction xs as [| x xs IH]; intros ys H.
  - injection H as <-. constructor.
  - cbn [map_result] in H. destruct (f x) as [y | e] eqn:Hx; [| discriminate H].
    cbn [result_bind] in H.
    destruct (map_result f xs) as [ys' | e]; [| discriminate H].
    injection H as <-. constructor; [exact Hx | apply IH; reflexivity].
Qed.

(** X4. The negative durations of [parse_duration_string] all come from a
    minus sign: for a text without one, the seconds that it answers are
    never negative. *)
Theorem duration_without_minus_nonneg (text : string) (n : Z) :
  parse_duration_string text = Ok (Some n) ->
  ~ In "-"%char (list_ascii_of_string text) ->
  0 <= n.
Proof.
  unfold parse_duration_string. intros H Hminus.
  destruct (map_result py_int (split ":" text)) as [parts |] eqn:Hparts;
    [| discriminate H].
  cbn [result_bind] in H.
  apply map_result_Forall2 in Hparts.
  assert (Htok : forall token v,
             In token (split ":" text) -> py_int token = Ok v -> 0 <= v).
  { intros token v Hin Hv. apply (py_int_nonneg token v Hv).
    intros K. apply Hminus. eapply split_chars; eassumption. }
  assert (Hall : Forall (fun v => 0 <= v) parts).
  { clear H. induction Hparts as [| token v tokens parts Hv _ IH]; constructor.
    - apply (Htok token v); [left; reflexivity | exact Hv].
    - apply IH. intros token' v' Hin. apply Htok. right. exact Hin. }
  destruct parts as [| a [| b [| c [| d parts]]]]; try discriminate H.
  - inversion Hall as [| ? ? Ha Hall']; subst. inversion Hall' as [| ? ? Hb _]; subst.
    destruct ((0 <=? b) && (b <? 60)); [| discriminate H].
    injection H as <-. lia.
  - inversion Hall as [| ? ? Ha Hall']; subst. inversion Hall' as [| ? ? Hb Hall'']; subst.
    inversion Hall'' as [| ? ? Hc _]; subst.
    destruct (((0 <=? b) && (b <? 60)) && ((0 <=? c) && (c <? 60))); [| discriminate H].
    injection H as <-. lia.
Qed.

Lemma duration_without_minus_nonneg_witness :
  (parse_duration_string "1:02:03" = Ok (Some 3723) /\
   ~ In "-"%char (list_ascii_of_string "1:02:03")) /\
  0 <= 3723.
Proof.
  assert (H1 : parse_duration_string "1:02:03" = Ok (Some 3723)) by reflexivity.
  assert (H2 : ~ In "-"%char (list_ascii_of_string "1:02:03")).
  { simpl. intros H. repeat (destruct H as [H | H]; [discriminate H |]). exact H. }
  split; [split; assumption |].
  exact (duration_without_minus_nonneg "1:02:03" 3723 H1 H2).
Defined.

(** ** The times that [parse_backtime_string] answers *)

Lemma orelse_Some {R : Type} (a b : option R) (r : R) :
  orelse a b = Some r -> a = Some r \/ b = Some r.
Proof. destruct a; simpl; auto. Qed.

Lemma re_char_Some {R : Type} (p : ascii -> bool) (s : string)
  (k : ascii -> string -> option R) (r : R) :
  re_char p s k = Some r -> exists c s', p c = true /\ k c s' = Some r.
Proof.
  destruct s as [| c s']; [discriminate |]. simpl.
  destruct (p c) eqn:Hp; [| discriminate]. eauto.
Qed.

Lemma in_range_value (lo hi : Z) (c : ascii) :
  in_range lo hi c = true -> lo - 48 <= digit_value c <= hi - 48.
Proof.
  unfold in_range, between, digit_value. intros H.
  apply andb_true_iff in H as [H1 H2].
  apply Z.leb_le in H1. apply Z.leb_le in H2. lia.
Qed.

Lemma re_two_range {R : Type} (a b c d : Z) (s : string)
  (k : Z -> string -> option R) (r : R) :
  re_two (in_range a b) (in_range c d) s k = Some r ->
  exists v s', (a - 48) * 10 + (c - 48) <= v <= (b - 48) * 10 + (d - 48) /\
               k v s' = Some r.
Proof.
  unfold re_two. intros H.
  apply re_char_Some in H as (x & s1 & Hx & H).
  apply re_char_Some in H as (y & s2 & Hy & H).
  apply in_range_value in Hx. apply in_range_value in Hy.
  eexists _, s2. split; [| exact H]. lia.
Qed.

Lemma isdecimal_in_range (c : ascii) : isdecimal c = in_range 48 57 c.
Proof. reflexivity. Qed.

Lemma re_one_range {R : Type} (a b : Z) (s : string)
  (k : Z -> string -> option R) (r : R) :
  re_one (in_range a b) s k = Some r ->
  exists v s', a - 48 <= v <= b - 48 /\ k v s' = Some r.
Proof.
  unfold re_one. intros H.
  apply re_char_Some in H as (x & s1 & Hx & H).
  apply in_range_value in Hx. eauto.
Qed.

Lemma re_H_range {R : Type} (s : string) (k : Z -> string -> option R) (r : R) :
  re_H s k = Some r -> exists v s', 0 <= v < 24 /\ k v s' = Some r.
Proof.
  unfold re_H. intros H.
  apply orelse_Some in H as [H | H]; [| apply orelse_Some in H as [H | H]].
  - apply re_two_range in H as (v & s' & Hv & H). exists v, s'. split; [lia | exact H].
  - apply (re_two_range 48 49 48 57) in H as (v & s' & Hv & H).
    exists v, s'. split; [lia | exact H].
  - apply (re_one_range 48 57) in H as (v & s' & Hv & H).
    exists v, s'. split; [lia | exact H].
Qed.

Lemma re_I_range {R : Type} (s : string) (k : Z -> string -> option R) (r : R) :
  re_I s k = Some r -> exists v s', 1 <= v <= 12 /\ k v s' = Some r.
Proof.
  unfold re_I. intros H.
  apply orelse_Some in H as [H | H]; [| apply orelse_Some in H as [H | H]].
  - apply re_two_range in H as (v & s' & Hv & H). exists v, s'. split; [lia | exact H].
  - apply re_two_range in H as (v & s' & Hv & H). exists v, s'. split; [lia | exact H].
  - apply re_one_range in H as (v & s' & Hv & H). exists v, s'. split; [lia | exact H].
Qed.

Lemma re_M_range {R : Type} (s : string) (k : Z -> string -> option R) (r : R) :
  re_M s k = Some r -> exists v s', 0 <= v < 60 /\ k v s' = Some r.
Proof.
  unfold re_M. intros H.
  apply orelse_Some in H as [H | H].
  - apply (re_two_range 48 53 48 57) in H as (v & s' & Hv & H).
    exists v, s'. split; [lia | exact H].
  - apply (re_one_range 48 57) in H as (v & s' & Hv & H).
    exists v, s'. split; [lia | exact H].
Qed.

Lemma re_S_range {R : Type} (s : string) (k : Z -> string -> option R) (r : R) :
  re_S s k = Some r -> exists v s', 0 <= v <= 61 /\ k v s' = Some r.
Proof.
  unfold re_S. intros H.
  apply orelse_Some in H as [H | H]; [| apply orelse_Some in H as [H | H]].
  - apply re_two_range in H as (v & s' & Hv & H). exists v, s'. split; [lia | exact H].
  - apply (re_two_range 48 53 48 57) in H as (v & s' & Hv & H).
    exists v, s'. split; [lia | exact H].
  - apply (re_one_range 48 57) in H as (v & s' & Hv & H).
    exists v, s'. split; [lia | exact H].
Qed.

Lemma re_colon_Some {R : Type} (s : string) (k : string -> option R) (r : R) :
  re_colon s k = Some r -> exists s', k s' = Some r.
Proof.
  unfold re_colon. intros H. apply re_char_Some in H as (c & s' & _ & H). eauto.
Qed.

Lemma re_spaces0_Some {R : Type} (s : string) (k : string -> option R) (r : R) :
  re_spaces0 s k = Some r -> exists s', k s' = Some r.
Proof.
  induction s as [| c s IH]; simpl; [eauto |].
  destruct (isspace c); [| eauto].
  intros H. apply orelse_Some in H as [H | H]; eauto.
Qed.

Lemma re_spaces_Some {R : Type} (s : string) (k : string -> option R) (r : R) :
  re_spaces s k = Some r -> exists s', k s' = Some r.
Proof.
  unfold re_spaces. intros H. apply re_char_Some in H as (c & s' & _ & H).
  apply re_spaces0_Some in H. exact H.
Qed.

Lemma re_p_Some {R : Type} (s : string) (k : bool -> string -> option R) (r : R) :
  re_p s k = Some r -> exists pm s', k pm s' = Some r.
Proof.
  unfold re_p. intros H.
  apply orelse_Some in H as [H | H];
    apply re_char_Some in H as (c & s1 & _ & H);
    apply re_char_Some in H as (d & s2 & _ & H); eauto.
Qed.

Lemma hour_of_12_range (h : Z) (pm : bool) : 1 <= h <= 12 -> 0 <= hour_of_12 h pm < 24.
Proof.
  unfold hour_of_12. intros H.
  destruct pm; destruct (h =? 12) eqn:E; try apply Z.eqb_neq in E; lia.
Qed.

Lemma strptime_finish_valid (h mi s : Z) (rest : string) (t : time) :
  0 <= h < 24 -> 0 <= mi < 60 -> 0 <= s ->
  strptime_finish (Some (h, mi, s, rest)) = Ok t ->
  valid_time t /\ microsecond t = 0.
Proof.
  intros Hh Hm Hs. unfold strptime_finish.
  destruct rest; [| discriminate].
  destruct (s <? 60) eqn:E; [| discriminate]. apply Z.ltb_lt in E.
  intros H. injection H as <-. unfold valid_time; simpl. lia.
Qed.

Ltac regex_step H :=
  first
    [ apply re_I_range in H as (? & ? & ? & H)
    | apply re_H_range in H as (? & ? & ? & H)
    | apply re_M_range in H as (? & ? & ? & H)
    | apply re_S_range in H as (? & ? & ? & H)
    | apply re_colon_Some in H as (? & H)
    | apply re_spaces_Some in H as (? & H)
    | apply re_p_Some in H as (? & ? & H) ].

Lemma strptime_valid (fmt : string -> result time) (s : string) (t : time) :
  In fmt [strptime_IMSp; strptime_IMp; strptime_HMS; strptime_HM] ->
  fmt s = Ok t -> valid_time t /\ microsecond t = 0.
Proof.
  intros Hfmt H.
  repeat (destruct Hfmt as [<- | Hfmt]); [| | | | destruct Hfmt].
  all: match type of H with
       | ?f _ = _ => unfold f in H
       end;
       match type of H with
       | strptime_finish ?m = _ => destruct m as [[[[h mi] sec] rest] |] eqn:Hm;
                                   [| discriminate H]
       end;
       repeat regex_step Hm;
       injection Hm as <- <- <- <-;
       eapply strptime_finish_valid; [| | | exact H];
       first [apply hour_of_12_range; assumption | lia].
Qed.

Lemma parse_backtime_string_fields (bt_str : string) (t : time) :
  parse_backtime_string bt_str = Some t -> valid_time t /\ microsecond t = 0.
Proof.
  unfold parse_backtime_string.
  destruct (_ || _); [discriminate |].
  generalize (strip bt_str). intros s.
  assert (Hall : forall formats,
             (forall fmt, In fmt formats ->
                          In fmt [strptime_IMSp; strptime_IMp; strptime_HMS; strptime_HM]) ->
             first_format formats s = Some t -> valid_time t /\ microsecond t = 0).
  { induction formats as [| fmt formats IH]; intros Hsub H; [discriminate H |].
    cbn [first_format] in H. destruct (fmt s) as [t' | e] eqn:Hfmt.
    - injection H as <-. eapply strptime_valid; [apply Hsub; left; reflexivity | exact Hfmt].
    - apply IH; [intros f Hf; apply Hsub; right; exact Hf | exact H]. }
  apply Hall. auto.
Qed.

(** X5. Every time of day that [parse_backtime_string] answers has its
    hour from 0 to 23, its minute and second from 0 to 59, and no
    microseconds: the date and time that the scheduler builds from it
    always exists. *)
Theorem parse_backtime_string_valid (bt_str : string) (t : time) :
  parse_backtime_string bt_str = Some t -> valid_time t /\ microsecond t = 0.
Proof. apply parse_backtime_string_fields. Qed.

Lemma parse_backtime_string_valid_witness :
  parse_backtime_string "6:00:30 PM"
  = Some {| hour := 18; minute := 0; second := 30; microsecond := 0 |} /\
  valid_time {| hour := 18; minute := 0; second := 30; microsecond := 0 |} /\
  microsecond {| hour := 18; minute := 0; second := 30; microsecond := 0 |} = 0.
Proof.
  assert (H : parse_backtime_string "6:00:30 PM"
              = Some {| hour := 18; minute := 0; second := 30; microsecond := 0 |})
    by reflexivity.
  split; [exact H |]. exact (parse_backtime_string_valid _ _ H).
Defined.

(** ** The schedule that a pass of the scheduler writes *)

Lemma seconds_of_time_range (t : time) :
  valid_time t -> 0 <= seconds_of_time t < 86400.
Proof. intros (? & ? & ? & ?). unfold seconds_of_time. lia. Qed.

Lemma time_of_seconds_valid (s : Z) :
  0 <= s < 86400 -> valid_time (time_of_seconds s 0).
Proof.
  intros Hs. unfold valid_time, time_of_seconds. cbn [hour minute second microsecond].
  repeat split; try lia.
  - apply Z.div_pos; lia.
  - apply Z.div_lt_upper_bound; lia.
  - apply Z.div_pos; [apply Z.mod_pos_bound |]; lia.
  - apply Z.div_lt_upper_bound; [lia |]. pose proof (Z.mod_pos_bound s 3600). lia.
  - apply Z.mod_pos_bound; lia.
  - apply Z.mod_pos_bound; lia.
Qed.

Lemma seconds_of_time_of_seconds (s : Z) :
  0 <= s < 86400 -> seconds_of_time (time_of_seconds s 0) = s.
Proof.
  intros Hs. unfold seconds_of_time, time_of_seconds. cbn [hour minute second].
  pose proof (Z.div_mod s 3600 ltac:(lia)) as H1.
  pose proof (Z.div_mod (s mod 3600) 60 ltac:(lia)) as H2.
  assert (H3 : (s mod 3600) mod 60 = s mod 60).
  { symmetry. rewrite H1 at 1.
    replace (3600 * (s / 3600) + s mod 3600) with (s mod 3600 + (60 * (s / 3600)) * 60) by lia.
    apply Z_mod_plus_full. }
  lia.
Qed.

Lemma datetime_of_seconds_valid (n : Z) :
  in_calendar n ->
  valid_datetime (datetime_of_seconds n) /\
  microsecond (clock (datetime_of_seconds n)) = 0 /\
  seconds_of_datetime (datetime_of_seconds n) = n.
Proof.
  unfold in_calendar, MAXORDINAL. intros Hn.
  pose proof (Z.mod_pos_bound n 86400 ltac:(lia)) as Hmod.
  pose proof (Z.div_mod n 86400 ltac:(lia)) as Hdiv.
  unfold valid_datetime, datetime_of_seconds, seconds_of_datetime, MAXORDINAL.
  cbn [ordinal clock]. split; [split |].
  - split; [apply Z.div_le_lower_bound; lia |].
    assert (n / 86400 < 3652060) by (apply Z.div_lt_upper_bound; lia). lia.
  - apply time_of_seconds_valid; exact Hmod.
  - split; [reflexivity |]. rewrite seconds_of_time_of_seconds by exact Hmod. lia.
Qed.

Lemma datetime_of_seconds_of_datetime (t : datetime) :
  valid_datetime t -> microsecond (clock t) = 0 ->
  datetime_of_seconds (seconds_of_datetime t) = t /\ in_calendar (seconds_of_datetime t).
Proof.
  intros (Ho & Ht) Hus. pose proof (seconds_of_time_range _ Ht) as Hs.
  unfold datetime_of_seconds, seconds_of_datetime, in_calendar in *.
  unfold MAXORDINAL in *. destruct t as [o c]. cbn [ordinal clock] in *.
  assert (Hd : (o * 86400 + seconds_of_time c) / 86400 = o)
    by (symmetry; apply (Z.div_unique _ 86400 o (seconds_of_time c)); lia).
  assert (Hm : (o * 86400 + seconds_of_time c) mod 86400 = seconds_of_time c mod 86400).
  { rewrite Z.add_comm. apply Z_mod_plus_full. }
  rewrite Hd, Hm, time_of_seconds_of_time by assumption.
  split; [reflexivity | lia].
Qed.

(** A duration taken off a time, in seconds of the calendar. *)
Lemma sub_seconds (t : datetime) (d : Z) :
  valid_datetime t -> microsecond (clock t) = 0 ->
  in_calendar (seconds_of_datetime t - d) ->
  (try! delta := timedelta_new 0 d 0 in add_datetime_timedelta t delta (-1))
  = Ok (datetime_of_seconds (seconds_of_datetime t - d)).
Proof.
  intros Ht Hus Hin.
  destruct (datetime_of_seconds_of_datetime t Ht Hus) as [_ Hint].
  destruct Ht as (Ho & Hc). pose proof (seconds_of_time_range _ Hc) as Hs.
  unfold in_calendar, seconds_of_datetime, MAXORDINAL in *.
  pose proof (Z.mod_pos_bound d 86400 ltac:(lia)) as Hmod.
  pose proof (Z.div_mod d 86400 ltac:(lia)) as Hdiv.
  unfold timedelta_new.
  change (0 / 1000000) with 0. change (0 mod 1000000) with 0.
  replace (d + 0) with d by lia. replace (0 + d / 86400) with (d / 86400) by lia.
  assert (Hq : -3652060 <= d / 86400 <= 3652060).
  { split; [apply Z.div_le_lower_bound | apply Z.div_le_upper_bound]; lia. }
  replace (999999999 <? Z.abs (d / 86400)) with false by (symmetry; apply Z.ltb_ge; lia).
  cbn [result_bind]. unfold add_datetime_timedelta.
  cbn [days seconds microseconds]. rewrite Hus.
  change (0 + -1 * 0) with 0.
  change (0 / 1000000) with 0. change (0 mod 1000000) with 0.
  set (s := seconds_of_time (clock t) + -1 * (d mod 86400) + 0).
  assert (Hsum : ordinal t * 86400 + seconds_of_time (clock t) - d
                 = s + (ordinal t + -1 * (d / 86400)) * 86400) by (unfold s; lia).
  unfold datetime_of_seconds. rewrite Hsum, Z_div_plus_full, Z_mod_plus_full by lia.
  replace (ordinal t + -1 * (d / 86400) + s / 86400)
    with (s / 86400 + (ordinal t + -1 * (d / 86400))) by lia.
  assert (Hord : 1 <= s / 86400 + (ordinal t + -1 * (d / 86400)) <= 3652059).
  { rewrite <- Z_div_plus_full, <- Hsum by lia.
    split; [apply Z.div_le_lower_bound; lia |].
    assert ((ordinal t * 86400 + seconds_of_time (clock t) - d) / 86400 < 3652060)
      by (apply Z.div_lt_upper_bound; lia). lia. }
  replace ((1 <=? s / 86400 + (ordinal t + -1 * (d / 86400))) &&
           (s / 86400 + (ordinal t + -1 * (d / 86400)) <=? MAXORDINAL)) with true.
  - reflexivity.
  - symmetry. apply andb_true_iff. unfold MAXORDINAL. split; apply Z.leb_le; lia.
Qed.

Lemma item_seconds_add_duration (i : nat) (total : Z) (st : App) (item : Item) (d : Z) :
  rundown_tree st !! i = Some item -> item_seconds item = Ok d ->
  exists st1, add_duration i total st = (st1, Ok (total + d)) /\
              rundown_tree st1 = rundown_tree st.
Proof.
  intros Hitem Hd. unfold item_seconds, is_active in Hd.
  unfold add_duration, bind, topLevelItem. rewrite Hitem.
  destruct (has_data (user_data item) && _); cycle 1.
  - injection Hd as <-. exists st. rewrite Z.add_0_r. split; reflexivity.
  - unfold lift. destruct (parse_duration_string (text2 item)) as [[n |] | e];
      [| | discriminate Hd]; injection Hd as <-.
    + exists st. split; reflexivity.
    + eexists. rewrite Z.add_0_r. split; reflexivity.
Qed.

Lemma add_durations_run (rows : list nat) (total : Z) (st : App) :
  Forall (fun i => exists item d, rundown_tree st !! i = Some item /\
                                  item_seconds item = Ok d) rows ->
  exists st1 total', for_each rows add_duration total st = (st1, Ok total') /\
                     rundown_tree st1 = rundown_tree st.
Proof.
  revert total st. induction rows as [| i rows IH]; intros total st Hrows.
  - exists st, total. split; reflexivity.
  - apply Forall_cons in Hrows as [(item & d & Hitem & Hd) Hrows].
    destruct (item_seconds_add_duration i total st item d Hitem Hd) as (st1 & Hrun & Htree).
    destruct (IH (total + d) st1) as (st2 & total' & Hrest & Htree2).
    { rewrite Htree. exact Hrows. }
    exists st2, total'. cbn [for_each]. rewrite (bind_ok _ _ _ _ _ Hrun).
    split; [exact Hrest | congruence].
Qed.

Lemma show_end_same_tree (now : datetime) : preserves same_tree (show_end now).
Proof.
  assert (Hrefl : forall st, same_tree st st) by reflexivity.
  assert (Htrans : forall a b c, same_tree a b -> same_tree b c -> same_tree a c)
    by (unfold same_tree; intros; congruence).
  unfold show_end.
  repeat first
    [ apply (preserves_ret same_tree Hrefl)
    | apply (preserves_lift same_tree Hrefl)
    | apply (preserves_gets same_tree Hrefl)
    | apply (preserves_topLevelItem same_tree Hrefl)
    | apply (preserves_modify same_tree); intros; reflexivity
    | apply (preserves_bind same_tree Htrans); [| intros]
    | match goal with
      | |- preserves _ (log_append _) => unfold log_append
      | |- preserves _ (if ?b then _ else _) => destruct b
      | |- preserves _ (match ?x with _ => _ end) => destruct x
      end ].
Qed.

(** The end of the show depends on the rows of the rundown only. *)
Lemma show_end_of_tree (now : datetime) (st st1 : App) :
  rundown_tree st1 = rundown_tree st ->
  snd (show_end now st1) = snd (show_end now st).
Proof.
  intros Htree. unfold show_end, bind, gets, topLevelItem, ret, lift, log_append, modify.
  cbv beta. rewrite !Htree.
  repeat (match goal with
          | |- context [match ?x with _ => _ end] =>
              match x with
              | context [match _ with _ => _ end] => fail 1
              | _ => destruct x
              end
          end; cbv beta iota; rewrite ?Htree);
    reflexivity.
Qed.

(** The end of the show is a date and time that exists, without
    microseconds. *)
Lemma add_datetime_timedelta_valid (dt dt' : datetime) (td : timedelta) (f : Z) :
  add_datetime_timedelta dt td f = Ok dt' ->
  valid_datetime dt' /\
  microsecond (clock dt') = (microsecond (clock dt) + f * microseconds td) mod 1000000.
Proof.
  unfold add_datetime_timedelta.
  match goal with |- context [if ?c then _ else _] => destruct c eqn:Hc end;
    [| discriminate].
  intros H. injection H as <-. cbn [ordinal clock].
  apply andb_true_iff in Hc as [H1 H2]. apply Z.leb_le in H1. apply Z.leb_le in H2.
  split; [| reflexivity]. unfold valid_datetime. cbn [ordinal clock]. split; [lia |].
  match goal with
  | |- context [time_of_seconds (?s mod 86400) (?us mod 1000000)] =>
      pose proof (time_of_seconds_valid (s mod 86400) (Z.mod_pos_bound s 86400 ltac:(lia)))
        as (Hh & Hm & Hs & _);
      pose proof (Z.mod_pos_bound us 1000000 ltac:(lia))
  end.
  unfold valid_time, time_of_seconds in *. cbn [hour minute second microsecond] in *.
  lia.
Qed.

Lemma bind_snd_ok {A B : Type} (m : M A) (k : A -> M B) (st : App) (b : B) :
  snd (bind m k st) = Ok b ->
  exists st1 a, m st = (st1, Ok a) /\ snd (k a st1) = Ok b.
Proof.
  unfold bind. destruct (m st) as [st1 [a | e]]; intros H.
  - exists st1, a. split; [reflexivity | exact H].
  - discriminate H.
Qed.

Lemma lift_inv_ok {A : Type} (r : result A) (st st' : App) (a : A) :
  lift r st = (st', Ok a) -> r = Ok a.
Proof. unfold lift. congruence. Qed.

Lemma show_end_valid (now anchor : datetime) (st : App) :
  valid_datetime now -> snd (show_end now st) = Ok anchor ->
  valid_datetime anchor /\ microsecond (clock anchor) = 0.
Proof.
  intros Hnow H. unfold show_end in H.
  apply bind_snd_ok in H as (st1 & count & _ & H).
  apply bind_snd_ok in H as (st2 & str & _ & H).
  apply bind_snd_ok in H as (st3 & show_end_time & Hset & H).
  destruct show_end_time as [t |].
  - injection H as <-.
    destruct (negb (String.eqb str "")); [| discriminate Hset].
    destruct (parse_backtime_string str) as [parsed |] eqn:Hparse; cycle 1.
    { apply bind_inv_ok in Hset as (? & ? & _ & Hset). discriminate Hset. }
    destruct (parse_backtime_string_fields str parsed Hparse) as [Ht Hus].
    cbv zeta in Hset.
    assert (Htoday : valid_datetime
                       {| ordinal := ordinal now;
                          clock := {| hour := hour parsed; minute := minute parsed;
                                      second := second parsed; microsecond := 0 |} |}).
    { destruct Hnow as [Ho _]. destruct Ht as (? & ? & ? & ?).
      unfold valid_datetime, valid_time. cbn. lia. }
    destruct (datetime_lt _ now).
    + apply bind_inv_ok in Hset as (? & ago & _ & Hset).
      destruct (total_seconds_gt ago 3600).
      * apply bind_inv_ok in Hset as (? & one_day & Hday & Hset).
        apply lift_inv_ok in Hday. rewrite timedelta_one_day in Hday.
        injection Hday as <-.
        apply bind_inv_ok in Hset as (? & tomorrow & Hadd & Hset).
        apply lift_inv_ok in Hadd. injection Hset as _ <-.
        apply add_datetime_timedelta_valid in Hadd as (Hv & Hmicro).
        split; [exact Hv | rewrite Hmicro; reflexivity].
      * injection Hset as _ <-. split; [exact Htoday | reflexivity].
    + injection Hset as _ <-. split; [exact Htoday | reflexivity].
  - apply bind_snd_ok in H as (? & half_hour & _ & H).
    apply bind_snd_ok in H as (? & t & Hadd & H).
    apply lift_inv_ok in Hadd.
    apply add_datetime_timedelta_valid in Hadd as ((Ho & Hh & Hm & _) & _).
    injection H as <-. unfold valid_datetime, valid_time. cbn. lia.
Qed.

Lemma item_seconds_set_backtime (i : nat) (t : datetime) (st : App) (item : Item) (d : Z) :
  rundown_tree st !! i = Some item -> item_seconds item = Ok d ->
  valid_datetime t -> microsecond (clock t) = 0 ->
  in_calendar (seconds_of_datetime t - d) ->
  set_backtime i t st
  = (set_rundown_tree (alter (fun item => with_backtime item (seconds_of_datetime t - d))
                             i (rundown_tree st)) st,
     Ok (datetime_of_seconds (seconds_of_datetime t - d))).
Proof.
  intros Hitem Hd Ht Hus Hin. pose proof (sub_seconds t d Ht Hus Hin) as Hsub.
  unfold item_seconds, is_active in Hd.
  unfold set_backtime, bind at 1, topLevelItem. rewrite Hitem.
  assert (Hrest : forall n, n = d ->
    (delta <- lift (timedelta_new 0 n 0) ;;
     current_time' <- lift (add_datetime_timedelta t delta (-1)) ;;
     update_item i (setText3 (strftime_IMp current_time')) ;;;
     ret current_time') st
    = (set_rundown_tree (alter (fun item => with_backtime item (seconds_of_datetime t - d))
                               i (rundown_tree st)) st,
       Ok (datetime_of_seconds (seconds_of_datetime t - d)))).
  { intros n ->. unfold bind, lift.
    destruct (timedelta_new 0 d 0) as [delta | e]; [| discriminate Hsub].
    cbn [result_bind] in Hsub. rewrite Hsub. reflexivity. }
  destruct (has_data (user_data item) && _).
  - destruct (parse_duration_string (text2 item)) as [[n |] | e];
      [| | discriminate Hd]; injection Hd as Hd;
      unfold bind at 1, bind at 1, lift at 1, ret at 1; cbv beta iota;
      apply Hrest; exact Hd.
  - injection Hd as Hd. unfold bind at 1, ret at 1. apply Hrest. exact Hd.
Qed.

Lemma sum_Z_snoc (ds : list Z) (d : Z) : sum_Z (ds ++ [d]) = sum_Z ds + d.
Proof.
  unfold sum_Z. induction ds as [| x ds IH]; cbn [foldr app]; [lia |].
  rewrite IH. lia.
Qed.

Lemma backtimes_snoc (show : Z) (ds : list Z) (d : Z) :
  backtimes show (ds ++ [d]) = backtimes (show - d) ds ++ [show - d].
Proof.
  induction ds as [| x ds IH].
  - cbn. f_equal. lia.
  - cbn [backtimes app]. rewrite IH. f_equal.
    change (x :: ds ++ [d]) with ((x :: ds) ++ [d]). rewrite sum_Z_snoc. lia.
Qed.

Lemma backtimes_length (show : Z) (ds : list Z) :
  length (backtimes show ds) = length ds.
Proof. induction ds as [| d ds IH]; cbn [backtimes length]; congruence. Qed.

(** The second loop, from the last row of [pre] up. *)
Lemma set_backtimes_run (pre : list Item) :
  forall (ds : list Z) (suf : list Item) (t : datetime) (st : App),
  Forall2 (fun item d => item_seconds item = Ok d) pre ds ->
  rundown_tree st = pre ++ suf ->
  valid_datetime t -> microsecond (clock t) = 0 ->
  Forall in_calendar (backtimes (seconds_of_datetime t) ds) ->
  exists st',
    for_each (rev (seq 0 (length pre))) set_backtime t st
    = (st', Ok (datetime_of_seconds (seconds_of_datetime t - sum_Z ds))) /\
    rundown_tree st'
    = zip_with with_backtime pre (backtimes (seconds_of_datetime t) ds) ++ suf /\
    rundown_clock_label st' = rundown_clock_label st.
Proof.
  induction pre as [| x pre IH] using rev_ind; intros ds suf t st Hds Htree Ht Hus Hin.
  - apply Forall2_nil_inv_l in Hds as ->. exists st. cbn [length seq rev for_each].
    unfold ret, sum_Z. cbn [foldr]. rewrite Z.sub_0_r.
    destruct (datetime_of_seconds_of_datetime t Ht Hus) as [-> _].
    split; [reflexivity |]. split; [exact Htree | reflexivity].
  - apply Forall2_app_inv_l in Hds as (ds' & k & Hds' & Hk & ->).
    apply Forall2_cons_inv_l in Hk as (d & k' & Hd & Hk' & ->).
    apply Forall2_nil_inv_l in Hk' as ->.
    rewrite backtimes_snoc in Hin. apply Forall_app in Hin as [Hin' Hlast].
    apply Forall_cons in Hlast as [Hlast _].
    destruct (datetime_of_seconds_valid _ Hlast) as (Ht1 & Hus1 & Hsec1).
    rewrite length_app, Nat.add_1_r, seq_S, rev_app_distr. cbn [rev app for_each plus].
    assert (Hitem : rundown_tree st !! length pre = Some x).
    { rewrite Htree, <- app_assoc. apply list_lookup_middle. reflexivity. }
    rewrite (bind_ok _ _ _ _ _
               (item_seconds_set_backtime _ t st x d Hitem Hd Ht Hus Hlast)).
    match goal with
    | |- context [for_each _ _ _ ?s] => set (st1 := s)
    end.
    destruct (IH ds' (with_backtime x (seconds_of_datetime t - d) :: suf)
                 (datetime_of_seconds (seconds_of_datetime t - d)) st1)
      as (st' & Hrun & Htree' & Hlabel); try assumption.
    { unfold st1. cbn. rewrite Htree, <- app_assoc.
      change ([x] ++ suf) with (x :: suf).
      rewrite (alter_app_r _ pre (x :: suf) 0%nat) || 
        (replace (length pre) with (length pre + 0)%nat by lia; rewrite alter_app_r).
      reflexivity. }
    { rewrite Hsec1. exact Hin'. }
    exists st'. rewrite Hsec1 in Hrun, Htree'. split; [| split].
    + rewrite Hrun, sum_Z_snoc. do 3 f_equal. lia.
    + rewrite Htree', backtimes_snoc, zip_with_app.
      * rewrite <- app_assoc. reflexivity.
      * rewrite backtimes_length. apply Forall2_length in Hds'. exact Hds'.
    + rewrite Hlabel. reflexivity.
Qed.

Lemma calculate_backtimes_rows (now anchor : datetime) (st : App)
  (durations : list Z) :
  valid_datetime now ->
  recalculating_backtimes st = false ->
  Forall2 (fun item d => item_seconds item = Ok d) (rundown_tree st) durations ->
  snd (show_end now st) = Ok anchor ->
  Forall in_calendar (backtimes (seconds_of_datetime anchor) durations) ->
  snd (calculate_backtimes now st) = Ok tt /\
  rundown_tree (fst (calculate_backtimes now st))
  = zip_with with_backtime (rundown_tree st)
             (backtimes (seconds_of_datetime anchor) durations) /\
  rundown_clock_label (fst (calculate_backtimes now st))
  = "Backtime: "
    +:+ strftime_IMSp (datetime_of_seconds (seconds_of_datetime anchor - sum_Z durations)).
Proof.
  intros Hnow Hflag Hds Hend Hin.
  destruct (show_end_valid now anchor st Hnow Hend) as [Hanchor Hus].
  set (st0 := set_recalculating_backtimes true st).
  assert (Htree0 : rundown_tree st0 = rundown_tree st) by reflexivity.
  destruct (add_durations_run (seq 0 (length (rundown_tree st0))) 0 st0)
    as (st1 & total & Hfirst & Htree1).
  { apply Forall_forall. intros i Hi. apply elem_of_seq in Hi.
    destruct (lookup_lt_is_Some_2 (rundown_tree st0) i ltac:(lia)) as [item Hitem].
    destruct (Forall2_lookup_l _ _ _ _ _ Hds Hitem) as (d & _ & Hd). eauto. }
  destruct (show_end now st1) as [st2 r] eqn:Hshow.
  assert (Hr : r = Ok anchor).
  { rewrite <- Hend, <- (show_end_of_tree now st st1) by congruence.
    rewrite Hshow. reflexivity. }
  subst r.
  assert (Htree2 : rundown_tree st2 = rundown_tree st).
  { pose proof (show_end_same_tree now st1) as H. unfold same_tree in H.
    rewrite Hshow in H. cbn [fst] in H. congruence. }
  destruct (set_backtimes_run (rundown_tree st) durations [] anchor st2)
    as (st3 & Hsecond & Htree3 & _); try assumption.
  { rewrite app_nil_r. exact Htree2. }
  rewrite app_nil_r in Htree3.
  assert (Hrun : calculate_backtimes now st
                 = (set_recalculating_backtimes false
                      (set_rundown_clock_label
                         ("Backtime: " +:+ strftime_IMSp
                            (datetime_of_seconds
                               (seconds_of_datetime anchor - sum_Z durations))) st3),
                    Ok tt)).
  { unfold calculate_backtimes. unfold bind at 1, gets at 1. rewrite Hflag.
    unfold bind at 1, modify at 1. fold st0. unfold finally.
    unfold bind at 1, gets at 1. rewrite <- Htree0 in Hsecond.
    rewrite (bind_ok _ _ _ _ _ Hfirst), (bind_ok _ _ _ _ _ Hshow).
    rewrite Htree0 in *. rewrite <- Htree0 at 1.
    rewrite (bind_ok _ _ _ _ _ Hsecond). reflexivity. }
  rewrite Hrun. cbn [fst snd]. split; [reflexivity |]. split; [exact Htree3 | reflexivity].
Qed.

(** X6. A pass of the scheduler over a rundown whose durations read
    (each item takes its duration off when it is active and the cell is a
    duration, nothing otherwise) writes into every row the end of the show
    less the durations from that row on, to the minute, and into the
    clock label the end of the show less all durations, as long as these
    times stay in the calendar. *)
Theorem calculate_backtimes_schedule (now anchor : datetime) (st : App)
  (durations : list Z) :
  valid_datetime now ->
  recalculating_backtimes st = false ->
  Forall2 (fun item d => item_seconds item = Ok d) (rundown_tree st) durations ->
  snd (show_end now st) = Ok anchor ->
  Forall in_calendar (backtimes (seconds_of_datetime anchor) durations) ->
  snd (calculate_backtimes now st) = Ok tt /\
  rundown_tree (fst (calculate_backtimes now st))
  = zip_with with_backtime (rundown_tree st)
             (backtimes (seconds_of_datetime anchor) durations) /\
  rundown_clock_label (fst (calculate_backtimes now st))
  = "Backtime: "
    +:+ strftime_IMSp (datetime_of_seconds (seconds_of_datetime anchor - sum_Z durations)).
Proof. apply calculate_backtimes_rows. Qed.

Lemma calculate_backtimes_schedule_witness :
  text3 <$> rundown_tree (fst (calculate_backtimes noon rundown_with_break))
  = ["05:57 PM"; "05:58 PM"; "05:58 PM"; "05:58 PM"] /\
  rundown_clock_label (fst (calculate_backtimes noon rundown_with_break))
  = "Backtime: 05:57:30 PM".
Proof.
  assert (Hnow : valid_datetime noon)
    by (unfold valid_datetime, valid_time, MAXORDINAL; simpl; lia).
  assert (Hds : Forall2 (fun item d => item_seconds item = Ok d)
                        (rundown_tree rundown_with_break) [30; 0; 0; 120])
    by (repeat constructor).
  assert (Hend : snd (show_end noon rundown_with_break) = Ok six_pm) by reflexivity.
  assert (Hin : Forall in_calendar (backtimes (seconds_of_datetime six_pm) [30; 0; 0; 120]))
    by (repeat constructor; vm_compute; discriminate).
  destruct (calculate_backtimes_schedule noon six_pm rundown_with_break [30; 0; 0; 120]
              Hnow eq_refl Hds Hend Hin) as (_ & Htree & Hlabel).
  rewrite Htree, Hlabel. split; reflexivity.
Defined.

Lemma backtimes_lookup (show : Z) (ds : list Z) (i : nat) (d : Z) :
  ds !! i = Some d ->
  backtimes show ds !! i = Some (show - d - sum_Z (drop (S i) ds)).
Proof.
  revert i. induction ds as [| x ds IH]; intros i Hi; [discriminate Hi |].
  destruct i as [| i].
  - injection Hi as ->. cbn [backtimes lookup list_lookup drop sum_Z foldr].
    unfold sum_Z. rewrite drop_0. f_equal. lia.
  - cbn [backtimes]. rewrite lookup_cons_ne_0 by lia. cbn [Nat.pred].
    change (drop (S (S i)) (x :: ds)) with (drop (S i) ds).
    apply IH. exact Hi.
Qed.

Lemma backtimes_next (show : Z) (ds : list Z) (i : nat) :
  backtimes show ds !! S i
  = (fun _ => show - sum_Z (drop (S i) ds)) <$> ds !! S i.
Proof.
  destruct (ds !! S i) as [d |] eqn:Hd.
  - rewrite (backtimes_lookup _ _ _ _ Hd). cbn [fmap option_fmap option_map].
    f_equal. rewrite (drop_S _ _ _ Hd). unfold sum_Z. cbn [foldr]. lia.
  - apply lookup_ge_None. rewrite backtimes_length. apply lookup_ge_None. exact Hd.
Qed.

(** A row that takes no time shows the start of the row below it. *)
Lemma zero_seconds_row (tree : list Item) (durations : list Z) (anchor : datetime)
  (i : nat) (item : Item) :
  valid_datetime anchor -> microsecond (clock anchor) = 0 ->
  length tree = length durations ->
  tree !! i = Some item -> durations !! i = Some 0 ->
  text3 <$> zip_with with_backtime tree
                     (backtimes (seconds_of_datetime anchor) durations) !! i
  = Some (match zip_with with_backtime tree
                         (backtimes (seconds_of_datetime anchor) durations) !! S i with
          | Some next => text3 next
          | None => strftime_IMp anchor
          end).
Proof.
  intros Hanchor Hus Hlen Hitem Hd.
  rewrite !lookup_zip_with, Hitem, (backtimes_lookup _ _ _ _ Hd), backtimes_next.
  cbn [mbind option_bind fmap option_fmap option_map]. f_equal.
  rewrite Z.sub_0_r.
  destruct (tree !! S i) as [next |] eqn:Hnext.
  - destruct (lookup_lt_is_Some_2 durations (S i)) as [d' ->].
    { rewrite <- Hlen. eapply lookup_lt_Some. exact Hnext. }
    reflexivity.
  - assert (Hnone : durations !! S i = None).
    { apply lookup_ge_None. rewrite <- Hlen. apply lookup_ge_None. exact Hnext. }
    cbn [mbind option_bind]. unfold with_backtime. cbn [text3 setText3].
    rewrite drop_ge by (apply lookup_ge_None; exact Hnone).
    unfold sum_Z. cbn [foldr]. rewrite Z.sub_0_r.
    destruct (datetime_of_seconds_of_datetime anchor Hanchor Hus) as [-> _].
    reflexivity.
Qed.

(** X7. In the schedule that a pass writes, a segment that is switched
    off shows the start of the segment below it, and in the last row the
    end of the show: it takes no time. *)
Theorem inactive_segment_backtime (now anchor : datetime) (st : App)
  (durations : list Z) (i : nat) (item : Item) :
  valid_datetime now ->
  recalculating_backtimes st = false ->
  Forall2 (fun item d => item_seconds item = Ok d) (rundown_tree st) durations ->
  snd (show_end now st) = Ok anchor ->
  Forall in_calendar (backtimes (seconds_of_datetime anchor) durations) ->
  rundown_tree st !! i = Some item ->
  is_active item = false ->
  text3 <$> rundown_tree (fst (calculate_backtimes now st)) !! i
  = Some (match rundown_tree (fst (calculate_backtimes now st)) !! S i with
          | Some next => text3 next
          | None => strftime_IMp anchor
          end).
Proof.
  intros Hnow Hflag Hds Hend Hin Hitem Hoff.
  destruct (calculate_backtimes_rows now anchor st durations Hnow Hflag Hds Hend Hin)
    as (_ & -> & _).
  destruct (show_end_valid now anchor st Hnow Hend) as [Hanchor Hus].
  destruct (Forall2_lookup_l _ _ _ _ _ Hds Hitem) as (d & Hd & Hsec).
  unfold item_seconds in Hsec. rewrite Hoff in Hsec. injection Hsec as <-.
  apply (zero_seconds_row _ _ _ _ item); try assumption.
  apply (Forall2_length _ _ _ Hds).
Qed.

Lemma inactive_segment_backtime_witness :
  text3 <$> rundown_tree (fst (calculate_backtimes noon rundown_with_break)) !! 1%nat
  = Some "05:58 PM".
Proof.
  assert (Hnow : valid_datetime noon)
    by (unfold valid_datetime, valid_time, MAXORDINAL; simpl; lia).
  assert (Hds : Forall2 (fun item d => item_seconds item = Ok d)
                        (rundown_tree rundown_with_break) [30; 0; 0; 120])
    by (repeat constructor).
  assert (Hend : snd (show_end noon rundown_with_break) = Ok six_pm) by reflexivity.
  assert (Hin : Forall in_calendar (backtimes (seconds_of_datetime six_pm) [30; 0; 0; 120]))
    by (repeat constructor; vm_compute; discriminate).
  rewrite (inactive_segment_backtime noon six_pm rundown_with_break [30; 0; 0; 120] 1
             (switched_off (segment "Two" "http://b" "01:00" ""))
             Hnow eq_refl Hds Hend Hin eq_refl eq_refl).
  reflexivity.
Defined.

(** X8. After a pass over a rundown that is not empty, the next pass takes
    as the end of the show the start of the last segment, cut to the
    minute, today or tomorrow: the end of the show moves back by the
    duration of the last segment and by the seconds of the time. *)
Theorem next_show_end (now now' anchor : datetime) (st : App)
  (pre : list Item) (last : Item) (ds : list Z) (d : Z) :
  valid_datetime now ->
  recalculating_backtimes st = false ->
  rundown_tree st = pre ++ [last] ->
  Forall2 (fun item d => item_seconds item = Ok d) pre ds ->
  item_seconds last = Ok d ->
  snd (show_end now st) = Ok anchor ->
  Forall in_calendar (backtimes (seconds_of_datetime anchor) (ds ++ [d])) ->
  valid_datetime now' -> ordinal now' < MAXORDINAL ->
  let start := clock (datetime_of_seconds (seconds_of_datetime anchor - d)) in
  exists day,
    (day = ordinal now' \/ day = ordinal now' + 1) /\
    snd (show_end now' (fst (calculate_backtimes now st)))
    = Ok {| ordinal := day;
            clock := {| hour := hour start; minute := minute start;
                        second := 0; microsecond := 0 |} |}.
Proof.
  intros Hnow Hflag Htree Hds Hd Hend Hin Hnow' Hmax start.
  assert (Hall : Forall2 (fun item d => item_seconds item = Ok d)
                         (rundown_tree st) (ds ++ [d])).
  { rewrite Htree. apply Forall2_app; [exact Hds |]. repeat constructor. exact Hd. }
  destruct (calculate_backtimes_rows now anchor st (ds ++ [d]) Hnow Hflag Hall Hend Hin)
    as (_ & Hrows & _).
  rewrite backtimes_snoc in Hin. apply Forall_app in Hin as [_ Hlast].
  apply Forall_cons in Hlast as [Hlast _].
  destruct (datetime_of_seconds_valid _ Hlast) as ((_ & Hstart) & _ & _).
  fold start in Hstart.
  rewrite Htree, backtimes_snoc, zip_with_app in Hrows
    by (rewrite backtimes_length; apply (Forall2_length _ _ _ Hds)).
  cbn [zip_with] in Hrows.
  set (st' := fst (calculate_backtimes now st)) in *.
  destruct (show_end_of_last now' st'
              (with_backtime last (seconds_of_datetime anchor - d))
              {| hour := hour start; minute := minute start;
                 second := 0; microsecond := 0 |} Hnow' Hmax)
    as (day & Hday & Hrun).
  - rewrite Hrows, length_app. cbn [length].
    replace (length (zip_with with_backtime pre
                       (backtimes (seconds_of_datetime anchor - d) ds)) + 1 - 1)%nat
      with (length (zip_with with_backtime pre
                      (backtimes (seconds_of_datetime anchor - d) ds)) + 0)%nat by lia.
    rewrite lookup_app_r, Nat.add_0_r, Nat.sub_diag by lia. reflexivity.
  - unfold with_backtime. cbn [text3 setText3].
    apply parse_strftime_IMp. exact Hstart.
  - destruct Hstart as (? & ? & _). unfold valid_time.
    cbn [hour minute second microsecond]. lia.
  - reflexivity.
  - exists day. rewrite Hrun. split; [exact Hday | reflexivity].
Qed.

Lemma next_show_end_witness :
  exists day,
    (day = ordinal noon \/ day = ordinal noon + 1) /\
    snd (show_end noon (fst (calculate_backtimes noon rundown_with_break)))
    = Ok {| ordinal := day;
            clock := {| hour := 17; minute := 58; second := 0; microsecond := 0 |} |}.
Proof.
  assert (Hnow : valid_datetime noon)
    by (unfold valid_datetime, valid_time, MAXORDINAL; simpl; lia).
  assert (Hmax : ordinal noon < MAXORDINAL) by (unfold MAXORDINAL; simpl; lia).
  assert (Hds : Forall2 (fun item d => item_seconds item = Ok d)
                        [segment "One" "http://a" "00:30" "";
                         switched_off (segment "Two" "http://b" "01:00" "");
                         segment "Three" "http://c" "90" ""] [30; 0; 0])
    by (repeat constructor).
  assert (Hend : snd (show_end noon rundown_with_break) = Ok six_pm) by reflexivity.
  assert (Hin : Forall in_calendar
                  (backtimes (seconds_of_datetime six_pm) ([30; 0; 0] ++ [120])))
    by (repeat constructor; vm_compute; discriminate).
  exact (next_show_end noon noon six_pm rundown_with_break
           [segment "One" "http://a" "00:30" "";
            switched_off (segment "Two" "http://b" "01:00" "");
            segment "Three" "http://c" "90" ""]
           (segment "Four" "http://d" "02:00" "6:00 PM") [30; 0; 0] 120
           Hnow eq_refl eq_refl Hds eq_refl Hend Hin Hnow Hmax).
Defined.

(** ** The countdown of the rundown clock *)

Lemma time_without_microseconds (t : time) :
  microsecond t = 0 ->
  {| hour := hour t; minute := minute t; second := second t; microsecond := 0 |} = t.
Proof. destruct t as [h m s us]. cbn. intros ->. reflexivity. Qed.

Lemma datetime_lt_late (now : datetime) (t : time) :
  valid_datetime now -> valid_time t -> microsecond t = 0 ->
  datetime_lt {| ordinal := ordinal now; clock := t |} now = (0 <? late now t).
Proof.
  intros (_ & Hh & Hm & Hs & Hus) (Hth & Htm & Hts & _) Ht0.
  unfold datetime_lt, late, seconds_of_time, lex_lt. cbn [ordinal clock].
  rewrite Ht0.
  repeat match goal with
         | |- context [?a <? ?b] => destruct (Z.ltb_spec a b)
         | |- context [?a =? ?b] => destruct (Z.eqb_spec a b)
         end; cbn [orb andb]; first [reflexivity | lia].
Qed.

(** The microseconds of the difference of two dates and times. *)
Lemma datetime_diff_microseconds (a b : datetime) :
  valid_time (clock a) -> valid_time (clock b) ->
  -1 <= ordinal a - ordinal b <= 1 ->
  exists td,
    datetime_diff a b = Ok td /\
    (days td * 86400 + seconds td) * 1000000 + microseconds td
    = (ordinal a - ordinal b) * (86400 * 1000000)
      + (seconds_of_time (clock a) - seconds_of_time (clock b)) * 1000000
      + (microsecond (clock a) - microsecond (clock b)).
Proof.
  intros Ha Hb Hd.
  pose proof (seconds_of_time_range _ Ha) as Hsa.
  pose proof (seconds_of_time_range _ Hb) as Hsb.
  destruct Ha as (_ & _ & _ & Hua). destruct Hb as (_ & _ & _ & Hub).
  unfold datetime_diff, timedelta_new.
  set (u := microsecond (clock a) - microsecond (clock b)).
  set (s1 := seconds_of_time (clock a) - seconds_of_time (clock b) + u / 1000000).
  pose proof (Z.div_mod u 1000000 ltac:(lia)) as Hu.
  pose proof (Z.mod_pos_bound u 1000000 ltac:(lia)) as Hum.
  pose proof (Z.div_mod s1 86400 ltac:(lia)) as Hs1.
  pose proof (Z.mod_pos_bound s1 86400 ltac:(lia)) as Hs1m.
  assert (Hq : -1 <= u / 1000000 <= 0) by (unfold u in *; lia).
  assert (Hq1 : -2 <= s1 / 86400 <= 1) by (unfold s1 in *; lia).
  replace (999999999 <? Z.abs (ordinal a - ordinal b + s1 / 86400)) with false
    by (symmetry; apply Z.ltb_ge; lia).
  eexists. split; [reflexivity |]. cbn [days seconds microseconds].
  unfold s1 in *. lia.
Qed.

Lemma late_range (now : datetime) (t : time) :
  valid_datetime now -> valid_time t ->
  -86400 * 1000000 < late now t < 86400 * 1000000.
Proof.
  intros (_ & Hc) Ht.
  pose proof (seconds_of_time_range _ Hc). pose proof (seconds_of_time_range _ Ht).
  destruct Hc as (_ & _ & _ & Hus). unfold late. lia.
Qed.

(** The clock of a rundown whose first backtime reads as the time of day
    [t]. *)
Lemma update_backtime_clock_run (now : datetime) (st : App) (item : Item) (t : time) :
  valid_datetime now -> ordinal now < MAXORDINAL ->
  rundown_tree st !! 0%nat = Some item ->
  parse_backtime_string (text3 item) = Some t ->
  update_backtime_clock now st
  = (set_rundown_clock_label (display_text (remaining_seconds now t)) st, Ok tt).
Proof.
  intros Hnow Hmax Hitem Hparse.
  destruct (parse_backtime_string_fields _ _ Hparse) as [Ht Hus].
  pose proof (late_range now t Hnow Ht) as Hlate.
  assert (Hcount : (0 <? length (rundown_tree st))%nat = true).
  { apply Nat.ltb_lt. apply lookup_lt_Some in Hitem. exact Hitem. }
  unfold update_backtime_clock. unfold bind at 1, gets at 1. rewrite Hcount.
  unfold bind at 1, topLevelItem at 1. rewrite Hitem, Hparse.
  cbv zeta. rewrite (time_without_microseconds t Hus).
  rewrite (datetime_lt_late now t Hnow Ht Hus).
  assert (Hshow : forall k, -1 <= k <= 1 -> 1 <= ordinal now + k <= MAXORDINAL ->
    (time_remaining <- lift (datetime_diff {| ordinal := ordinal now + k; clock := t |} now) ;;
     modify (set_rundown_clock_label (display_text (int_total_seconds time_remaining)))) st
    = (set_rundown_clock_label
         (display_text (Z.quot (k * (86400 * 1000000) - late now t) 1000000)) st, Ok tt)).
  { intros k Hk Hord.
    destruct (datetime_diff_microseconds {| ordinal := ordinal now + k; clock := t |} now)
      as (td & Hdiff & Hmicro); [exact Ht | apply Hnow | cbn [ordinal]; lia |].
    unfold bind, lift. rewrite Hdiff. unfold modify, int_total_seconds. rewrite Hmicro.
    cbn [ordinal clock]. rewrite Hus. unfold late. do 4 f_equal. lia. }
  unfold remaining_seconds.
  destruct (Z.ltb_spec 0 (late now t)) as [Hpos | Hneg].
  - destruct (datetime_diff_microseconds now {| ordinal := ordinal now; clock := t |})
      as (ago & Hago & Hmicro); [apply Hnow | exact Ht | cbn [ordinal]; lia |].
    unfold bind at 1, bind at 1, lift at 1. rewrite Hago.
    unfold total_seconds_gt. rewrite Hmicro. cbn [ordinal clock]. rewrite Hus.
    replace ((ordinal now - ordinal now) * (86400 * 1000000)
             + (seconds_of_time (clock now) - seconds_of_time t) * 1000000
             + (microsecond (clock now) - 0)) with (late now t) by (unfold late; lia).
    replace (late now t <=? 0) with false by (symmetry; apply Z.leb_gt; lia).
    destruct (Z.ltb_spec (3600 * 1000000) (late now t)) as [Hlong | Hshort].
    + replace (late now t <=? 3600 * 1000000) with false by (symmetry; apply Z.leb_gt; lia).
      unfold bind at 1, lift at 1. rewrite timedelta_one_day.
      unfold lift at 1.
      rewrite add_one_day by (first [exact Ht | exact Hus | destruct Hnow; lia]).
      rewrite (Hshow 1) by (destruct Hnow; lia).
      replace (1 * (86400 * 1000000) - late now t)
        with (86400 * 1000000 - late now t) by lia.
      rewrite Z.quot_div_nonneg by lia. reflexivity.
    + replace (late now t <=? 3600 * 1000000) with true by (symmetry; apply Z.leb_le; lia).
      unfold ret.
      replace {| ordinal := ordinal now; clock := t |}
        with {| ordinal := ordinal now + 0; clock := t |} by (rewrite Z.add_0_r; reflexivity).
      rewrite (Hshow 0) by (destruct Hnow; lia).
      replace (0 * (86400 * 1000000) - late now t) with (- late now t) by lia.
      rewrite Z.quot_opp_l, Z.quot_div_nonneg by lia. reflexivity.
  - replace (late now t <=? 0) with true by (symmetry; apply Z.leb_le; lia).
    unfold bind at 1, ret at 1.
    replace {| ordinal := ordinal now; clock := t |}
      with {| ordinal := ordinal now + 0; clock := t |} by (rewrite Z.add_0_r; reflexivity).
    rewrite (Hshow 0) by (destruct Hnow; lia).
    replace (0 * (86400 * 1000000) - late now t) with (- late now t) by lia.
    rewrite Z.quot_div_nonneg by lia. reflexivity.
Qed.

Lemma update_backtime_clock_dashes (now : datetime) (st : App) :
  (forall item, rundown_tree st !! 0%nat = Some item ->
                parse_backtime_string (text3 item) = None) ->
  update_backtime_clock now st
  = (set_rundown_clock_label "Backtime: --:--:--" st, Ok tt).
Proof.
  intros Hnone. unfold update_backtime_clock. unfold bind at 1, gets at 1.
  destruct (rundown_tree st !! 0%nat) as [item |] eqn:Hitem.
  - assert (Hcount : (0 <? length (rundown_tree st))%nat = true).
    { apply Nat.ltb_lt. apply lookup_lt_Some in Hitem. exact Hitem. }
    rewrite Hcount. unfold bind at 1, topLevelItem at 1.
    rewrite Hitem, (Hnone item eq_refl). reflexivity.
  - destruct (rundown_tree st) as [| item tree]; [reflexivity | discriminate Hitem].
Qed.

(** X9. A tick of the rundown clock never fails and changes nothing but
    the clock label, on every day but the last of the calendar. *)
Theorem update_backtime_clock_only_label (now : datetime) (st : App) :
  valid_datetime now -> ordinal now < MAXORDINAL ->
  exists text,
    update_backtime_clock now st = (set_rundown_clock_label text st, Ok tt).
Proof.
  intros Hnow Hmax.
  destruct (rundown_tree st !! 0%nat) as [item |] eqn:Hitem.
  - destruct (parse_backtime_string (text3 item)) as [t |] eqn:Hparse.
    + eexists. apply (update_backtime_clock_run now st item t); assumption.
    + eexists. apply update_backtime_clock_dashes. intros item' Hitem'. congruence.
  - eexists. apply update_backtime_clock_dashes. intros item' Hitem'. congruence.
Qed.

Lemma update_backtime_clock_only_label_witness :
  exists text,
    update_backtime_clock noon two_segments
    = (set_rundown_clock_label text two_segments, Ok tt).
Proof.
  apply update_backtime_clock_only_label.
  - unfold valid_datetime, valid_time, MAXORDINAL; simpl; lia.
  - unfold MAXORDINAL; simpl; lia.
Defined.

(** X10. With a first backtime that reads as a time of day, the clock
    label counts down the whole seconds to that time today; from one
    second after it, for an hour, it shows Show Over; after that hour it
    counts down to that time tomorrow. *)
Theorem update_backtime_clock_countdown (now : datetime) (st : App) (item : Item)
  (t : time) :
  valid_datetime now -> ordinal now < MAXORDINAL ->
  rundown_tree st !! 0%nat = Some item ->
  parse_backtime_string (text3 item) = Some t ->
  rundown_clock_label (fst (update_backtime_clock now st))
  = display_text (remaining_seconds now t).
Proof.
  intros Hnow Hmax Hitem Hparse.
  rewrite (update_backtime_clock_run now st item t Hnow Hmax Hitem Hparse).
  reflexivity.
Qed.

Lemma update_backtime_clock_countdown_witness :
  rundown_clock_label (fst (update_backtime_clock noon two_segments))
  = "Show Starts In: 00:28:00".
Proof.
  assert (Hnow : valid_datetime noon)
    by (unfold valid_datetime, valid_time, MAXORDINAL; simpl; lia).
  assert (Hmax : ordinal noon < MAXORDINAL) by (unfold MAXORDINAL; simpl; lia).
  rewrite (update_backtime_clock_countdown noon two_segments
             (setText3 "12:28 PM" (segment "One" "http://a" "00:30" ""))
             {| hour := 12; minute := 28; second := 0; microsecond := 0 |}
             Hnow Hmax eq_refl eq_refl).
  reflexivity.
Defined.

Lemma display_text_over (n : Z) : display_text n = "Show Over" <-> n < 0.
Proof.
  unfold display_text. destruct (Z.ltb_spec n 0) as [Hn | Hn].
  - split; [intros _; exact Hn | reflexivity].
  - split; [| lia]. cbn [append]. intros H. discriminate H.
Qed.

(** X11. With a first backtime that reads as a time of day, the clock
    label is Show Over exactly from one second to one hour after that
    time. *)
Theorem show_over_iff (now : datetime) (st : App) (item : Item) (t : time) :
  valid_datetime now -> ordinal now < MAXORDINAL ->
  rundown_tree st !! 0%nat = Some item ->
  parse_backtime_string (text3 item) = Some t ->
  rundown_clock_label (fst (update_backtime_clock now st)) = "Show Over"
  <-> 1000000 <= late now t <= 3600 * 1000000.
Proof.
  intros Hnow Hmax Hitem Hparse.
  rewrite (update_backtime_clock_run now st item t Hnow Hmax Hitem Hparse).
  cbn [fst rundown_clock_label set_rundown_clock_label].
  rewrite display_text_over.
  destruct (parse_backtime_string_fields _ _ Hparse) as [Ht _].
  pose proof (late_range now t Hnow Ht) as Hlate.
  unfold remaining_seconds.
  destruct (Z.leb_spec (late now t) 0) as [H0 | H0].
  - pose proof (Z.div_pos (- late now t) 1000000 ltac:(lia) ltac:(lia)). lia.
  - destruct (Z.leb_spec (late now t) (3600 * 1000000)) as [H1 | H1].
    + pose proof (Z.div_mod (late now t) 1000000 ltac:(lia)).
      pose proof (Z.mod_pos_bound (late now t) 1000000 ltac:(lia)). lia.
    + pose proof (Z.div_pos (86400 * 1000000 - late now t) 1000000 ltac:(lia) ltac:(lia)).
      lia.
Qed.

Lemma show_over_iff_witness :
  rundown_clock_label (fst (update_backtime_clock six_pm two_segments)) <> "Show Over".
Proof.
  assert (Hnow : valid_datetime six_pm)
    by (unfold valid_datetime, valid_time, MAXORDINAL; simpl; lia).
  assert (Hmax : ordinal six_pm < MAXORDINAL) by (unfold MAXORDINAL; simpl; lia).
  intros Hover.
  apply (show_over_iff six_pm two_segments
           (setText3 "12:28 PM" (segment "One" "http://a" "00:30" ""))
           {| hour := 12; minute := 28; second := 0; microsecond := 0 |}
           Hnow Hmax eq_refl eq_refl) in Hover.
  vm_compute in Hover. destruct Hover as [_ Hover]. apply Hover. reflexivity.
Defined.

(** ** The rundown store *)

Lemma story_of_item_shows_story (item : Item) :
  shows_story item ->
  story_of_item item = Some (synced_data item) /\
  synced_data item !! "title" = Some (VStr (text0 item)) /\
  synced_data item !! "source" = Some (VStr (text1 item)).
Proof.
  intros (story_data & Hdata & Htitle & Hsource).
  unfold story_of_item, synced_data. rewrite Hdata. cbn [default].
  assert (Hhas : has_data (Some story_data) = true).
  { unfold has_data. apply negb_true_iff. apply Nat.eqb_neq.
    apply map_size_non_empty_iff. intros ->. discriminate Htitle. }
  rewrite Hhas. rewrite !lookup_insert_ne by discriminate.
  split; [reflexivity | split; assumption].
Qed.

Lemma add_item_synced (item : Item) (st : App) :
  shows_story item ->
  add_item (synced_data item) tt st
  = (set_rundown_tree (rundown_tree st ++ [reloaded item]) st, Ok tt).
Proof.
  intros Hshows.
  destruct (story_of_item_shows_story item Hshows) as (_ & Htitle & Hsource).
  unfold add_item, bind, gets, modify, lift, update_item, subscript, dict_get.
  rewrite Htitle, Hsource.
  assert (Hduration : synced_data item !! "duration" = Some (VStr (text2 item))).
  { unfold synced_data. rewrite !lookup_insert_ne by discriminate.
    apply lookup_insert_eq. }
  assert (Hbacktime : synced_data item !! "backtime" = Some (VStr (text3 item))).
  { unfold synced_data. rewrite !lookup_insert_ne by discriminate.
    apply lookup_insert_eq. }
  assert (Hprofile : synced_data item !! "profile" = Some (VStr (text4 item))).
  { unfold synced_data. rewrite !lookup_insert_ne by discriminate.
    apply lookup_insert_eq. }
  assert (Hactive : synced_data item !! "active" = Some (VBool (check5 item))).
  { unfold synced_data. apply lookup_insert_eq. }
  rewrite Hduration, Hbacktime, Hprofile, Hactive.
  cbv beta iota zeta delta [modify result_bind as_str default from_option id truthy].
  cbn [rundown_tree set_rundown_tree].
  rewrite !alter_last. reflexivity.
Qed.

Lemma add_items_synced (items : list Item) (st : App) :
  Forall shows_story items ->
  for_each (synced_data <$> items) add_item tt st
  = (set_rundown_tree (rundown_tree st ++ (reloaded <$> items)) st, Ok tt).
Proof.
  revert st. induction items as [| item items IH]; intros st Hall.
  - cbn [fmap list_fmap for_each]. unfold ret. rewrite app_nil_r.
    destruct st; reflexivity.
  - apply Forall_cons in Hall as [Hitem Hall].
    rewrite !fmap_cons. cbn [for_each].
    rewrite (bind_ok _ _ _ _ _ (add_item_synced item st Hitem)).
    rewrite (IH _ Hall). cbn [rundown_tree set_rundown_tree].
    rewrite <- app_assoc. reflexivity.
Qed.

Lemma stories_of_items (items : list Item) :
  Forall shows_story items ->
  omap story_of_item items = synced_data <$> items.
Proof.
  induction items as [| item items IH]; intros Hall; [reflexivity |].
  apply Forall_cons in Hall as [Hitem Hall].
  destruct (story_of_item_shows_story item Hitem) as (Hstory & _).
  cbn [omap list_omap]. rewrite Hstory, fmap_cons. f_equal. apply IH. exact Hall.
Qed.

Lemma existsb_titled_reloaded (items : list Item) :
  existsb titled (reloaded <$> items) = existsb titled items.
Proof.
  induction items as [| item items IH]; [reflexivity |].
  rewrite fmap_cons. cbn [existsb]. rewrite IH. reflexivity.
Qed.

(** X12. [get_rundown_items] changes nothing, and what it hands out for
    a rundown whose items show the title and source of their dictionaries
    [update_rundown_tree] builds into rows with the cells as they were,
    one per item, each with its dictionary brought up to date;
    [update_rundown_tree] then ends as the layout of these rows ends. *)
Theorem rundown_items_roundtrip (st : App) :
  Forall shows_story (rundown_tree st) ->
  exists rundown_data,
    get_rundown_items st = (st, Ok rundown_data) /\
    length rundown_data = length (rundown_tree st) /\
    rundown_tree (fst (update_rundown_tree rundown_data st))
    = reloaded <$> rundown_tree st /\
    cells <$> rundown_tree (fst (update_rundown_tree rundown_data st))
    = cells <$> rundown_tree st /\
    snd (update_rundown_tree rundown_data st) = snd (layout_rows st).
Proof.
  intros Hall. exists (synced_data <$> rundown_tree st).
  assert (Hrun : update_rundown_tree (synced_data <$> rundown_tree st) st
                 = layout_rows (set_rundown_tree (reloaded <$> rundown_tree st) st)).
  { unfold update_rundown_tree. unfold bind at 1, modify at 1.
    unfold bind at 1. rewrite (add_items_synced _ _ Hall). reflexivity. }
  assert (Htree : rundown_tree (fst (update_rundown_tree
                                       (synced_data <$> rundown_tree st) st))
                  = reloaded <$> rundown_tree st).
  { rewrite Hrun. unfold layout_rows. destruct (existsb _ _); reflexivity. }
  split; [| split; [| split; [| split]]].
  - unfold get_rundown_items, bind, gets, ret.
    rewrite (stories_of_items _ Hall). reflexivity.
  - apply length_fmap.
  - exact Htree.
  - rewrite Htree, <- list_fmap_compose. reflexivity.
  - rewrite Hrun. unfold layout_rows. cbn [rundown_tree set_rundown_tree].
    rewrite existsb_titled_reloaded. destruct (existsb titled _); reflexivity.
Qed.

Lemma rundown_items_roundtrip_witness :
  exists rundown_data,
    get_rundown_items two_segments = (two_segments, Ok rundown_data) /\
    length rundown_data = length (rundown_tree two_segments) /\
    rundown_tree (fst (update_rundown_tree rundown_data two_segments))
    = reloaded <$> rundown_tree two_segments /\
    cells <$> rundown_tree (fst (update_rundown_tree rundown_data two_segments))
    = cells <$> rundown_tree two_segments /\
    snd (update_rundown_tree rundown_data two_segments) = snd (layout_rows two_segments).
Proof.
  apply rundown_items_roundtrip.
  repeat constructor; eexists; (split; [reflexivity | split; reflexivity]).
Defined.

Lemma add_stories_orders (selected : list dict) :
  forall (current : list dict) (n : Z) (current' : list dict) (n' : Z),
  add_stories selected (current, n) = Ok (current', n') ->
  exists added,
    current' = current ++ added /\
    n' = n + Z.of_nat (length added) /\
    forall (k : nat) (story : dict),
      added !! k = Some story ->
      story !! "order" = Some (VInt (Z.of_nat (length current) + n + 2 * Z.of_nat k)).
Proof.
  induction selected as [| story selected IH]; intros current n current' n' H.
  - injection H as <- <-. exists []. rewrite app_nil_r.
    split; [reflexivity | split; [cbn; lia | intros k s Hk; discriminate Hk]].
  - cbn [add_stories] in H. unfold add_story in H.
    destruct (already_in current story).
    + cbn [result_bind] in H. apply IH. exact H.
    + match type of H with
      | context [subscript ?d "summary"] => destruct (subscript d "summary") as [summary | e]
      end; [| discriminate H].
      cbn [result_bind] in H.
      apply IH in H as (added & -> & -> & Horder).
      eexists (_ :: added). split; [rewrite <- app_assoc; reflexivity |].
      split; [cbn [length]; lia |].
      intros [| k] s Hk.
      * injection Hk as <-. rewrite !lookup_insert_ne by discriminate.
        rewrite lookup_insert_eq. do 2 f_equal. lia.
      * rewrite (Horder k s Hk), length_app. cbn [length]. do 2 f_equal. lia.
Qed.

(** X13. The stories that one [send_to_rundown] appends to a rundown of
    [length current] segments get the order numbers [length current],
    [length current + 2], [length current + 4] and so on: the number
    rises by two from a story to the next, because the list has grown
    and the count of new stories is added to its length. *)
Theorem add_stories_order (selected current current' : list dict) (n' : Z) :
  add_stories selected (current, 0) = Ok (current', n') ->
  exists added,
    current' = current ++ added /\
    n' = Z.of_nat (length added) /\
    forall (k : nat) (story : dict),
      added !! k = Some story ->
      story !! "order" = Some (VInt (Z.of_nat (length current) + 2 * Z.of_nat k)).
Proof.
  intros H. apply add_stories_orders in H as (added & Hcur & Hn & Horder).
  exists added. split; [exact Hcur | split; [lia |]].
  intros k story Hk. rewrite (Horder k story Hk). do 2 f_equal. lia.
Qed.

Lemma add_stories_order_witness :
  exists current' n',
    add_stories [feed_story "One" "http://a"; feed_story "Two" "http://b";
                 feed_story "Three" "http://c"]
                ([segment_data "Zero" "http://z" "00:30"], 0) = Ok (current', n') /\
    exists added,
      current' = [segment_data "Zero" "http://z" "00:30"] ++ added /\
      n' = Z.of_nat (length added) /\
      forall (k : nat) (story : dict),
        added !! k = Some story ->
        story !! "order" = Some (VInt (Z.of_nat 1 + 2 * Z.of_nat k)).
Proof.
  assert (Hok : exists current' n',
             add_stories [feed_story "One" "http://a"; feed_story "Two" "http://b";
                          feed_story "Three" "http://c"]
                         ([segment_data "Zero" "http://z" "00:30"], 0)
             = Ok (current', n')).
  { eexists _, _. reflexivity. }
  destruct Hok as (current' & n' & H). exists current', n'.
  split; [exact H | exact (add_stories_order _ _ _ _ H)].
Defined.

(** ** Deleting a segment *)

(** X14. [delete_rundown_item] asks once; after Yes the row is gone and
    the other segments keep their order and every field but the
    backtime, after No the rundown is as it was. *)
Theorem delete_rundown_item_keeps_others (now : datetime) (row : nat) (yes : bool)
  (st : App) (item : Item) :
  rundown_tree st !! row = Some item ->
  no_backtime <$> rundown_tree (fst (delete_rundown_item now row yes st))
  = no_backtime <$> (if yes then delete row (rundown_tree st) else rundown_tree st) /\
  message_boxes (fst (delete_rundown_item now row yes st))
  = message_boxes st ++ [("Delete Rundown Item",
                          "Are you sure you want to delete '" +:+ text0 item
                          +:+ "' from the rundown?")].
Proof.
  intros Hitem.
  assert (Hrun : delete_rundown_item now row yes st
                 = (if yes
                    then (modify (fun st => set_rundown_tree
                                              (delete row (rundown_tree st)) st) ;;;
                          calculate_backtimes now)
                    else ret tt)
                     (set_message_boxes
                        (message_boxes st
                         ++ [("Delete Rundown Item",
                              "Are you sure you want to delete '" +:+ text0 item
                              +:+ "' from the rundown?")]) st)).
  { unfold delete_rundown_item, bind at 1, topLevelItem. rewrite Hitem.
    unfold bind at 1, message_box, modify at 1. reflexivity. }
  rewrite Hrun. destruct yes; [| split; reflexivity].
  unfold bind, modify.
  match goal with
  | |- context [calculate_backtimes now ?s] =>
      destruct (frame_calculate_backtimes now s) as (Htree & _ & _ & Hboxes & _)
  end.
  split; [exact Htree | exact Hboxes].
Qed.

Lemma delete_rundown_item_keeps_others_witness :
  text0 <$> rundown_tree (fst (delete_rundown_item noon 1 true rundown_with_break))
  = ["One"; "Three"; "Four"].
Proof.
  pose proof (delete_rundown_item_keeps_others noon 1 true rundown_with_break
                (switched_off (segment "Two" "http://b" "01:00" "")) eq_refl)
    as [Htree _].
  apply (f_equal (fmap text0)) in Htree.
  rewrite <- !list_fmap_compose in Htree. exact Htree.
Defined.

(** ** The backtime editor *)

Lemma editor_reopens_check :
  forallb (fun h => forallb (fun m =>
    match setEditorData_backtime
            (strftime_IMp {| ordinal := 1; clock := mk_time h m 0 0 |}),
          setEditorData_backtime (qtime_toString_hmmAP (mk_time h m 0 0)) with
    | Ok t, Ok t' =>
        (hour t =? h) && (minute t =? m) && (second t =? 0) && (microsecond t =? 0)
        && ((hour t' =? h) && (minute t' =? m) && (second t' =? 0)
            && (microsecond t' =? 0))
    | _, _ => false
    end) (Z.of_nat <$> seq 0 60)) (Z.of_nat <$> seq 0 24) = true.
Proof. vm_compute. reflexivity. Qed.

(** X15. The time editor of a backtime cell opens without an exception
    on every text that the scheduler writes into the cell and on every
    text that the editor itself stores there, at the hour and minute of
    that text. *)
Theorem backtime_editor_reopens (t : time) :
  valid_time t ->
  setEditorData_backtime (strftime_IMp {| ordinal := 1; clock := t |})
  = Ok {| hour := hour t; minute := minute t; second := 0; microsecond := 0 |} /\
  setEditorData_backtime (qtime_toString_hmmAP t)
  = Ok {| hour := hour t; minute := minute t; second := 0; microsecond := 0 |}.
Proof.
  intros (Hh & Hm & _).
  destruct t as [h m s us]; cbn [hour minute] in *.
  apply (in_range_nat 24) in Hh. apply (in_range_nat 60) in Hm.
  pose proof editor_reopens_check as H.
  rewrite forallb_forall in H. specialize (H h Hh).
  rewrite forallb_forall in H. specialize (H m Hm).
  change (strftime_IMp {| ordinal := 1; clock := mk_time h m s us |})
    with (strftime_IMp {| ordinal := 1; clock := mk_time h m 0 0 |}).
  change (qtime_toString_hmmAP (mk_time h m s us))
    with (qtime_toString_hmmAP (mk_time h m 0 0)).
  destruct (setEditorData_backtime (strftime_IMp _)) as [t1 | e1]; [| discriminate H].
  destruct (setEditorData_backtime (qtime_toString_hmmAP _)) as [t2 | e2];
    [| discriminate H].
  apply andb_true_iff in H as [H1 H2].
  split; f_equal; apply time_eqb_eq; assumption.
Qed.

Lemma backtime_editor_reopens_witness :
  setEditorData_backtime "05:58 PM"
  = Ok {| hour := 17; minute := 58; second := 0; microsecond := 0 |} /\
  setEditorData_backtime "5:58 PM"
  = Ok {| hour := 17; minute := 58; second := 0; microsecond := 0 |}.
Proof.
  apply (backtime_editor_reopens (mk_time 17 58 30 0)).
  unfold valid_time; simpl; lia.
Defined.

(** ** The check boxes and the scheduler *)

Lemma box_blind_ret {A : Type} (a : A) : box_blind (ret a).
Proof. intros row b st. reflexivity. Qed.

Lemma box_blind_lift {A : Type} (r : result A) : box_blind (lift r).
Proof. intros row b st. reflexivity. Qed.

Lemma box_blind_gets {A : Type} (f : App -> A) :
  (forall row b st, f (set_box row b st) = f st) -> box_blind (gets f).
Proof. intros Hf row b st. unfold gets. rewrite Hf. reflexivity. Qed.

Lemma box_blind_modify (g : App -> App) :
  (forall row b st, g (set_box row b st) = set_box row b (g st)) ->
  box_blind (modify g).
Proof. intros Hg row b st. unfold modify. rewrite Hg. reflexivity. Qed.

Lemma box_blind_bind {A B : Type} (m : M A) (k : A -> M B) :
  box_blind m -> (forall a, box_blind (k a)) -> box_blind (bind m k).
Proof.
  intros Hm Hk row b st. unfold bind. rewrite Hm.
  destruct (m st) as [st1 [a | e]]; cbn [fst snd]; [apply Hk | reflexivity].
Qed.

Lemma box_blind_finally {A : Type} (m : M A) (cleanup : App -> App) :
  box_blind m ->
  (forall row b st, cleanup (set_box row b st) = set_box row b (cleanup st)) ->
  box_blind (finally m cleanup).
Proof.
  intros Hm Hc row b st. unfold finally. rewrite Hm.
  destruct (m st) as [st1 r]; cbn [fst snd]. rewrite Hc. reflexivity.
Qed.

Lemma box_blind_for_each {A S : Type} (xs : list A) (body : A -> S -> M S) (acc : S) :
  (forall x a, box_blind (body x a)) -> box_blind (for_each xs body acc).
Proof.
  intros Hbody. revert acc.
  induction xs as [| x xs IH]; intros acc; cbn [for_each].
  - apply box_blind_ret.
  - apply box_blind_bind; [apply Hbody | intros a; apply IH].
Qed.

(** A method that reads an item, and nothing of its check box. *)
Lemma box_blind_item {B : Type} (i : nat) (k : Item -> M B) :
  (forall item, box_blind (k item)) ->
  (forall b item, k (setCheckState5 b item) = k item) ->
  box_blind (bind (topLevelItem i) k).
Proof.
  intros Hk Hsame row b st. unfold bind, topLevelItem.
  cbn [rundown_tree set_box set_rundown_tree]. rewrite list_lookup_alter.
  destruct (decide (row = i)) as [-> | Hne];
    destruct (rundown_tree st !! i) as [item |];
    cbn [fmap option_fmap option_map fst snd]; try reflexivity.
  - rewrite Hsame. apply Hk.
  - apply Hk.
Qed.

Lemma fmap_alter_same {A B : Type} (g : A -> B) (f : A -> A) (l : list A) (i : nat) :
  (forall x, l !! i = Some x -> g (f x) = g x) ->
  g <$> alter f i l = g <$> l.
Proof.
  revert i. induction l as [| y l IH]; intros i H; [reflexivity |].
  destruct i as [| i].
  - cbn. rewrite (H y eq_refl). reflexivity.
  - cbn. f_equal. apply IH. intros x Hx. apply H. exact Hx.
Qed.

Lemma alter_box_backtime (v : string) (i row : nat) (b : bool) (tree : list Item) :
  alter (setText3 v) i (alter (setCheckState5 b) row tree)
  = alter (setCheckState5 b) row (alter (setText3 v) i tree).
Proof.
  destruct (decide (i = row)) as [-> | Hne].
  - rewrite !list_alter_alter_eq. apply list_alter_ext; [| reflexivity].
    intros item _. reflexivity.
  - apply list_alter_alter_ne. exact Hne.
Qed.

Lemma box_blind_update_backtime (i : nat) (v : string) :
  box_blind (update_item i (setText3 v)).
Proof.
  apply box_blind_modify. intros row b st. unfold set_box, set_rundown_tree.
  cbn [rundown_tree articles_tree rundown_clock_label log_output
       recalculating_backtimes current_tab message_boxes].
  rewrite alter_box_backtime. reflexivity.
Qed.

Lemma box_blind_log_append (line : string) : box_blind (log_append line).
Proof. apply box_blind_modify. intros row b st. reflexivity. Qed.

Ltac box_step :=
  lazymatch goal with
  | |- box_blind (bind (topLevelItem _) _) =>
      apply box_blind_item; [intros | intros; reflexivity]
  | |- box_blind (bind _ _) => apply box_blind_bind; [| intros]
  | |- box_blind (ret _) => apply box_blind_ret
  | |- box_blind (lift _) => apply box_blind_lift
  | |- box_blind (update_item _ (setText3 _)) => apply box_blind_update_backtime
  | |- box_blind (log_append _) => apply box_blind_log_append
  | |- box_blind (gets _) =>
      apply box_blind_gets; intros; first [reflexivity | apply length_alter]
  | |- box_blind (modify _) => apply box_blind_modify; intros; reflexivity
  | |- box_blind (for_each _ _ _) => apply box_blind_for_each; intros
  | |- box_blind (finally _ _) => apply box_blind_finally; [| intros; reflexivity]
  | |- box_blind (if ?c then _ else _) => destruct c
  | |- box_blind (match ?x with _ => _ end) => destruct x
  | |- box_blind (let _ := _ in _) => cbv zeta
  end.

Lemma box_blind_add_duration (i : nat) (total : Z) : box_blind (add_duration i total).
Proof. unfold add_duration. repeat box_step. Qed.

Lemma box_blind_show_end (now : datetime) : box_blind (show_end now).
Proof. unfold show_end. repeat box_step. Qed.

Lemma box_blind_set_backtime (i : nat) (t : datetime) : box_blind (set_backtime i t).
Proof. unfold set_backtime. repeat box_step. Qed.

Lemma box_blind_calculate_backtimes (now : datetime) :
  box_blind (calculate_backtimes now).
Proof.
  unfold calculate_backtimes.
  repeat first [ apply box_blind_add_duration | apply box_blind_show_end
               | apply box_blind_set_backtime | box_step ].
Qed.

(** X16. The scheduler does not read the check boxes, and the slot of the
    rundown does not carry a changed box into the dictionary that the
    item stores: called for the check box of a segment, checked or
    cleared, the slot leaves the backtimes and the clock label that a
    pass of the scheduler would have left before the change. *)
Theorem active_box_ignored (now : datetime) (row : nat) (b : bool) (st : App)
  (item : Item) :
  rundown_tree st !! row = Some item ->
  has_data (user_data item) = true ->
  snd (handle_rundown_item_changed now row 5 (set_box row b st))
  = snd (calculate_backtimes now st) /\
  text3 <$> rundown_tree (fst (handle_rundown_item_changed now row 5 (set_box row b st)))
  = text3 <$> rundown_tree (fst (calculate_backtimes now st)) /\
  rundown_clock_label (fst (handle_rundown_item_changed now row 5 (set_box row b st)))
  = rundown_clock_label (fst (calculate_backtimes now st)).
Proof.
  intros Hitem Hdata.
  assert (Hrun : handle_rundown_item_changed now row 5 (set_box row b st)
                 = (calculate_backtimes now ;;; ret tt) (set_box row b st)).
  { unfold handle_rundown_item_changed. unfold bind at 1, topLevelItem at 1.
    cbn [rundown_tree set_box set_rundown_tree]. rewrite list_lookup_alter, Hitem.
    destruct (decide (row = row)); [| congruence].
    cbn [fmap option_fmap option_map user_data setCheckState5]. rewrite Hdata.
    change (5 =? 2) with false. change (5 =? 4) with false.
    change (5 =? 5) with true. change (5 =? 0) with false. cbv iota.
    reflexivity. }
  rewrite Hrun. unfold bind. rewrite (box_blind_calculate_backtimes now row b st).
  destruct (calculate_backtimes now st) as [st1 [[] | e]]; cbn [fst snd ret].
  - split; [reflexivity |]. split; [| reflexivity].
    cbn [rundown_tree set_box set_rundown_tree]. apply fmap_alter_same.
    intros x _. reflexivity.
  - split; [reflexivity |]. split; [| reflexivity].
    cbn [rundown_tree set_box set_rundown_tree]. apply fmap_alter_same.
    intros x _. reflexivity.
Qed.

Lemma active_box_ignored_witness :
  text3 <$> rundown_tree (fst (calculate_backtimes noon three_checked))
  = ["05:56 PM"; "05:57 PM"; "05:58 PM"] /\
  text3 <$> rundown_tree (fst (handle_rundown_item_changed noon 1 5
                                 (set_box 1 false three_checked)))
  = ["05:56 PM"; "05:57 PM"; "05:58 PM"].
Proof.
  assert (Hpass : text3 <$> rundown_tree (fst (calculate_backtimes noon three_checked))
                  = ["05:56 PM"; "05:57 PM"; "05:58 PM"]) by reflexivity.
  split; [exact Hpass |].
  destruct (active_box_ignored noon 1 false three_checked
              (segment "Two" "http://b" "01:00" "") eq_refl eq_refl)
    as (_ & Hrows & _).
  rewrite Hrows. exact Hpass.
Defined.

(** ** Stories in the rundown after [send_to_rundown] *)

(** X17. [send_to_rundown] keeps the links and ids of the rundown
    distinct: when no two segments of the rundown have the same link or
    the same id, none have after [send_to_rundown], whatever it was given
    and however it ends. *)
Theorem send_to_rundown_keeps_distinct (hash : pyval -> Z) (now1 now2 : datetime)
  (st : App) :
  distinct (stories_of (rundown_tree st)) ->
  distinct (stories_of (rundown_tree (fst (send_to_rundown hash now1 now2 st)))).
Proof. apply send_to_rundown_distinct. Qed.

Lemma send_to_rundown_keeps_distinct_witness :
  distinct (stories_of (rundown_tree newsroom)) /\
  distinct (stories_of (rundown_tree (fst (send_to_rundown (fun _ => 7) noon noon
                                             newsroom)))).
Proof.
  assert (H : distinct (stories_of (rundown_tree newsroom)))
    by (repeat constructor).
  split; [exact H |].
  exact (send_to_rundown_keeps_distinct (fun _ => 7) noon noon newsroom H).
Defined.

(** X23. A selected story that has the link or the id of a segment of
    the rundown counts for nothing in the loop of [send_to_rundown]: with
    it and without it the loop gives the same rundown and the same count
    of new stories, or ends in the same exception. *)
Theorem add_stories_ignores_duplicate
  (pre post : list dict) (story : dict) (current : list dict) (n : Z)
  (segment : dict) (key : string) (v : pyval) :
  key = "link" \/ key = "id" ->
  segment ∈ current -> segment !! key = Some v -> story !! key = Some v ->
  add_stories (pre ++ story :: post) (current, n) = add_stories (pre ++ post) (current, n).
Proof.
  intros Hkey Hin Hseg Hstory. apply add_stories_skip.
  eapply same_link_or_id_already_in; eassumption.
Qed.

Lemma add_stories_ignores_duplicate_witness :
  add_stories [feed_story "Three" "http://c"; feed_story "One" "http://a"]
              ([segment_data "One" "http://a" "00:30"], 0)
  = add_stories [feed_story "Three" "http://c"]
                ([segment_data "One" "http://a" "00:30"], 0).
Proof.
  apply (add_stories_ignores_duplicate [feed_story "Three" "http://c"] []
           (feed_story "One" "http://a") [segment_data "One" "http://a" "00:30"] 0
           (segment_data "One" "http://a" "00:30") "link" (VStr "http://a")).
  - left. reflexivity.
  - apply list_elem_of_here.
  - reflexivity.
  - reflexivity.
Defined.

(** ** The feed manager *)

Lemma existsb_feed_name (name : string) (feeds : list Feed) :
  existsb (fun feed => String.eqb (feed_name feed) name) feeds = false ->
  name ∉ feed_name <$> feeds.
Proof.
  induction feeds as [| feed feeds IH]; intros H.
  - apply not_elem_of_nil.
  - cbn [existsb] in H. apply orb_false_iff in H as [Hfeed Hrest].
    rewrite fmap_cons. apply not_elem_of_cons. split; [| apply IH; exact Hrest].
    intros ->. rewrite String.eqb_refl in Hfeed. discriminate Hfeed.
Qed.

(** X18. [add_feed] never removes or changes a feed, and it keeps the
    names of the feed list distinct: a feed is only added under a name
    that no feed has. *)
Theorem add_feed_names_unique (feed_name_edit feed_url_edit : string)
  (feed_list : list Feed) :
  NoDup (feed_name <$> feed_list) ->
  NoDup (feed_name <$> fst (add_feed feed_name_edit feed_url_edit feed_list)) /\
  feed_list `prefix_of` fst (add_feed feed_name_edit feed_url_edit feed_list).
Proof.
  intros Hnodup. unfold add_feed, get_current_feeds.
  destruct (String.eqb (strip feed_name_edit) "" || String.eqb (strip feed_url_edit) "");
    [split; [exact Hnodup | reflexivity] |].
  destruct (existsb _ feed_list) eqn:Hexists; [split; [exact Hnodup | reflexivity] |].
  cbn [fst]. split; [| apply prefix_app_r; reflexivity].
  rewrite fmap_app. apply NoDup_app. split; [exact Hnodup |]. split.
  - intros name Hin Hnew. cbn in Hnew. apply list_elem_of_singleton in Hnew. subst name.
    apply existsb_feed_name in Hexists. contradiction.
  - cbn. apply NoDup_singleton.
Qed.

Lemma add_feed_names_unique_witness :
  feed_name <$> fst (add_feed "  Reuters Business " "http://r" two_feeds)
  = ["BBC News - World"; "ESPN"; "Reuters Business"] /\
  NoDup (feed_name <$> fst (add_feed "  Reuters Business " "http://r" two_feeds)).
Proof.
  split; [reflexivity |].
  apply (add_feed_names_unique "  Reuters Business " "http://r" two_feeds).
  repeat constructor; cbn; intros H;
    repeat (apply elem_of_cons in H as [H | H]; [discriminate H |]);
    apply elem_of_nil in H; exact H.
Defined.

Lemma rename_feed_names (original_name new_name new_url : string) (feeds : list Feed) :
  original_name ∈ feed_name <$> feeds ->
  exists before after,
    feed_name <$> feeds = before ++ original_name :: after /\
    feed_name <$> rename_feed original_name new_name new_url feeds
    = before ++ new_name :: after.
Proof.
  induction feeds as [| feed feeds IH]; intros Hin.
  - apply elem_of_nil in Hin. contradiction.
  - cbn [rename_feed]. destruct (String.eqb_spec (feed_name feed) original_name) as [He | Hne].
    + exists [], (feed_name <$> feeds). rewrite !fmap_cons, He. split; reflexivity.
    + rewrite fmap_cons in Hin. apply elem_of_cons in Hin as [Hin | Hin]; [congruence |].
      destruct (IH Hin) as (before & after & Hnames & Hrenamed).
      exists (feed_name feed :: before), after. rewrite !fmap_cons, Hnames, Hrenamed.
      split; reflexivity.
Qed.

(** X19. [edit_feed] does not look for the new name in the list: when the
    current feed is renamed to the name of another feed, the list holds
    two feeds of that name. *)
Theorem edit_feed_duplicates (item other : Feed) (feed_name_edit feed_url_edit : string)
  (feed_list : list Feed) :
  item ∈ feed_list -> other ∈ feed_list ->
  feed_name other = strip feed_name_edit ->
  feed_name other <> feed_name item ->
  strip feed_name_edit <> "" -> strip feed_url_edit <> "" ->
  snd (edit_feed (Some item) feed_name_edit feed_url_edit feed_list) = None /\
  ~ NoDup (feed_name <$> fst (edit_feed (Some item) feed_name_edit feed_url_edit feed_list)).
Proof.
  intros Hitem Hother Hname Hdiff Hnew Hurl. unfold edit_feed, get_current_feeds.
  apply String.eqb_neq in Hnew. apply String.eqb_neq in Hurl. rewrite Hnew, Hurl.
  cbn [orb fst snd]. split; [reflexivity |].
  destruct (rename_feed_names (feed_name item) (strip feed_name_edit)
              (strip feed_url_edit) feed_list) as (before & after & Hnames & ->).
  { apply list_elem_of_fmap. exists item. split; [reflexivity | exact Hitem]. }
  assert (Hin : feed_name other ∈ before ++ feed_name item :: after).
  { rewrite <- Hnames. apply list_elem_of_fmap. exists other. split; [reflexivity | exact Hother]. }
  rewrite <- Hname. intros Hnodup.
  apply NoDup_app in Hnodup as (_ & Hbefore & Hafter).
  apply NoDup_cons in Hafter as [Hafter _].
  apply elem_of_app in Hin as [Hin | Hin].
  - apply (Hbefore _ Hin). left.
  - apply elem_of_cons in Hin as [Hin | Hin]; [contradiction | contradiction].
Qed.

Lemma edit_feed_duplicates_witness :
  feed_name <$> fst (edit_feed (Some {| feed_name := "ESPN";
                                        feed_url := "https://www.espn.com/espn/rss/news" |})
                               "BBC News - World" "http://x" two_feeds)
  = ["BBC News - World"; "BBC News - World"] /\
  ~ NoDup (feed_name <$> fst (edit_feed (Some {| feed_name := "ESPN";
                                                 feed_url := "https://www.espn.com/espn/rss/news" |})
                                        "BBC News - World" "http://x" two_feeds)).
Proof.
  split; [reflexivity |].
  apply (edit_feed_duplicates
           {| feed_name := "ESPN"; feed_url := "https://www.espn.com/espn/rss/news" |}
           {| feed_name := "BBC News - World";
              feed_url := "http://feeds.bbci.co.uk/news/world/rss.xml" |}).
  - right. left.
  - left.
  - reflexivity.
  - discriminate.
  - discriminate.
  - discriminate.
Defined.

(** ** Segments that [send_to_rundown] makes can be moved *)

Lemma add_item_built (story_data : dict) (st st' : App) :
  has_segment_keys story_data ->
  add_item story_data tt st = (st', Ok tt) ->
  exists item,
    rundown_tree st' = rundown_tree st ++ [item] /\
    item_of_data (user_data item) = Ok item.
Proof.
  intros ([duration Hduration] & [backtime Hbacktime] & [profile Hprofile]
          & [active Hactive]).
  unfold add_item, bind, gets, modify, lift, update_item, subscript, dict_get.
  cbn [rundown_tree set_rundown_tree].
  rewrite Hduration, Hbacktime, Hprofile, Hactive.
  destruct (story_data !! "title") as [title |] eqn:Htitle; [| discriminate 1].
  cbn [result_bind]. destruct (as_str title) as [title' |] eqn:Htitle'; [| discriminate 1].
  destruct (story_data !! "source") as [source |] eqn:Hsource; [| discriminate 1].
  cbn [result_bind].
  destruct (as_str source) as [source' |] eqn:Hsource'; [| discriminate 1].
  unfold default, from_option, id.
  destruct (as_str duration) as [duration' |] eqn:Hduration'; [| discriminate 1].
  destruct (as_str backtime) as [backtime' |] eqn:Hbacktime'; [| discriminate 1].
  destruct (as_str profile) as [profile' |] eqn:Hprofile'; [| discriminate 1].
  cbv beta iota zeta delta [modify]. cbn [rundown_tree set_rundown_tree].
  rewrite !alter_last. intros H. injection H as <-.
  eexists. split; [reflexivity |].
  unfold item_of_data, subscript. cbn [user_data setData0 rundown_tree set_rundown_tree].
  rewrite Htitle, Hsource, Hduration, Hbacktime, Hprofile, Hactive.
  cbn [result_bind].
  rewrite Htitle', Hsource', Hduration', Hbacktime', Hprofile'.
  reflexivity.
Qed.

Lemma add_items_built (rundown_data : list dict) (st st' : App) :
  Forall has_segment_keys rundown_data ->
  for_each rundown_data add_item tt st = (st', Ok tt) ->
  exists items,
    rundown_tree st' = rundown_tree st ++ items /\
    Forall (fun item => item_of_data (user_data item) = Ok item) items.
Proof.
  revert st. induction rundown_data as [| story_data rundown_data IH]; intros st Hkeys H.
  - injection H as <-. exists []. rewrite app_nil_r. split; [reflexivity | constructor].
  - apply Forall_cons in Hkeys as [Hkey Hkeys].
    cbn [for_each] in H. apply bind_inv_ok in H as (st1 & [] & Hadd & Hrest).
    apply (add_item_built _ _ _ Hkey) in Hadd as (item & Htree & Hitem).
    apply (IH _ Hkeys) in Hrest as (items & Htree' & Hitems).
    exists (item :: items). split.
    + rewrite Htree', Htree, <- app_assoc. reflexivity.
    + constructor; assumption.
Qed.

Lemma is_Some_insert_other (key key' : string) (v : pyval) (d : dict) :
  is_Some (d !! key) -> is_Some (<[key' := v]> d !! key).
Proof.
  intros H. destruct (decide (key' = key)) as [-> | Hne].
  - rewrite lookup_insert_eq. eauto.
  - rewrite lookup_insert_ne by exact Hne. exact H.
Qed.

Lemma is_Some_insert (key : string) (v : pyval) (d : dict) :
  is_Some (<[key := v]> d !! key).
Proof. rewrite lookup_insert_eq. eauto. Qed.

Ltac segment_keys :=
  unfold has_segment_keys;
  repeat split;
  repeat first [ apply is_Some_insert | apply is_Some_insert_other ].

Lemma story_of_item_segment_keys (tree : list Item) :
  Forall has_segment_keys (omap story_of_item tree).
Proof.
  induction tree as [| item tree IH]; [constructor |].
  cbn [omap list_omap]. unfold story_of_item at 1.
  destruct (user_data item) as [story_data |]; [| exact IH].
  destruct (has_data (Some story_data)); [| exact IH].
  constructor; [segment_keys | exact IH].
Qed.

Lemma add_stories_keys (selected : list dict) :
  forall (current : list dict) (n : Z) (current' : list dict) (n' : Z),
  add_stories selected (current, n) = Ok (current', n') ->
  Forall has_segment_keys current -> Forall has_segment_keys current'.
Proof.
  induction selected as [| story selected IH]; intros current n current' n' H Hkeys.
  - injection H as <- <-. exact Hkeys.
  - cbn [add_stories] in H. unfold add_story in H.
    destruct (already_in current story).
    + cbn [result_bind] in H. eapply IH; eassumption.
    + match type of H with
      | context [subscript ?d "summary"] => destruct (subscript d "summary") as [summary | e]
      end; [| discriminate H].
      cbn [result_bind] in H. eapply IH; [exact H |].
      apply Forall_app. split; [exact Hkeys |]. constructor; [| constructor].
      segment_keys.
Qed.

Lemma movable_rows (tree tree' : list Item) :
  no_backtime <$> tree' = no_backtime <$> tree ->
  Forall (fun item => item_of_data (user_data item) = Ok item) tree ->
  Forall movable tree'.
Proof.
  revert tree'. induction tree as [| item tree IH]; intros [| item' tree'] Hrows Hall;
    try discriminate Hrows; [constructor |].
  rewrite !fmap_cons in Hrows.
  assert (Hitem : no_backtime item' = no_backtime item) by congruence.
  assert (Hrows' : no_backtime <$> tree' = no_backtime <$> tree) by congruence.
  apply Forall_cons in Hall as [Hdata Hall].
  constructor; [| apply IH; assumption].
  exists (text3 item). destruct item, item'. unfold no_backtime, setText3 in Hitem.
  cbn in Hitem. injection Hitem as -> -> -> -> -> ->. exact Hdata.
Qed.

Lemma same_rows_refl (st : App) : same_rows st st.
Proof. reflexivity. Qed.

Lemma same_rows_trans (a b c : App) : same_rows a b -> same_rows b c -> same_rows a c.
Proof. unfold same_rows. congruence. Qed.

Lemma same_rows_calculate_backtimes (now : datetime) :
  preserves same_rows (calculate_backtimes now).
Proof. intros st. destruct (frame_calculate_backtimes now st) as (H & _). exact H. Qed.

Lemma same_rows_layout_rows : preserves same_rows layout_rows.
Proof. intros st. unfold layout_rows. destruct (existsb _ _); reflexivity. Qed.

Lemma same_rows_setCurrentWidget (now : datetime) (w : tab) :
  preserves same_rows (setCurrentWidget now w).
Proof.
  unfold setCurrentWidget, on_tab_changed.
  apply (preserves_bind same_rows same_rows_trans);
    [apply (preserves_gets same_rows same_rows_refl) | intros current].
  destruct (decide (current = w)); [apply (preserves_ret same_rows same_rows_refl) |].
  apply (preserves_bind same_rows same_rows_trans);
    [intros st; reflexivity | intros _].
  apply (preserves_bind same_rows same_rows_trans); [| intros _].
  - destruct (decide (w = RundownTab));
      [apply same_rows_layout_rows | apply (preserves_ret same_rows same_rows_refl)].
  - destruct (decide (w = RundownTab));
      [apply same_rows_calculate_backtimes
      | apply (preserves_ret same_rows same_rows_refl)].
Qed.

Lemma as_str_cases (v : pyval) :
  (exists s, as_str v = Ok s) \/ as_str v = Raise TypeError.
Proof. destruct v; cbn [as_str]; eauto. Qed.

Ltac raised :=
  cbv beta iota zeta delta [result_bind]; let H := fresh in intros H; congruence.

(** What [add_item] raises is the [KeyError] of a missing title or
    source, or the [TypeError] of a field that is no text. *)
Lemma add_item_raises (story_data : dict) (st st' : App) (e : exn) :
  add_item story_data tt st = (st', Raise e) -> e <> NameError.
Proof.
  unfold add_item, bind, gets, lift, update_item, modify, subscript.
  destruct (story_data !! "title") as [title |]; [| raised].
  cbn [result_bind]. destruct (as_str_cases title) as [[? ->] | ->]; [| raised].
  destruct (story_data !! "source") as [source |]; [| raised].
  cbn [result_bind]. destruct (as_str_cases source) as [[? ->] | ->]; [| raised].
  destruct (as_str_cases (dict_get story_data "duration" (VStr "00:00")))
    as [[? ->] | ->]; [| raised].
  destruct (as_str_cases (dict_get story_data "backtime" (VStr "00:00 AM")))
    as [[? ->] | ->]; [| raised].
  destruct (as_str_cases (dict_get story_data "profile" (VStr "Default Narrator")))
    as [[? ->] | ->]; [| raised].
  raised.
Qed.

Lemma add_items_raise (rundown_data : list dict) (st st' : App) (e : exn) :
  for_each rundown_data add_item tt st = (st', Raise e) -> e <> NameError.
Proof.
  revert st. induction rundown_data as [| story_data rundown_data IH]; intros st;
    cbn [for_each].
  - unfold ret. intros H. congruence.
  - unfold bind. destruct (add_item story_data tt st) as [st1 [[] | e1]] eqn:Hadd.
    + apply IH.
    + intros H. injection H as <- <-. eapply add_item_raises. exact Hadd.
Qed.

(** [update_rundown_tree] either ends in the error of a story that is no
    segment, or leaves rows that show what their dictionaries hold. *)
Lemma update_rundown_tree_built (rundown_data : list dict) (st st' : App)
  (r : result unit) :
  Forall has_segment_keys rundown_data ->
  update_rundown_tree rundown_data st = (st', r) ->
  (exists e, r = Raise e /\ e <> NameError) \/
  Forall (fun item => item_of_data (user_data item) = Ok item) (rundown_tree st').
Proof.
  intros Hkeys. unfold update_rundown_tree. unfold bind at 1, modify at 1.
  unfold bind.
  destruct (for_each rundown_data add_item tt (set_rundown_tree [] st))
    as [st1 [[] | e]] eqn:Hfill.
  - apply add_items_built in Hfill as (items & Htree & Hitems); [| exact Hkeys].
    cbn [rundown_tree set_rundown_tree] in Htree. rewrite app_nil_l in Htree.
    unfold layout_rows. destruct (existsb titled (rundown_tree st1));
      intros H; injection H as <- _; right; rewrite Htree; exact Hitems.
  - intros H. injection H as <- <-. left. exists e.
    split; [reflexivity | eapply add_items_raise; exact Hfill].
Qed.

(** X20. When [send_to_rundown] has added rows to the rundown and ended
    without an error, or with the [NameError] of the layout, every
    segment of the rundown it leaves can be moved: the dictionary of each
    item holds the title, source, duration, profile and check box that
    the item shows, which is what [move_rundown_item] builds the moved
    item from. *)
Theorem send_to_rundown_items_movable (hash : pyval -> Z) (now1 now2 : datetime)
  (st : App) :
  snd (send_to_rundown hash now1 now2 st) = Ok tt \/
  snd (send_to_rundown hash now1 now2 st) = Raise NameError ->
  (length (rundown_tree st)
   < length (rundown_tree (fst (send_to_rundown hash now1 now2 st))))%nat ->
  Forall movable (rundown_tree (fst (send_to_rundown hash now1 now2 st))).
Proof.
  intros Hres Hgrown.
  destruct (send_to_rundown hash now1 now2 st) as [st' r] eqn:Hrun.
  cbn [fst snd] in *.
  unfold send_to_rundown in Hrun. unfold bind at 1 in Hrun.
  destruct (select_categories hash (articles_tree st)) as [selected | e0].
  2: { injection Hrun as <- _. lia. }
  destruct selected as [| story selected].
  { unfold message_box, modify in Hrun. injection Hrun as <- _.
    cbn [rundown_tree set_message_boxes] in Hgrown. lia. }
  unfold bind at 1, get_rundown_items at 1 in Hrun.
  unfold bind at 1, gets at 1 in Hrun. unfold ret at 1 in Hrun.
  unfold bind at 1, lift at 1 in Hrun.
  destruct (add_stories (story :: selected) _) as [[current' n'] | e1] eqn:Hadd.
  2: { injection Hrun as <- _. lia. }
  assert (Hkeys : Forall has_segment_keys current').
  { eapply add_stories_keys; [exact Hadd | apply story_of_item_segment_keys]. }
  destruct (0 <? n').
  2: { unfold message_box, modify in Hrun. injection Hrun as <- _.
       cbn [rundown_tree set_message_boxes] in Hgrown. lia. }
  unfold bind at 1 in Hrun.
  destruct (update_rundown_tree current' st) as [st4 r4] eqn:Hupd.
  destruct (update_rundown_tree_built _ _ _ _ Hkeys Hupd) as [(e & -> & Hne) | Hbuilt].
  { injection Hrun as _ <-. destruct Hres as [Hres | Hres]; congruence. }
  apply (movable_rows (rundown_tree st4)); [| exact Hbuilt].
  destruct r4 as [[] | e4].
  2: { injection Hrun as <- _. reflexivity. }
  match type of Hrun with
  | ?m st4 = _ => assert (Hrows : preserves same_rows m)
  end.
  { apply (preserves_bind same_rows same_rows_trans);
      [apply same_rows_calculate_backtimes | intros _].
    apply (preserves_bind same_rows same_rows_trans);
      [intros s; reflexivity | intros _].
    apply same_rows_setCurrentWidget. }
  specialize (Hrows st4). rewrite Hrun in Hrows. exact Hrows.
Qed.

Lemma send_to_rundown_items_movable_witness :
  snd (send_to_rundown (fun _ => 7) noon noon newsroom) = Raise NameError /\
  text0 <$> rundown_tree (fst (send_to_rundown (fun _ => 7) noon noon newsroom))
  = ["One"; "Two"; "Three"] /\
  Forall movable (rundown_tree (fst (send_to_rundown (fun _ => 7) noon noon newsroom))).
Proof.
  assert (Hres : snd (send_to_rundown (fun _ => 7) noon noon newsroom) = Raise NameError)
    by (vm_compute; reflexivity).
  split; [exact Hres |]. split; [vm_compute; reflexivity |].
  apply send_to_rundown_items_movable; [right; exact Hres | vm_compute; lia].
Defined.

(** ** The end of a show without a backtime *)

Lemma half_hour_later (now : datetime) :
  valid_datetime now -> in_calendar (seconds_of_datetime now + 1800) ->
  exists t,
    add_datetime_timedelta now {| days := 0; seconds := 1800; microseconds := 0 |} 1 = Ok t /\
    {| ordinal := ordinal t;
       clock := {| hour := hour (clock t); minute := minute (clock t);
                   second := 0; microsecond := 0 |} |}
    = datetime_of_seconds ((seconds_of_datetime now + 1800) / 60 * 60).
Proof.
  intros (Ho & Hc) Hin. pose proof (seconds_of_time_range _ Hc) as Hs.
  destruct Hc as (_ & _ & _ & Hus).
  unfold in_calendar, seconds_of_datetime, MAXORDINAL in *.
  unfold add_datetime_timedelta. cbn [days seconds microseconds].
  replace (microsecond (clock now) + 1 * 0) with (microsecond (clock now)) by lia.
  rewrite (Z.div_small (microsecond (clock now)) 1000000) by lia.
  set (s := seconds_of_time (clock now) + 1 * 1800 + 0).
  set (r := s mod 86400).
  pose proof (Z.div_mod s 86400 ltac:(lia)) as Hdiv. fold r in Hdiv.
  pose proof (Z.mod_pos_bound s 86400 ltac:(lia)) as Hr. fold r in Hr.
  assert (Hq : 0 <= s / 86400 <= 1) by (unfold s in *; lia).
  replace ((1 <=? ordinal now + 1 * 0 + s / 86400)
           && (ordinal now + 1 * 0 + s / 86400 <=? MAXORDINAL)) with true
    by (symmetry; apply andb_true_iff; unfold MAXORDINAL, s in *;
        split; apply Z.leb_le; lia).
  eexists. split; [reflexivity |]. cbn [ordinal clock].
  pose proof (time_of_seconds_valid r Hr) as (Hh & Hm & _).
  pose proof (seconds_of_time_of_seconds r Hr) as Hsec.
  unfold time_of_seconds in Hh, Hm, Hsec |- *.
  unfold seconds_of_time in Hsec. cbn [hour minute second microsecond] in *.
  set (h := r / 3600) in *. set (m := r mod 3600 / 60) in *.
  pose proof (Z.mod_pos_bound r 60 ltac:(lia)) as Hs0.
  assert (Hfloor : (ordinal now * 86400 + seconds_of_time (clock now) + 1800) / 60 * 60
                   = (h * 3600 + m * 60) + (ordinal now + s / 86400) * 86400).
  { assert (Hx : ordinal now * 86400 + seconds_of_time (clock now) + 1800
                 = r mod 60 + (h * 60 + m + (ordinal now + s / 86400) * 1440) * 60)
      by (unfold s in *; lia).
    rewrite Hx, Z_div_plus_full, (Z.div_small (r mod 60) 60) by lia. lia. }
  unfold datetime_of_seconds. rewrite Hfloor, Z_div_plus_full, Z_mod_plus_full by lia.
  assert (Hhm : 0 <= h * 3600 + m * 60 < 86400) by lia.
  rewrite (Z.div_small (h * 3600 + m * 60) 86400),
          (Z.mod_small (h * 3600 + m * 60) 86400) by exact Hhm.
  f_equal; [lia |].
  replace (h * 3600 + m * 60)
    with (seconds_of_time {| hour := h; minute := m; second := 0; microsecond := 0 |}
          mod 86400)
    by (unfold seconds_of_time; cbn [hour minute second];
        rewrite Z.mod_small by lia; lia).
  symmetry. apply time_of_seconds_of_time; [| reflexivity].
  unfold valid_time. cbn. lia.
Qed.

Lemma show_end_half_hour (now : datetime) (st : App) :
  valid_datetime now -> in_calendar (seconds_of_datetime now + 1800) ->
  (forall item, rundown_tree st !! (length (rundown_tree st) - 1)%nat = Some item ->
                parse_backtime_string (text3 item) = None) ->
  snd (show_end now st)
  = Ok (datetime_of_seconds ((seconds_of_datetime now + 1800) / 60 * 60)).
Proof.
  intros Hnow Hin Hlast.
  destruct (half_hour_later now Hnow Hin) as (t & Hadd & Ht).
  assert (Hdefault : forall st1,
            snd ((half_hour <- lift (timedelta_new 0 (30 * 60) 0) ;;
                  t <- lift (add_datetime_timedelta now half_hour 1) ;;
                  ret {| ordinal := ordinal t;
                         clock := {| hour := hour (clock t); minute := minute (clock t);
                                     second := 0; microsecond := 0 |} |}) st1)
            = Ok (datetime_of_seconds ((seconds_of_datetime now + 1800) / 60 * 60))).
  { intros st1. unfold bind, lift, ret.
    change (timedelta_new 0 (30 * 60) 0)
      with (Ok {| days := 0; seconds := 1800; microseconds := 0 |}).
    cbv beta iota. rewrite Hadd. cbn [snd]. rewrite Ht. reflexivity. }
  unfold show_end. unfold bind at 1, gets at 1.
  set (count := length (rundown_tree st)) in *.
  assert (Hstr : exists str,
            (if (0 <? count)%nat
             then last_item <- topLevelItem (count - 1) ;; ret (text3 last_item)
             else ret "") st = (st, Ok str) /\
            parse_backtime_string str = None).
  { destruct (0 <? count)%nat eqn:Hcount.
    - apply Nat.ltb_lt in Hcount.
      destruct (lookup_lt_is_Some_2 (rundown_tree st) (count - 1)%nat ltac:(unfold count; lia))
        as [item Hitem].
      exists (text3 item). split; [| apply Hlast; exact Hitem].
      unfold bind, topLevelItem, ret. rewrite Hitem. reflexivity.
    - exists "". split; reflexivity. }
  destruct Hstr as (str & Hrun & Hnone).
  rewrite (bind_ok _ _ _ _ _ Hrun). rewrite Hnone.
  destruct (negb (String.eqb str "")).
  - unfold bind at 1, bind at 1, log_append at 1, modify at 1, ret at 1.
    cbv beta iota. apply Hdefault.
  - unfold bind at 1, ret at 1. apply Hdefault.
Qed.

(** X21. When the last row of the rundown has no backtime that reads as a
    time of day, or there is no row, the show ends half an hour after the
    clock, cut to the minute: between 29 and 30 minutes from the second
    of the clock. *)
Theorem default_show_end (now : datetime) (st : App) :
  valid_datetime now -> in_calendar (seconds_of_datetime now + 1800) ->
  (forall item, rundown_tree st !! (length (rundown_tree st) - 1)%nat = Some item ->
                parse_backtime_string (text3 item) = None) ->
  snd (show_end now st)
  = Ok (datetime_of_seconds ((seconds_of_datetime now + 1800) / 60 * 60)) /\
  seconds_of_datetime now + 1740 < (seconds_of_datetime now + 1800) / 60 * 60
  <= seconds_of_datetime now + 1800.
Proof.
  intros Hnow Hin Hlast. split; [apply show_end_half_hour; assumption |].
  pose proof (Z.div_mod (seconds_of_datetime now + 1800) 60 ltac:(lia)).
  pose proof (Z.mod_pos_bound (seconds_of_datetime now + 1800) 60 ltac:(lia)).
  lia.
Qed.

Lemma default_show_end_witness :
  snd (show_end {| ordinal := 738886;
                   clock := {| hour := 12; minute := 0; second := 45; microsecond := 0 |} |}
                one_segment)
  = Ok {| ordinal := 738886;
          clock := {| hour := 12; minute := 30; second := 0; microsecond := 0 |} |}.
Proof.
  destruct (default_show_end
              {| ordinal := 738886;
                 clock := {| hour := 12; minute := 0; second := 45; microsecond := 0 |} |}
              one_segment) as (Hend & _).
  - unfold valid_datetime, valid_time, MAXORDINAL. simpl. lia.
  - unfold in_calendar, MAXORDINAL, seconds_of_datetime, seconds_of_time. simpl. lia.
  - intros item Hitem.
    change (Some (segment "Headline" "http://a" "00:30" "") = Some item) in Hitem.
    injection Hitem as <-. reflexivity.
  - rewrite Hend. reflexivity.
Defined.
